(** * Deep_Secure: the deepfake and geospatial scoring engines

    A shallow embedding of [backend/app/detection_engine.py] and
    [backend/app/geospatial_engine.py], and the properties of the
    scoring pipeline proved or refuted on it.

    Modelling conventions.
    - Python [float] values are exact rationals ([Q]); a decimal literal of
      the source denotes its decimal value, and results are compared with
      [==].  This is the arithmetic of the source without rounding.  Where a
      property depends on the last digits of a result, the module [F64]
      redoes the arithmetic in binary64 (Rocq's primitive floats) and the
      property is stated on its value; [nan] and infinities are outside the
      model.
    - A [dict] is a [gmap] with string keys; [d.get(k, v)] is
      [default v (d !! k)].  The one dictionary whose iteration order is
      observed ([manipulation_scores]) is an insertion-ordered association
      list.
    - Exceptions and the two pieces of ambient state the engines touch (the
      wall clock and, as ghost state, the log of engine methods entered) are
      threaded through the monad [M].
    - OpenCV is an environment [Env]: opening a container, the per-frame
      image measurements, the file system test and the clock are fields of
      it.  Logging has no effect on results and is left out. *)

From Stdlib Require Import Floats.
From Stdlib Require Import QArith Qabs Lqa ZArith List.
From stdpp Require Import gmap strings list fin_maps.

Set Warnings "-register-all,-inexact-float".
Local Open Scope Q_scope.

(** ** Numbers *)

Definition Qlt_bool (a b : Q) : bool := negb (Qle_bool b a).
Definition Qgt_bool (a b : Q) : bool := Qlt_bool b a.

Definition Q_of_nat (n : nat) : Q := inject_Z (Z.of_nat n).

(** Python's [sum]: a left fold starting from 0. *)
Definition py_sum (l : list Q) : Q := foldl Qplus 0 l.

(** [np.mean] and [np.var] (population variance) of a non-empty list.  On the
    empty list numpy yields [nan] with a warning; the only call site that can
    pass an empty list ([analyze_compression_artifacts]) raises right after
    it, so the value is never observed. *)
Definition np_mean (l : list Q) : Q := py_sum l / Q_of_nat (length l).

Definition np_var (l : list Q) : Q :=
  let m := np_mean l in
  np_mean ((fun x => (x - m) * (x - m)) <$> l).

(** ** Exceptions, state and the monad *)

Inductive exn :=
| ValueError (msg : string)
| ZeroDivisionError (msg : string)
| TypeError (msg : string)
| Cv2Error (msg : string).

(** [str(e)] *)
Definition exn_str (e : exn) : string :=
  match e with
  | ValueError m | ZeroDivisionError m | TypeError m | Cv2Error m => m
  end.

Inductive outcome (A : Type) :=
| Returns (a : A)
| Raises (e : exn).
Arguments Returns {A} a.
Arguments Raises {A} e.

(** [clock_reads]: how many times [datetime.now()] has been called;
    [calls]: the engine methods entered so far, oldest first. *)
Record Sys := mkSys { clock_reads : nat; calls : list string }.

Definition M (A : Type) : Type := Sys -> outcome A * Sys.

Definition ret {A} (a : A) : M A := fun s => (Returns a, s).

Definition bind {A B} (m : M A) (k : A -> M B) : M B :=
  fun s =>
    match m s with
    | (Returns a, s') => k a s'
    | (Raises e, s') => (Raises e, s')
    end.

Definition raise {A} (e : exn) : M A := fun s => (Raises e, s).

(** [try: body except Exception as e: handler e] *)
Definition try_except {A} (body : M A) (handler : exn -> M A) : M A :=
  fun s =>
    match body s with
    | (Returns a, s') => (Returns a, s')
    | (Raises e, s') => handler e s'
    end.

Definition lift {A} (o : outcome A) : M A := fun s => (o, s).

Definition enter (method : string) : M unit :=
  fun s => (Returns tt, mkSys (clock_reads s) (calls s ++ [method])).

#[global] Instance M_ret : MRet M := @ret.
#[global] Instance M_bind : MBind M := fun A B k m => bind m k.

(** [np.max]: raises on the empty list. *)
Definition Qmax_b (a b : Q) : Q := if Qle_bool a b then b else a.

Definition np_max (l : list Q) : M Q :=
  match l with
  | [] => raise (ValueError
      "zero-size array to reduction operation maximum which has no identity")
  | x :: l' => ret (foldl Qmax_b x l')
  end.

(** ** Python values of the result records *)

Inductive pyval :=
| VFloat (q : Q)
| VInt (z : Z)
| VStr (s : string)
| VNone
| VList (l : list pyval)
| VDict (d : gmap string pyval).

Definition VReport (r : gmap string Q) : pyval := VDict (VFloat <$> r).

Definition opt_val {A} (f : A -> pyval) (o : option A) : pyval :=
  match o with Some a => f a | None => VNone end.

(** A value used in float arithmetic. *)
Definition as_float (v : pyval) : M Q :=
  match v with
  | VFloat q => ret q
  | VInt z => ret (inject_Z z)
  | _ => raise (TypeError "unsupported operand type(s)")
  end.

(** ** The OpenCV environment *)

(** A decoded frame: rows of (B, G, R) pixels, 8 bits per plane. *)
Definition Frame : Type := list (list (Z * Z * Z)).

(** An opened [cv2.VideoCapture]: the two container properties the engines
    query and the results of the successive [read()] calls ([None] is
    [ret = False]); reading past the end keeps failing. *)
Record capture := mkCapture {
  CAP_PROP_FPS : Q;
  CAP_PROP_FRAME_COUNT : Z;
  stream : list (option Frame)
}.

(** What OpenCV hands back for a path it could not open: every property
    reads 0 and every [read()] fails. *)
Definition unopened : capture := mkCapture 0 0 [].

Record Env := mkEnv {
  (** [cv2.VideoCapture(path)] with the property queries; raises only when
      OpenCV itself fails. *)
  VideoCapture : string -> outcome capture;
  (** [len(self.detect_faces(frame))] *)
  face_count : Frame -> nat;
  (** [np.mean] of the L channel of the frame in LAB *)
  mean_lightness : Frame -> Q;
  (** [np.std(filtered) / 255.0] for the high-pass filtered grey frame *)
  artifact_score : Frame -> Q;
  (** mean Farneback flow magnitude between two frames *)
  motion_magnitude : Frame -> Frame -> Q;
  (** [os.path.exists] *)
  path_exists : string -> bool;
  (** the [k]-th reading of [datetime.now()], in seconds *)
  now : nat -> Q;
  (** [datetime.isoformat] *)
  isoformat : Q -> string
}.

Definition datetime_now (env : Env) : M Q :=
  fun s => (Returns (now env (clock_reads s)),
            mkSys (S (clock_reads s)) (calls s)).

(** [cap.read()] *)
Definition cap_read (s : list (option Frame))
  : option Frame * list (option Frame) :=
  match s with
  | [] => (None, [])
  | r :: s' => (r, s')
  end.

(** ** detection_engine.py: [DeepfakeDetectionEngine] *)

Section DetectionEngine.
Variable env : Env.

(** The [while] loop of [extract_frames].  [n] bounds the iterations left;
    started at [total_frames] it is never the reason the loop stops
    ([extract_loop_fuel]). *)
Fixpoint extract_loop (max_frames total_frames frame_interval : Z) (n : nat)
    (cap : list (option Frame)) (frame_count : Z) (frames : list Frame)
  : list Frame :=
  match n with
  | O => frames
  | S n' =>
    if (Z.of_nat (length frames) <? max_frames)%Z
       && (frame_count <? total_frames)%Z
    then
      let '(ret_frame, cap') := cap_read cap in
      let frames' :=
        match ret_frame with
        | Some frame =>
          if (frame_count `mod` frame_interval =? 0)%Z
          then frames ++ [frame] else frames
        | None => frames
        end in
      extract_loop max_frames total_frames frame_interval n' cap'
                   (frame_count + 1)%Z frames'
    else frames
  end.

(** The sampling arithmetic shared by [extract_frames] and
    [_extract_sample_frames]; [//] raises on a zero divisor. *)
Definition sample_frames (cap : capture) (max_frames : Z) : M (list Frame) :=
  let total_frames := CAP_PROP_FRAME_COUNT cap in
  if (max_frames =? 0)%Z
  then raise (ZeroDivisionError "integer division or modulo by zero")
  else
    let frame_interval := Z.max 1 (total_frames `div` max_frames) in
    mret (extract_loop max_frames total_frames frame_interval
            (Z.to_nat total_frames) (stream cap) 0%Z []).

Definition extract_frames (video_path : string) (max_frames : Z)
  : M (list Frame) :=
  cap ← lift (VideoCapture env video_path);
  sample_frames cap max_frames.

Definition analyze_face_consistency (frames : list Frame)
  : M (gmap string Q) :=
  if (length frames <? 2)%nat
  then mret {[ "consistency_score" := 0.0; "face_count_variance" := 0.0 ]}
  else
    let face_counts := (fun frame => Q_of_nat (face_count env frame)) <$> frames in
    let face_count_variance :=
      if (1 <? length face_counts)%nat then np_var face_counts else 0 in
    let consistency_score := 1.0 / (1.0 + face_count_variance) in
    mret {[ "consistency_score" := consistency_score;
            "face_count_variance" := face_count_variance;
            "total_faces_detected" := py_sum face_counts ]}.

Definition analyze_lighting_consistency (frames : list Frame)
  : M (gmap string Q) :=
  if (length frames <? 2)%nat
  then mret {[ "lighting_variance" := 0.0; "shadow_consistency" := 0.0 ]}
  else
    let lighting_values := mean_lightness env <$> frames in
    let lighting_variance :=
      if (1 <? length lighting_values)%nat then np_var lighting_values else 0 in
    let shadow_consistency := 1.0 / (1.0 + lighting_variance / 100.0) in
    mret {[ "lighting_variance" := lighting_variance;
            "shadow_consistency" := shadow_consistency;
            "mean_lighting" := np_mean lighting_values ]}.

Definition analyze_compression_artifacts (frames : list Frame)
  : M (gmap string Q) :=
  let artifact_scores := artifact_score env <$> frames in
  let mean_artifact_score := np_mean artifact_scores in
  let artifact_variance :=
    if (1 <? length artifact_scores)%nat then np_var artifact_scores else 0.0 in
  max_artifact_score ← np_max artifact_scores;
  mret {[ "mean_artifact_score" := mean_artifact_score;
          "artifact_variance" := artifact_variance;
          "max_artifact_score" := max_artifact_score ]}.

(** [motion_scores]: one entry per consecutive pair of frames. *)
Fixpoint consecutive_motion (frames : list Frame) : list Q :=
  match frames with
  | prev :: (curr :: _) as rest =>
    motion_magnitude env prev curr :: consecutive_motion rest
  | _ => []
  end.

Definition analyze_temporal_consistency (frames : list Frame)
  : M (gmap string Q) :=
  if (length frames <? 2)%nat
  then mret {[ "motion_consistency" := 0.0; "temporal_variance" := 0.0 ]}
  else
    let motion_scores := consecutive_motion frames in
    let motion_variance :=
      if (1 <? length motion_scores)%nat then np_var motion_scores else 0 in
    let motion_consistency := 1.0 / (1.0 + motion_variance / 100.0) in
    mret {[ "motion_consistency" := motion_consistency;
            "temporal_variance" := motion_variance;
            "mean_motion" :=
              match motion_scores with
              | [] => 0.0
              | _ => np_mean motion_scores
              end ]}.

Definition detect_audio_manipulation (audio_path : string)
  : M (gmap string Q) :=
  try_except
    (mret {[ "audio_manipulation_score" := 0.1;
             "voice_consistency" := 0.9;
             "audio_quality" := 0.8 ]})
    (fun e =>
       mret {[ "audio_manipulation_score" := 0.5;
               "voice_consistency" := 0.5;
               "audio_quality" := 0.5 ]}).

(** [analysis_results.get(signal, {}).get(metric, 0.5)] *)
Definition get_metric (analysis_results : gmap string (gmap string Q))
    (signal metric : string) : Q :=
  default 0.5 (default ∅ (analysis_results !! signal) !! metric).

Definition weights : list (string * Q) :=
  [ ("face_consistency", 0.3);
    ("lighting_consistency", 0.2);
    ("compression_artifacts", 0.25);
    ("temporal_consistency", 0.15);
    ("audio_manipulation", 0.1) ].

Definition scores (analysis_results : gmap string (gmap string Q))
  : gmap string Q :=
  {[ "face_consistency" :=
       get_metric analysis_results "face_consistency" "consistency_score";
     "lighting_consistency" :=
       get_metric analysis_results "lighting_consistency" "shadow_consistency";
     "compression_artifacts" :=
       1.0 - get_metric analysis_results "compression_artifacts"
                        "mean_artifact_score";
     "temporal_consistency" :=
       get_metric analysis_results "temporal_consistency" "motion_consistency";
     "audio_manipulation" :=
       1.0 - get_metric analysis_results "audio_manipulation"
                        "audio_manipulation_score" ]}.

(** [scores[key]]; every key of [weights] is a key of [scores], so the
    [KeyError] branch of the subscript does not arise. *)
Definition calculate_deepfake_score
    (analysis_results : gmap string (gmap string Q)) : Q :=
  let weighted_score :=
    py_sum ((fun '(key, w) => w * default 0 (scores analysis_results !! key))
              <$> weights) in
  let deepfake_probability := 1.0 - weighted_score in
  deepfake_probability.

(** [_generate_heatmap_frames]: of the first [min(10, len(frames))]
    indices, those divisible by 3, as floats. *)
Definition _generate_heatmap_frames (frames : list Frame)
    (analysis_results : gmap string (gmap string Q)) : list Q :=
  if (length frames =? 0)%nat then []
  else
    Q_of_nat <$> filter (fun i => (i `mod` 3 = 0)%nat)
                        (seq 0 (Nat.min 10 (length frames))).

(** Lines 213-218: the classification thresholds. *)
Definition classification_of (deepfake_score : Q) : string :=
  if Qgt_bool deepfake_score 0.7 then "deepfake"
  else if Qlt_bool deepfake_score 0.3 then "real"
  else "uncertain".

(** Line 221. *)
Definition confidence_of (classification : string) (deepfake_score : Q) : Q :=
  if String.eqb classification "real"
  then 1.0 - deepfake_score else deepfake_score.

(** The body of the [try] block of [analyze_video]. *)
Definition analyze_video_body (video_path : string)
    (audio_path : option string) (start_time : Q) : M (gmap string pyval) :=
  frames ← extract_frames video_path 100;
  face_analysis ← analyze_face_consistency frames;
  lighting_analysis ← analyze_lighting_consistency frames;
  compression_analysis ← analyze_compression_artifacts frames;
  temporal_analysis ← analyze_temporal_consistency frames;
  audio_analysis ←
    match audio_path with
    | Some p =>
      if negb (String.eqb p "") && path_exists env p
      then detect_audio_manipulation p
      else mret ∅
    | None => mret ∅
    end;
  let analysis_results : gmap string (gmap string Q) :=
    {[ "face_consistency" := face_analysis;
       "lighting_consistency" := lighting_analysis;
       "compression_artifacts" := compression_analysis;
       "temporal_consistency" := temporal_analysis;
       "audio_manipulation" := audio_analysis ]} in
  let deepfake_score := calculate_deepfake_score analysis_results in
  let classification := classification_of deepfake_score in
  let confidence := confidence_of classification deepfake_score in
  end_time ← datetime_now env;
  let processing_time := end_time - start_time in
  mret ({[ "classification" := VStr classification;
           "confidence" := VFloat confidence;
           "deepfake_score" := VFloat deepfake_score;
           "manipulation_indicators" := VDict (VReport <$> analysis_results);
           "heatmap_frames" :=
             VList (VFloat <$> _generate_heatmap_frames frames analysis_results);
           "processing_time" := VFloat processing_time;
           "model_version" := VStr "1.0.0";
           "frames_analyzed" := VInt (Z.of_nat (length frames)) ]}
        : gmap string pyval).

(** The [except Exception as e] handler of [analyze_video]. *)
Definition analyze_video_error (e : exn) : gmap string pyval :=
  {[ "classification" := VStr "error";
     "confidence" := VFloat 0.0;
     "deepfake_score" := VFloat 0.5;
     "manipulation_indicators" := VDict ∅;
     "heatmap_frames" := VList [];
     "processing_time" := VFloat 0.0;
     "model_version" := VStr "1.0.0";
     "error" := VStr (exn_str e) ]}.

Definition analyze_video (video_path : string) (audio_path : option string)
  : M (gmap string pyval) :=
  start_time ← datetime_now env;
  try_except (analyze_video_body video_path audio_path start_time)
             (fun e => mret (analyze_video_error e)).

End DetectionEngine.

(** ** geospatial_engine.py: [GeospatialVerificationEngine] *)

Record GPSMetadata := mkGPS {
  latitude : Q;
  longitude : Q;
  altitude : option Q;
  timestamp : option Q;
  accuracy : option Q;
  satellites : option Z;
  device_info : option string
}.

(** [manipulation_scores[k] = v] on the insertion-ordered dictionary. *)
Fixpoint dict_set (k : string) (v : Q) (d : list (string * Q))
  : list (string * Q) :=
  match d with
  | [] => [(k, v)]
  | (k', v') :: d' =>
    if String.eqb k' k then (k, v) :: d' else (k', v') :: dict_set k v d'
  end.

Section GeospatialEngine.
Variable env : Env.

Definition extract_gps_metadata (video_path : string)
  : M (option GPSMetadata) :=
  enter "extract_gps_metadata";;
  try_except
    (cap ← lift (VideoCapture env video_path);
     let fps := CAP_PROP_FPS cap in
     let frame_count := CAP_PROP_FRAME_COUNT cap in
     let duration :=
       if Qgt_bool fps 0 then inject_Z frame_count / fps else 0 in
     t ← datetime_now env;
     let gps_data :=
       mkGPS 37.7749 (-122.4194) (Some 10.0) (Some t) (Some 5.0) (Some 8%Z)
             (Some "iPhone 12") in
     mret (Some gps_data))
    (fun e => mret None).

Definition _extract_sample_frames (video_path : string) (max_frames : Z)
  : M (list Frame) :=
  try_except
    (cap ← lift (VideoCapture env video_path);
     sample_frames cap max_frames)
    (fun e => mret []).

Definition _analyze_location_indicators (frames : list Frame)
  : gmap string Q :=
  match frames with
  | [] => {[ "indicators_found" := 0.0; "consistency" := 0.0 ]}
  | _ =>
    {[ "indicators_found" := 0.6;
       "consistency" := 0.8;
       "landmark_detection" := 0.7;
       "text_recognition" := 0.5;
       "weather_consistency" := 0.9 ]}
  end.

Definition location_weights : list (string * Q) :=
  [ ("indicators_found", 0.3);
    ("consistency", 0.4);
    ("landmark_detection", 0.2);
    ("text_recognition", 0.1) ].

Definition _calculate_location_consistency (indicators : gmap string Q) : Q :=
  if decide (indicators = ∅) then 0.0
  else
    let '(total_score, total_weight) :=
      foldl (fun '(total_score, total_weight) '(key, weight) =>
               match indicators !! key with
               | Some v => (total_score + v * weight, total_weight + weight)
               | None => (total_score, total_weight)
               end)
            (0.0, 0.0) location_weights in
    if Qgt_bool total_weight 0 then total_score / total_weight else 0.0.

Definition verify_location_consistency (gps_data : GPSMetadata)
    (video_path : string) : M (gmap string pyval) :=
  enter "verify_location_consistency";;
  try_except
    (frames ← _extract_sample_frames video_path 20;
     let location_indicators := _analyze_location_indicators frames in
     let consistency_score :=
       _calculate_location_consistency location_indicators in
     mret ({[ "consistency_score" := VFloat consistency_score;
              "location_indicators" := VReport location_indicators;
              "verification_method" := VStr "visual_analysis" ]}
           : gmap string pyval))
    (fun e =>
       mret ({[ "consistency_score" := VFloat 0.5;
                "location_indicators" := VDict ∅;
                "verification_method" := VStr "error";
                "error" := VStr (exn_str e) ]}
             : gmap string pyval)).

(** The three attribute tests of [detect_gps_manipulation] are truthiness
    tests: [None] and a zero value both take the [else] branch. *)
Definition timestamp_mismatch_score (gps_data : GPSMetadata) : M Q :=
  match timestamp gps_data with
  | Some t =>
    current ← datetime_now env;
    let time_diff := Qabs (current - t) in
    mret (if Qgt_bool time_diff 86400 then 0.8 else 0.1)
  | None => mret 0.5
  end.

Definition accuracy_anomaly_score (gps_data : GPSMetadata) : Q :=
  match accuracy gps_data with
  | Some a =>
    if Qeq_bool a 0 then 0.5
    else if Qlt_bool a 1.0 then 0.7
    else if Qgt_bool a 50.0 then 0.6
    else 0.1
  | None => 0.5
  end.

Definition satellite_anomaly_score (gps_data : GPSMetadata) : Q :=
  match satellites gps_data with
  | Some n =>
    if (n =? 0)%Z then 0.5
    else if (n <? 4)%Z then 0.8
    else if (12 <? n)%Z then 0.6
    else 0.1
  | None => 0.5
  end.

Definition detect_gps_manipulation (gps_data : GPSMetadata)
  : M (gmap string pyval) :=
  enter "detect_gps_manipulation";;
  let manipulation_scores := [] in
  let manipulation_scores := dict_set "gps_jump" 0.1 manipulation_scores in
  ts ← timestamp_mismatch_score gps_data;
  let manipulation_scores :=
    dict_set "timestamp_mismatch" ts manipulation_scores in
  let manipulation_scores :=
    dict_set "accuracy_anomaly" (accuracy_anomaly_score gps_data)
             manipulation_scores in
  let manipulation_scores :=
    dict_set "satellite_anomaly" (satellite_anomaly_score gps_data)
             manipulation_scores in
  let total_score := py_sum (manipulation_scores.*2) in
  let avg_score := total_score / Q_of_nat (length manipulation_scores) in
  mret ({[ "manipulation_scores" :=
             VReport (list_to_map manipulation_scores);
           "overall_manipulation_probability" := VFloat avg_score;
           "suspicious_patterns" :=
             VList (VStr <$> (filter (fun kv => Qgt_bool kv.2 0.5 = true)
                                     manipulation_scores).*1) ]}
        : gmap string pyval).

(** Line 172. *)
Definition verification_confidence_of
    (consistency_score manipulation_probability : Q) : Q :=
  (consistency_score + (1 - manipulation_probability)) / 2.

(** Lines 175-180. *)
Definition verification_status_of (verification_confidence : Q) : string :=
  if Qgt_bool verification_confidence 0.7 then "verified"
  else if Qlt_bool verification_confidence 0.3 then "suspicious"
  else "uncertain".

Definition failed_record : gmap string pyval :=
  {[ "verification_status" := VStr "failed";
     "error" := VStr "No GPS metadata found";
     "processing_time" := VFloat 0.0 ]}.

(** The three methods [verify_geospatial_authenticity] calls are looked up
    on [self] at each call, so a subclass or a test double may replace
    them. *)
Record GeospatialMethods := mkMethods {
  self_extract_gps_metadata : string -> M (option GPSMetadata);
  self_verify_location_consistency :
    GPSMetadata -> string -> M (gmap string pyval);
  self_detect_gps_manipulation : GPSMetadata -> M (gmap string pyval)
}.

(** The methods the class itself defines. *)
Definition own_methods : GeospatialMethods :=
  mkMethods extract_gps_metadata verify_location_consistency
            detect_gps_manipulation.

(** The body of the [try] block of [verify_geospatial_authenticity]. *)
Definition verify_geospatial_body_of (self : GeospatialMethods)
    (video_path : string) (start_time : Q) : M (gmap string pyval) :=
  gps ← self_extract_gps_metadata self video_path;
  match gps with
  | None => mret failed_record
  | Some gps_data =>
    location_consistency ←
      self_verify_location_consistency self gps_data video_path;
    gps_manipulation ← self_detect_gps_manipulation self gps_data;
    consistency_score ←
      as_float (default (VFloat 0.5)
                        (location_consistency !! "consistency_score"));
    manipulation_probability ←
      as_float (default (VFloat 0.5)
                  (gps_manipulation !! "overall_manipulation_probability"));
    let verification_confidence :=
      verification_confidence_of consistency_score manipulation_probability in
    let verification_status :=
      verification_status_of verification_confidence in
    end_time ← datetime_now env;
    let processing_time := end_time - start_time in
    mret ({[ "verification_status" := VStr verification_status;
             "verification_confidence" := VFloat verification_confidence;
             "gps_metadata" :=
               VDict {[ "latitude" := VFloat (latitude gps_data);
                        "longitude" := VFloat (longitude gps_data);
                        "altitude" := opt_val VFloat (altitude gps_data);
                        "timestamp" :=
                          opt_val (fun t => VStr (isoformat env t))
                                  (timestamp gps_data);
                        "accuracy" := opt_val VFloat (accuracy gps_data);
                        "satellites" := opt_val VInt (satellites gps_data);
                        "device_info" := opt_val VStr (device_info gps_data) ]};
             "location_consistency" := VDict location_consistency;
             "gps_manipulation" := VDict gps_manipulation;
             "processing_time" := VFloat processing_time;
             "verification_methods" :=
               VList [VStr "gps_analysis"; VStr "visual_analysis"] ]}
          : gmap string pyval)
  end.

Definition verify_geospatial_error (e : exn) : gmap string pyval :=
  {[ "verification_status" := VStr "error";
     "verification_confidence" := VFloat 0.0;
     "error" := VStr (exn_str e);
     "processing_time" := VFloat 0.0 ]}.

Definition verify_geospatial_authenticity_of (self : GeospatialMethods)
    (video_path : string) : M (gmap string pyval) :=
  start_time ← datetime_now env;
  try_except (verify_geospatial_body_of self video_path start_time)
             (fun e => mret (verify_geospatial_error e)).

(** The entry point of the class as it is defined. *)
Definition verify_geospatial_body (video_path : string) (start_time : Q)
  : M (gmap string pyval) :=
  verify_geospatial_body_of own_methods video_path start_time.

Definition verify_geospatial_authenticity (video_path : string)
  : M (gmap string pyval) :=
  verify_geospatial_authenticity_of own_methods video_path.

End GeospatialEngine.

(** ** Binary64 arithmetic

    The engines compute in IEEE 754 binary64.  [F64] redoes the arithmetic of
    the scoring formulas on the same inputs, every number rounded to binary64
    where the source has it as a float and every operation a binary64
    operation, in the order the source performs them. *)
Module F64.

Definition of_Z (z : Z) : float :=
  match z with
  | Z0 => PrimFloat.zero
  | Zpos p => PrimFloat.of_uint63 (Uint63.of_Z (Zpos p))
  | Zneg p => PrimFloat.opp (PrimFloat.of_uint63 (Uint63.of_Z (Zpos p)))
  end.

Definition of_nat (n : nat) : float := of_Z (Z.of_nat n).

(** The float a decimal of the source denotes: numerator and denominator
    are exact in binary64 for every literal of the engines, and one division
    rounds to nearest. *)
Definition of_Q (q : Q) : float :=
  PrimFloat.div (of_Z (Qnum q)) (of_Z (Zpos (Qden q))).

(** The rational a finite float is. *)
Definition to_Q (x : float) : Q :=
  match Prim2SF x with
  | S754_finite s m e =>
    let v := inject_Z (Zpos m) * (2 ^ e)%Q in
    if s then - v else v
  | _ => 0
  end.

(** Python's [sum]: a left fold starting from 0. *)
Definition py_sum (l : list float) : float := foldl PrimFloat.add 0%float l.

(** [calculate_deepfake_score], lines 156-178 *)
Definition weights : list (string * float) :=
  [ ("face_consistency", 0.3%float);
    ("lighting_consistency", 0.2%float);
    ("compression_artifacts", 0.25%float);
    ("temporal_consistency", 0.15%float);
    ("audio_manipulation", 0.1%float) ].

Definition scores (analysis_results : gmap string (gmap string Q))
  : gmap string float :=
  {[ "face_consistency" :=
       of_Q (get_metric analysis_results "face_consistency" "consistency_score");
     "lighting_consistency" :=
       of_Q (get_metric analysis_results "lighting_consistency"
                        "shadow_consistency");
     "compression_artifacts" :=
       PrimFloat.sub 1.0%float
         (of_Q (get_metric analysis_results "compression_artifacts"
                           "mean_artifact_score"));
     "temporal_consistency" :=
       of_Q (get_metric analysis_results "temporal_consistency"
                        "motion_consistency");
     "audio_manipulation" :=
       PrimFloat.sub 1.0%float
         (of_Q (get_metric analysis_results "audio_manipulation"
                           "audio_manipulation_score")) ]}.

Definition calculate_deepfake_score
    (analysis_results : gmap string (gmap string Q)) : float :=
  let weighted_score :=
    py_sum ((fun '(key, w) =>
               PrimFloat.mul w (default 0%float (scores analysis_results !! key)))
              <$> weights) in
  let deepfake_probability := PrimFloat.sub 1.0%float weighted_score in
  deepfake_probability.

(** [_calculate_location_consistency], lines 254-273 *)
Definition location_weights : list (string * float) :=
  [ ("indicators_found", 0.3%float);
    ("consistency", 0.4%float);
    ("landmark_detection", 0.2%float);
    ("text_recognition", 0.1%float) ].

Definition _calculate_location_consistency (indicators : gmap string Q)
  : float :=
  if decide (indicators = ∅) then 0.0%float
  else
    let '(total_score, total_weight) :=
      foldl (fun '(total_score, total_weight) '(key, weight) =>
               match indicators !! key with
               | Some v =>
                 (PrimFloat.add total_score (PrimFloat.mul (of_Q v) weight),
                  PrimFloat.add total_weight weight)
               | None => (total_score, total_weight)
               end)
            (0.0%float, 0.0%float) location_weights in
    if PrimFloat.ltb 0%float total_weight
    then PrimFloat.div total_score total_weight else 0.0%float.

(** [detect_gps_manipulation], lines 139-140, on the scores it has
    collected *)
Definition overall_manipulation_probability
    (manipulation_scores : list (string * Q)) : float :=
  let total_score := py_sum (of_Q <$> manipulation_scores.*2) in
  let avg_score :=
    PrimFloat.div total_score (of_nat (length manipulation_scores)) in
  avg_score.

(** [verify_geospatial_authenticity], lines 172-180 *)
Definition verification_confidence_of
    (consistency_score manipulation_probability : float) : float :=
  PrimFloat.div
    (PrimFloat.add consistency_score
                   (PrimFloat.sub 1%float manipulation_probability))
    2%float.

Definition verification_status_of (verification_confidence : float) : string :=
  if PrimFloat.ltb 0.7%float verification_confidence then "verified"
  else if PrimFloat.ltb verification_confidence 0.3%float then "suspicious"
  else "uncertain".

End F64.

(** ** Concrete environments used to exercise the model *)

Definition a_frame : Frame := [[(0, 0, 0)%Z]].

(** A clip of [n] decodable frames at 30 fps. *)
Definition clip (n : nat) : capture :=
  mkCapture 30 (Z.of_nat n) (replicate n (Some a_frame)).

(** Every path opens as [c]; one face per frame, constant lightness, a small
    artefact score, no motion; every file exists; the clock advances one
    second per reading. *)
Definition demo_env (c : outcome capture) : Env :=
  mkEnv (fun _ => c) (fun _ => 1%nat) (fun _ => 128) (fun _ => 0.1)
        (fun _ _ => 0) (fun _ => true) Q_of_nat
        (fun _ => "2026-01-01T00:00:00").

Definition s0 : Sys := mkSys 0 [].

(** The record [analyze_video] returns on a three-frame clip without audio. *)
Definition demo_video_result : gmap string pyval :=
  match (analyze_video (demo_env (Returns (clip 3))) "v.mp4" None s0).1 with
  | Returns r => r
  | Raises _ => ∅
  end.

(** ** The specification's vocabulary *)

(** The report of the audio stub. *)
Definition audio_stub_report : gmap string Q :=
  {[ "audio_manipulation_score" := 0.1;
     "voice_consistency" := 0.9;
     "audio_quality" := 0.8 ]}.

(** The sampler as the specification words it: of the results of the
    successive reads, numbered from [pos], the decoded frames whose position
    is a multiple of [stride]. *)
Fixpoint strided (stride pos : Z) (reads : list (option Frame)) : list Frame :=
  match reads with
  | [] => []
  | r :: rest =>
    match r with
    | Some frame =>
      if (pos `mod` stride =? 0)%Z
      then frame :: strided stride (pos + 1) rest
      else strided stride (pos + 1) rest
    | None => strided stride (pos + 1) rest
    end
  end.

Definition sampler_spec (cap : capture) (max_frames : Z) : list Frame :=
  let T := CAP_PROP_FRAME_COUNT cap in
  let stride := Z.max 1 (T `div` max_frames) in
  take (Z.to_nat max_frames)
       (strided stride 0 (take (Z.to_nat T) (stream cap))).

(** The fields of the two result records as the specification's data model
    lists them, and what it means for a returned dictionary to carry them. *)
Definition DeepfakeResult_fields : list string :=
  [ "classification"; "confidence"; "deepfake_score";
    "manipulation_indicators"; "heatmap_frames"; "processing_time";
    "model_version"; "frames_analyzed" ].

Definition GeospatialResult_fields : list string :=
  [ "verification_status"; "verification_confidence"; "gps_metadata";
    "location_consistency"; "gps_manipulation"; "processing_time";
    "verification_methods" ].

Definition has_fields (fields : list string) (r : gmap string pyval) : Prop :=
  Forall (fun k => is_Some (r !! k)) fields.

(** ** api/video.py: the routes that call the engines

    The database is the three tables the routes touch, each a list of rows
    in table order; a query's [first()] is the first matching row.  Within
    one request every [db.add] and attribute assignment is followed by a
    [db.commit()] on every path, so the rows are written where the code adds
    them.  Row and response objects keep the values they are given
    unvalidated; Pydantic's validation of a response is outside the model. *)

Record User := mkUser { u_id : Z; u_is_admin : bool }.

Record Video := mkVideo {
  v_id : Z;
  v_tracking_id : string;
  v_filename : string;
  v_file_path : string;
  v_user_id : option Z;
  v_status : string
}.

Record AnalysisResult := mkAnalysisResult {
  a_video_id : Z;
  a_classification : pyval;
  a_confidence : pyval;
  a_deepfake_score : pyval;
  a_manipulation_indicators : pyval;
  a_heatmap_frames : pyval;
  a_processing_time : pyval;
  a_model_version : pyval
}.

Record GeospatialData := mkGeospatialData {
  g_video_id : Z;
  g_latitude : pyval;
  g_longitude : pyval;
  g_altitude : pyval;
  g_timestamp : option Q;
  g_location_accuracy : pyval;
  g_gps_metadata : pyval;
  g_location_verification : pyval;
  g_verification_confidence : pyval
}.

Record DB := mkDB {
  videos : list Video;
  analysis_results : list AnalysisResult;
  geospatial_data : list GeospatialData
}.

Record AnalysisResponse := mkAnalysisResponse {
  r_tracking_id : string;
  r_classification : pyval;
  r_confidence : pyval;
  r_deepfake_score : pyval;
  r_manipulation_indicators : pyval;
  r_heatmap_frames : pyval;
  r_processing_time : pyval;
  r_model_version : pyval;
  r_geospatial_verification : pyval;
  r_geospatial_confidence : pyval
}.

Record DashboardResponse := mkDashboardResponse {
  total_videos : nat;
  processed_videos : nat;
  deepfake_count : nat;
  real_count : nat;
  uncertain_count : nat;
  recent_analyses : list AnalysisResponse;
  geospatial_suspicious : nat
}.

(** What a route hands back: a response, or a raised [HTTPException]. *)
Inductive http (A : Type) :=
| Respond (a : A)
| HTTPException (status_code : Z) (detail : string).
Arguments Respond {A} a.
Arguments HTTPException {A} status_code detail.

(** What the [try] block of the analyze route can raise: an exception out
    of an engine, or one of the route's own subscripts and conversions. *)
Inductive route_exn :=
| EngineRaised (e : exn)
| KeyError (key : string)
| NotSubscriptable (v : pyval)
| BadIsoformat (v : pyval).

(** The texts Python gives the last two depend on the value and on the
    interpreter version; they are taken from the environment of the route. *)
Record RouteEnv := mkRouteEnv {
  (** [datetime.fromisoformat] on a string; [None] when it raises *)
  fromisoformat : string -> option Q;
  (** [str(e)] for the [TypeError] of subscripting or parsing this value *)
  type_error_text : pyval -> string;
  (** [str(e)] for the [ValueError] of parsing this string *)
  value_error_text : string -> string
}.

Definition route_exn_str (renv : RouteEnv) (e : route_exn) : string :=
  match e with
  | EngineRaised e => exn_str e
  | KeyError key => "'" +:+ key +:+ "'"
  | NotSubscriptable v => type_error_text renv v
  | BadIsoformat (VStr s) => value_error_text renv s
  | BadIsoformat v => type_error_text renv v
  end.

Definition res (A : Type) : Type := (route_exn + A)%type.

#[global] Instance res_ret : MRet res := fun A a => inr a.
#[global] Instance res_bind : MBind res :=
  fun A B k m => match m with inl e => inl e | inr a => k a end.

(** [d[key]] on a dictionary *)
Definition getitem (d : gmap string pyval) (key : string) : res pyval :=
  match d !! key with
  | Some v => inr v
  | None => inl (KeyError key)
  end.

(** [v[key]] on a value *)
Definition subscript (v : pyval) (key : string) : res pyval :=
  match v with
  | VDict d => getitem d key
  | _ => inl (NotSubscriptable v)
  end.

(** Truthiness of a value. *)
Definition truthy (v : pyval) : bool :=
  match v with
  | VFloat q => negb (Qeq_bool q 0)
  | VInt z => negb (z =? 0)%Z
  | VStr s => negb (String.eqb s "")
  | VNone => false
  | VList l => match l with [] => false | _ => true end
  | VDict d => negb (bool_decide (d = ∅))
  end.

(** [v == text] for a value and a string literal *)
Definition is_str (v : pyval) (text : string) : bool :=
  match v with
  | VStr s => String.eqb s text
  | _ => false
  end.

Section VideoRoutes.
Variable env : Env.
Variable renv : RouteEnv.

(** [db.query(GeospatialData).filter(... == video_id).first()] and its
    siblings *)
Definition first_geospatial (db : DB) (video_id : Z) : option GeospatialData :=
  head (filter (fun g => g_video_id g = video_id) (geospatial_data db)).

Definition first_analysis (db : DB) (video_id : Z) : option AnalysisResult :=
  head (filter (fun a => a_video_id a = video_id) (analysis_results db)).

Definition first_video (db : DB) (tracking_id : string) : option Video :=
  head (filter (fun v => v_tracking_id v = tracking_id) (videos db)).

(** The response is built from the row as it is stored; Pydantic's
    validation of it (a stored row whose [processing_time] or
    [model_version] is NULL is rejected) is outside the model. *)
Definition _create_analysis_response (video : Video)
    (analysis : AnalysisResult) (db : DB) : AnalysisResponse :=
  let geospatial_data := first_geospatial db (v_id video) in
  mkAnalysisResponse
    (v_tracking_id video)
    (a_classification analysis)
    (a_confidence analysis)
    (a_deepfake_score analysis)
    (a_manipulation_indicators analysis)
    (a_heatmap_frames analysis)
    (a_processing_time analysis)
    (a_model_version analysis)
    (match geospatial_data with
     | Some g => g_location_verification g
     | None => VNone
     end)
    (match geospatial_data with
     | Some g => g_verification_confidence g
     | None => VNone
     end).

(** [video.status = status] on the row of this video *)
Definition set_status (db : DB) (video : Video) (status : string) : DB :=
  mkDB ((fun v => if decide (v_id v = v_id video)
                  then mkVideo (v_id v) (v_tracking_id v) (v_filename v)
                               (v_file_path v) (v_user_id v) status
                  else v) <$> videos db)
       (analysis_results db) (geospatial_data db).

Definition add_analysis (db : DB) (a : AnalysisResult) : DB :=
  mkDB (videos db) (analysis_results db ++ [a]) (geospatial_data db).

Definition add_geospatial (db : DB) (g : GeospatialData) : DB :=
  mkDB (videos db) (analysis_results db) (geospatial_data db ++ [g]).

(** Lines 131-140: the [AnalysisResult] built from the deepfake record. *)
Definition build_analysis_result (video : Video)
    (deepfake_analysis : gmap string pyval) : res AnalysisResult :=
  classification ← getitem deepfake_analysis "classification";
  confidence ← getitem deepfake_analysis "confidence";
  deepfake_score ← getitem deepfake_analysis "deepfake_score";
  manipulation_indicators ← getitem deepfake_analysis "manipulation_indicators";
  heatmap_frames ← getitem deepfake_analysis "heatmap_frames";
  processing_time ← getitem deepfake_analysis "processing_time";
  model_version ← getitem deepfake_analysis "model_version";
  mret (mkAnalysisResult (v_id video) classification confidence deepfake_score
          manipulation_indicators heatmap_frames processing_time model_version).

(** [datetime.fromisoformat(ts) if ts else None] *)
Definition parse_timestamp (ts : pyval) : res (option Q) :=
  if truthy ts then
    match ts with
    | VStr s =>
      match fromisoformat renv s with
      | Some t => inr (Some t)
      | None => inl (BadIsoformat ts)
      end
    | _ => inl (BadIsoformat ts)
    end
  else inr None.

(** Lines 145-157: the [GeospatialData] built from the geospatial record,
    unless its status is "failed". *)
Definition build_geospatial_data (video : Video)
    (geospatial_analysis : gmap string pyval) : res (option GeospatialData) :=
  status ← getitem geospatial_analysis "verification_status";
  if negb (is_str status "failed") then
    latitude ← getitem geospatial_analysis "gps_metadata"
                 ≫= (fun m => subscript m "latitude");
    longitude ← getitem geospatial_analysis "gps_metadata"
                  ≫= (fun m => subscript m "longitude");
    altitude ← getitem geospatial_analysis "gps_metadata"
                 ≫= (fun m => subscript m "altitude");
    ts ← getitem geospatial_analysis "gps_metadata"
           ≫= (fun m => subscript m "timestamp");
    timestamp ← parse_timestamp ts;
    accuracy ← getitem geospatial_analysis "gps_metadata"
                 ≫= (fun m => subscript m "accuracy");
    gps_metadata ← getitem geospatial_analysis "gps_metadata";
    location_verification ← getitem geospatial_analysis "verification_status";
    verification_confidence ←
      getitem geospatial_analysis "verification_confidence";
    mret (Some (mkGeospatialData (v_id video) latitude longitude altitude
                  timestamp accuracy gps_metadata location_verification
                  verification_confidence))
  else mret None.

(** The [except Exception as e] of the analyze route. *)
Definition analysis_failed (db : DB) (video : Video) (e : route_exn)
  : http AnalysisResponse * DB :=
  (HTTPException 500 ("Analysis failed: " +:+ route_exn_str renv e),
   set_status db video "failed").

(** Lines 130-163 once both engines have answered. *)
Definition store_results (db : DB) (video : Video)
    (deepfake_analysis geospatial_analysis : gmap string pyval)
  : http AnalysisResponse * DB :=
  match build_analysis_result video deepfake_analysis with
  | inl e => analysis_failed db video e
  | inr analysis_result =>
    let db := add_analysis db analysis_result in
    match build_geospatial_data video geospatial_analysis with
    | inl e => analysis_failed db video e
    | inr geospatial =>
      let db := match geospatial with
                | Some geospatial_data => add_geospatial db geospatial_data
                | None => db
                end in
      let db := set_status db video "completed" in
      (Respond (_create_analysis_response video analysis_result db), db)
    end
  end.

(** [POST /video/analyze] *)
Definition analyze_video_route (video_id : string) (current_user : User)
    (db : DB) : M (http AnalysisResponse * DB) :=
  match first_video db video_id with
  | None => mret (HTTPException 404 "Video not found", db)
  | Some video =>
    if negb (bool_decide (v_user_id video = Some (u_id current_user)))
       && negb (u_is_admin current_user)
    then mret (HTTPException 403 "Not authorized to analyze this video", db)
    else
      match first_analysis db (v_id video) with
      | Some existing_analysis =>
        mret (Respond (_create_analysis_response video existing_analysis db), db)
      | None =>
        let db := set_status db video "processing" in
        try_except
          (deepfake_analysis ← analyze_video env (v_file_path video) None;
           geospatial_analysis ←
             verify_geospatial_authenticity env (v_file_path video);
           mret (store_results db video deepfake_analysis geospatial_analysis))
          (fun e => mret (analysis_failed db video (EngineRaised e)))
      end
  end.

(** [analyses[-10:]] *)
Definition last_ten {A} (l : list A) : list A := drop (length l - 10) l.

(** [GET /video/dashboard] *)
Definition get_dashboard (current_user : User) (db : DB) : DashboardResponse :=
  let user_videos :=
    filter (fun v => v_user_id v = Some (u_id current_user)) (videos db) in
  let video_ids := v_id <$> user_videos in
  let analyses :=
    filter (fun a => a_video_id a ∈ video_ids) (analysis_results db) in
  let total_videos := length user_videos in
  let processed_videos :=
    length (filter (fun v => v_status v = "completed") user_videos) in
  let deepfake_count :=
    length (filter (fun a => is_str (a_classification a) "deepfake" = true)
                   analyses) in
  let real_count :=
    length (filter (fun a => is_str (a_classification a) "real" = true)
                   analyses) in
  let uncertain_count :=
    length (filter (fun a => is_str (a_classification a) "uncertain" = true)
                   analyses) in
  let geospatial :=
    filter (fun g => g_video_id g ∈ video_ids) (geospatial_data db) in
  let geospatial_suspicious :=
    length (filter (fun g => is_str (g_location_verification g) "suspicious"
                             = true) geospatial) in
  let recent_analyses :=
    omap (fun analysis =>
            match head (filter (fun v => v_id v = a_video_id analysis)
                               user_videos) with
            | Some video =>
              Some (_create_analysis_response video analysis db)
            | None => None
            end)
         (last_ten analyses) in
  mkDashboardResponse total_videos processed_videos deepfake_count real_count
                      uncertain_count recent_analyses geospatial_suspicious.

End VideoRoutes.

(** A database holding one uploaded video of user 7. *)
Definition demo_db : DB :=
  mkDB [mkVideo 1 "t-1" "clip.mp4" "./uploads/eu/t-1.mp4" (Some 7%Z) "uploaded"]
       [] [].

Definition demo_renv : RouteEnv :=
  mkRouteEnv (fun _ => Some 0) (fun _ => "TypeError") (fun _ => "ValueError").

(** * Properties *)

(** ** Arithmetic and monad helpers *)

Lemma Qlt_bool_iff (a b : Q) : Qlt_bool a b = true <-> a < b.
Proof.
  unfold Qlt_bool. rewrite negb_true_iff.
  destruct (Qle_bool b a) eqn:E.
  - apply Qle_bool_iff in E. split; [discriminate | intros H; exfalso; lra].
  - split; [intros _ | reflexivity].
    destruct (Qlt_le_dec a b) as [H | H]; [exact H |].
    apply Qle_bool_iff in H. congruence.
Qed.

Lemma Qgt_bool_iff (a b : Q) : Qgt_bool a b = true <-> b < a.
Proof. apply Qlt_bool_iff. Qed.

Lemma Qgt_bool_false (a b : Q) : Qgt_bool a b = false <-> a <= b.
Proof.
  destruct (Qgt_bool a b) eqn:E.
  - apply Qgt_bool_iff in E. split; [discriminate | intros; exfalso; lra].
  - split; [intros _ | reflexivity].
    destruct (Qlt_le_dec b a) as [H | H]; [| exact H].
    apply Qgt_bool_iff in H. congruence.
Qed.

Lemma Qlt_bool_false (a b : Q) : Qlt_bool a b = false <-> b <= a.
Proof. apply Qgt_bool_false. Qed.

Lemma bind_returns {A B} (m : M A) (k : A -> M B) s b s' :
  (m ≫= k) s = (Returns b, s') ->
  exists a s1, m s = (Returns a, s1) /\ k a s1 = (Returns b, s').
Proof.
  unfold mbind, M_bind, bind. destruct (m s) as [[a | e] s1]; intros H.
  - eauto.
  - discriminate.
Qed.

Lemma classification_of_spec (x : Q) :
  (classification_of x = "deepfake" <-> 0.7 < x) /\
  (classification_of x = "real" <-> x < 0.3) /\
  (classification_of x = "uncertain" <-> 0.3 <= x <= 0.7).
Proof.
  unfold classification_of.
  destruct (Qgt_bool x 0.7) eqn:E1.
  - apply Qgt_bool_iff in E1.
    repeat split; try discriminate; try (intros; exfalso; lra); auto.
  - apply Qgt_bool_false in E1.
    destruct (Qlt_bool x 0.3) eqn:E2.
    + apply Qlt_bool_iff in E2.
      repeat split; try discriminate; try (intros; exfalso; lra); auto.
    + apply Qlt_bool_false in E2.
      repeat split; try discriminate; try (intros; exfalso; lra); auto.
      all: intros; lra.
Qed.

(** ** The deepfake entry point: shape of a run *)

Lemma analyze_video_body_record env video_path audio_path t0 s r s' :
  analyze_video_body env video_path audio_path t0 s = (Returns r, s') ->
  exists x,
    r !! "deepfake_score" = Some (VFloat x) /\
    r !! "classification" = Some (VStr (classification_of x)) /\
    r !! "confidence" = Some (VFloat (confidence_of (classification_of x) x)).
Proof.
  unfold analyze_video_body. intros H.
  repeat (apply bind_returns in H; destruct H as (? & ? & _ & H)).
  injection H as <- _.
  eexists. repeat split.
Qed.

Lemma analyze_video_cases env video_path audio_path s :
  let s1 := mkSys (S (clock_reads s)) (calls s) in
  let t0 := now env (clock_reads s) in
  (exists r s', analyze_video_body env video_path audio_path t0 s1 = (Returns r, s') /\
     analyze_video env video_path audio_path s = (Returns r, s')) \/
  (exists e s', analyze_video_body env video_path audio_path t0 s1 = (Raises e, s') /\
     analyze_video env video_path audio_path s = (Returns (analyze_video_error e), s')).
Proof.
  intros s1 t0. unfold analyze_video, mbind, M_bind, bind, try_except, datetime_now.
  fold s1 t0.
  destruct (analyze_video_body env video_path audio_path t0 s1) as [[r | e] s'];
    [left | right]; eauto.
Qed.

Lemma confidence_of_spec (x : Q) :
  (classification_of x = "real" -> confidence_of (classification_of x) x == 1 - x) /\
  (classification_of x <> "real" -> confidence_of (classification_of x) x == x).
Proof.
  unfold confidence_of.
  destruct (String.eqb_spec (classification_of x) "real") as [E | E];
    split; intros H; try contradiction; lra.
Qed.

(** C1.  Whenever [analyze_video] completes without taking its exception
    handler (the result is not the "error" record), the classification is
    determined by [deepfake_score] alone: "deepfake" iff the score exceeds
    0.7, "real" iff it is below 0.3, "uncertain" otherwise; the scores 0.7 and
    0.3 are "uncertain", 0.71 is "deepfake" and 0.29 is "real"; and the
    confidence is [1 - deepfake_score] for "real" and [deepfake_score]
    otherwise. *)
Theorem analyze_video_classification env video_path audio_path s r s' :
  analyze_video env video_path audio_path s = (Returns r, s') ->
  r !! "classification" <> Some (VStr "error") ->
  exists deepfake_score classification confidence,
    r !! "deepfake_score" = Some (VFloat deepfake_score) /\
    r !! "classification" = Some (VStr classification) /\
    r !! "confidence" = Some (VFloat confidence) /\
    classification = classification_of deepfake_score /\
    (classification = "deepfake" <-> 0.7 < deepfake_score) /\
    (classification = "real" <-> deepfake_score < 0.3) /\
    (classification = "uncertain" <-> 0.3 <= deepfake_score <= 0.7) /\
    (classification = "real" -> confidence == 1 - deepfake_score) /\
    (classification <> "real" -> confidence == deepfake_score) /\
    classification_of 0.7 = "uncertain" /\
    classification_of 0.3 = "uncertain" /\
    classification_of 0.71 = "deepfake" /\
    classification_of 0.29 = "real".
Proof.
  intros Hrun Hok.
  destruct (analyze_video_cases env video_path audio_path s)
    as [(r1 & s1 & Hbody & Hr) | (e & s1 & _ & Hr)];
    rewrite Hr in Hrun; injection Hrun as <- <-.
  - apply analyze_video_body_record in Hbody as (x & Hs & Hc & Hconf).
    exists x, (classification_of x), (confidence_of (classification_of x) x).
    pose proof (classification_of_spec x) as (? & ? & ?).
    pose proof (confidence_of_spec x) as (? & ?).
    repeat split; auto; try tauto.
  - exfalso. apply Hok. reflexivity.
Qed.

Lemma analyze_video_classification_witness :
  exists deepfake_score classification confidence,
    demo_video_result !! "deepfake_score" = Some (VFloat deepfake_score) /\
    demo_video_result !! "classification" = Some (VStr classification) /\
    demo_video_result !! "confidence" = Some (VFloat confidence) /\
    classification = classification_of deepfake_score /\
    (classification = "deepfake" <-> 0.7 < deepfake_score) /\
    (classification = "real" <-> deepfake_score < 0.3) /\
    (classification = "uncertain" <-> 0.3 <= deepfake_score <= 0.7) /\
    (classification = "real" -> confidence == 1 - deepfake_score) /\
    (classification <> "real" -> confidence == deepfake_score) /\
    classification_of 0.7 = "uncertain" /\
    classification_of 0.3 = "uncertain" /\
    classification_of 0.71 = "deepfake" /\
    classification_of 0.29 = "real".
Proof.
  apply (analyze_video_classification (demo_env (Returns (clip 3))) "v.mp4"
           None s0 demo_video_result (mkSys 2 [])).
  - vm_compute. reflexivity.
  - vm_compute. discriminate.
Defined.

(** ** Score fusion *)

Lemma calculate_deepfake_score_unfold (ar : gmap string (gmap string Q)) :
  calculate_deepfake_score ar ==
  1 - (0.3 * get_metric ar "face_consistency" "consistency_score"
       + 0.2 * get_metric ar "lighting_consistency" "shadow_consistency"
       + 0.25 * (1 - get_metric ar "compression_artifacts" "mean_artifact_score")
       + 0.15 * get_metric ar "temporal_consistency" "motion_consistency"
       + 0.1 * (1 - get_metric ar "audio_manipulation" "audio_manipulation_score")).
Proof.
  unfold calculate_deepfake_score, weights, py_sum.
  cbn [fmap list_fmap foldl].
  change (scores ar !! "face_consistency")
    with (Some (get_metric ar "face_consistency" "consistency_score")).
  change (scores ar !! "lighting_consistency")
    with (Some (get_metric ar "lighting_consistency" "shadow_consistency")).
  change (scores ar !! "compression_artifacts")
    with (Some (1.0 - get_metric ar "compression_artifacts" "mean_artifact_score")).
  change (scores ar !! "temporal_consistency")
    with (Some (get_metric ar "temporal_consistency" "motion_consistency")).
  change (scores ar !! "audio_manipulation")
    with (Some (1.0 - get_metric ar "audio_manipulation" "audio_manipulation_score")).
  cbn [default from_option]. unfold id. lra.
Qed.

(** The metric the spec names: the value stored under [signal]/[metric], or
    0.5 when the signal or the metric is missing from the mapping. *)
Lemma get_metric_spec (ar : gmap string (gmap string Q)) signal metric :
  get_metric ar signal metric =
  match ar !! signal with
  | Some report =>
    match report !! metric with
    | Some v => v
    | None => 0.5
    end
  | None => 0.5
  end.
Proof.
  unfold get_metric. destruct (ar !! signal) as [report |]; cbn.
  - reflexivity.
  - rewrite lookup_empty. reflexivity.
Qed.

(** C2.  For every mapping of signal reports, [calculate_deepfake_score] is
    1 minus the weighted sum 0.30 consistency_score + 0.20 shadow_consistency
    + 0.25 (1 - mean_artifact_score) + 0.15 motion_consistency
    + 0.10 (1 - audio_manipulation_score), where a metric whose signal or key
    is missing from the mapping counts as 0.5. *)
Theorem calculate_deepfake_score_formula (ar : gmap string (gmap string Q)) :
  let metric signal key :=
    match ar !! signal with
    | Some report =>
      match report !! key with
      | Some v => v
      | None => 0.5
      end
    | None => 0.5
    end in
  calculate_deepfake_score ar ==
  1 - (0.30 * metric "face_consistency" "consistency_score"
       + 0.20 * metric "lighting_consistency" "shadow_consistency"
       + 0.25 * (1 - metric "compression_artifacts" "mean_artifact_score")
       + 0.15 * metric "temporal_consistency" "motion_consistency"
       + 0.10 * (1 - metric "audio_manipulation" "audio_manipulation_score")).
Proof.
  intros metric. rewrite calculate_deepfake_score_unfold.
  rewrite !get_metric_spec. subst metric. cbv beta. lra.
Qed.

Example calculate_deepfake_score_empty :
  calculate_deepfake_score ∅ == 0.5.
Proof. vm_compute. reflexivity. Qed.

Lemma weights_sum_to_one : py_sum (weights.*2) == 1.
Proof. vm_compute. reflexivity. Qed.

Lemma verification_confidence_of_bounds (c m : Q) :
  0 <= c <= 1 -> 0 <= m <= 1 ->
  0 <= verification_confidence_of c m <= 1.
Proof.
  intros Hc Hm. unfold verification_confidence_of.
  split.
  - apply Qle_shift_div_l; lra.
  - apply Qle_shift_div_r; lra.
Qed.

(** C7.  When the five sub-scores read from the signal mapping (missing ones
    counting as 0.5) all lie in [0,1], the fused deepfake score lies in
    [0,1]: the weights sum to 1, so the weighted score is a convex
    combination.  Likewise the verification confidence of a consistency
    score and a manipulation probability in [0,1] lies in [0,1]. *)
Theorem fused_scores_in_unit_interval
    (ar : gmap string (gmap string Q)) (consistency manipulation : Q) :
  0 <= get_metric ar "face_consistency" "consistency_score" <= 1 ->
  0 <= get_metric ar "lighting_consistency" "shadow_consistency" <= 1 ->
  0 <= get_metric ar "compression_artifacts" "mean_artifact_score" <= 1 ->
  0 <= get_metric ar "temporal_consistency" "motion_consistency" <= 1 ->
  0 <= get_metric ar "audio_manipulation" "audio_manipulation_score" <= 1 ->
  0 <= consistency <= 1 ->
  0 <= manipulation <= 1 ->
  py_sum (weights.*2) == 1 /\
  0 <= calculate_deepfake_score ar <= 1 /\
  0 <= verification_confidence_of consistency manipulation <= 1.
Proof.
  intros Hf Hl Hc Ht Ha Hcs Hm.
  split; [apply weights_sum_to_one |].
  split; [| apply verification_confidence_of_bounds; assumption].
  rewrite calculate_deepfake_score_unfold. lra.
Qed.

Lemma fused_scores_in_unit_interval_witness :
  py_sum (weights.*2) == 1 /\
  0 <= calculate_deepfake_score ∅ <= 1 /\
  0 <= verification_confidence_of 0.69 0.1 <= 1.
Proof.
  apply (fused_scores_in_unit_interval ∅ 0.69 0.1);
    vm_compute; split; discriminate.
Defined.

(** ** The audio stub *)



Lemma calculate_deepfake_score_reports (fa la ca ta aa : gmap string Q) :
  calculate_deepfake_score
    {[ "face_consistency" := fa;
       "lighting_consistency" := la;
       "compression_artifacts" := ca;
       "temporal_consistency" := ta;
       "audio_manipulation" := aa ]}
  == 1 - (0.3 * default 0.5 (fa !! "consistency_score")
          + 0.2 * default 0.5 (la !! "shadow_consistency")
          + 0.25 * (1 - default 0.5 (ca !! "mean_artifact_score"))
          + 0.15 * default 0.5 (ta !! "motion_consistency")
          + 0.1 * (1 - default 0.5 (aa !! "audio_manipulation_score"))).
Proof.
  rewrite calculate_deepfake_score_unfold. unfold get_metric.
  set (m := ({[ "face_consistency" := fa; "lighting_consistency" := la;
                "compression_artifacts" := ca; "temporal_consistency" := ta;
                "audio_manipulation" := aa ]} : gmap string (gmap string Q))).
  change (m !! "face_consistency") with (Some fa).
  change (m !! "lighting_consistency") with (Some la).
  change (m !! "compression_artifacts") with (Some ca).
  change (m !! "temporal_consistency") with (Some ta).
  change (m !! "audio_manipulation") with (Some aa).
  reflexivity.
Qed.






(** ** The frame sampler *)

Lemma extract_loop_fuel mf T iv n m s fc frames :
  (T - fc <= Z.of_nat n)%Z -> (T - fc <= Z.of_nat m)%Z ->
  extract_loop mf T iv n s fc frames = extract_loop mf T iv m s fc frames.
Proof.
  revert m s fc frames.
  induction n as [| n IH]; intros [| m] s fc frames Hn Hm; cbn [extract_loop];
    try reflexivity.
  - replace (fc <? T)%Z with false by (symmetry; apply Z.ltb_ge; lia).
    rewrite andb_false_r. reflexivity.
  - replace (fc <? T)%Z with false by (symmetry; apply Z.ltb_ge; lia).
    rewrite andb_false_r. reflexivity.
  - destruct ((Z.of_nat (length frames) <? mf)%Z && (fc <? T)%Z); [| reflexivity].
    destruct (cap_read s) as [r s1]. apply IH; lia.
Qed.

Lemma extract_loop_spec mf T iv n s fc frames :
  (fc + Z.of_nat n = T)%Z ->
  (Z.of_nat (length frames) <= mf)%Z ->
  extract_loop mf T iv n s fc frames
  = take (Z.to_nat mf) (frames ++ strided iv fc (take n s)).
Proof.
  revert s fc frames.
  induction n as [| n IH]; intros s fc frames Hn Hlen; cbn [extract_loop].
  - rewrite take_0. cbn [strided]. rewrite app_nil_r.
    rewrite take_ge by lia. reflexivity.
  - destruct (Z.ltb_spec (Z.of_nat (length frames)) mf) as [Hlt | Hge].
    2: { cbn [andb]. rewrite take_app_le by lia. rewrite take_ge by lia.
         reflexivity. }
    replace (fc <? T)%Z with true by (symmetry; apply Z.ltb_lt; lia).
    cbn [andb].
    destruct s as [| r s1]; cbn [cap_read].
    + rewrite IH by lia. rewrite !take_nil. reflexivity.
    + cbn [take strided].
      destruct r as [frame |]; [| apply IH; lia].
      destruct (fc `mod` iv =? 0)%Z; [| apply IH; lia].
      rewrite IH by (rewrite ?length_app; cbn; lia).
      rewrite <- app_assoc. reflexivity.
Qed.

Lemma strided_length stride pos reads :
  (length (strided stride pos reads) <= length reads)%nat.
Proof.
  revert pos. induction reads as [| [f |] rest IH]; intros pos; cbn; [lia | |].
  - destruct (pos `mod` stride =? 0)%Z; cbn; specialize (IH (pos + 1)%Z); lia.
  - specialize (IH (pos + 1)%Z); lia.
Qed.

Lemma strided_elem stride pos reads (f : Frame) :
  f ∈ strided stride pos reads <->
  exists i : nat, reads !! i = Some (Some f) /\
                  ((pos + Z.of_nat i) `mod` stride = 0)%Z.
Proof.
  revert pos. induction reads as [| r rest IH]; intros pos; cbn [strided].
  - split; [intros H; inversion H | intros (i & H & _); discriminate].
  - assert (Hrest : (exists i : nat, rest !! i = Some (Some f) /\
               ((pos + 1 + Z.of_nat i) `mod` stride = 0)%Z) <->
             (exists i : nat, (r :: rest) !! S i = Some (Some f) /\
               ((pos + Z.of_nat (S i)) `mod` stride = 0)%Z)).
    { split; intros (i & H1 & H2); exists i; (split; [exact H1 |]).
      - replace (pos + Z.of_nat (S i))%Z with (pos + 1 + Z.of_nat i)%Z by lia.
        exact H2.
      - replace (pos + 1 + Z.of_nat i)%Z with (pos + Z.of_nat (S i))%Z by lia.
        exact H2. }
    assert (Hskip : f ∈ strided stride (pos + 1) rest ->
              exists i : nat, (r :: rest) !! i = Some (Some f) /\
                ((pos + Z.of_nat i) `mod` stride = 0)%Z).
    { intros H. apply IH, Hrest in H as (i & ? & ?). eauto. }
    destruct r as [g |].
    + destruct (Z.eqb_spec (pos `mod` stride) 0) as [E | E].
      * rewrite elem_of_cons. split.
        -- intros [-> | H]; [| auto].
           exists 0%nat. split; [reflexivity |].
           rewrite Z.add_0_r. exact E.
        -- intros ([| i] & H1 & H2).
           ++ left. cbn in H1. congruence.
           ++ right. apply IH, Hrest. eauto.
      * split; [auto |].
        intros ([| i] & H1 & H2).
        -- rewrite Z.add_0_r in H2. contradiction.
        -- apply IH, Hrest. eauto.
    + split; [auto |].
      intros ([| i] & H1 & H2); [discriminate |].
      apply IH, Hrest. eauto.
Qed.

Lemma strided_all_failed stride pos reads :
  Forall (fun r => r = None) reads -> strided stride pos reads = [].
Proof.
  intros H. revert pos. induction H as [| r rest -> _ IH]; intros pos; cbn; auto.
Qed.

Lemma extract_frames_returns env video_path max_frames cap s :
  (1 <= max_frames)%Z ->
  VideoCapture env video_path = Returns cap ->
  (0 <= CAP_PROP_FRAME_COUNT cap)%Z ->
  extract_frames env video_path max_frames s
  = (Returns (sampler_spec cap max_frames), s).
Proof.
  intros Hmax Hcap HT.
  unfold extract_frames, mbind, M_bind, bind, lift. rewrite Hcap.
  unfold sample_frames, sampler_spec.
  destruct (Z.eqb_spec max_frames 0) as [E | _]; [lia |].
  unfold mret, M_ret, ret. f_equal. f_equal.
  rewrite extract_loop_spec by (cbn; lia). reflexivity.
Qed.

(** C8.  For a container that opens with total frame count [T >= 0] and any
    [max_frames >= 1], [extract_frames] returns (without raising) exactly the
    decoded frames among the first [T] reads whose position is a multiple of
    [stride = max(1, T // max_frames)], cut off after [max_frames] frames; the
    result has at most [max_frames] and at most [T] frames; and a container
    that could not be opened, or none of whose reads decodes, gives the empty
    sequence. *)
Theorem extract_frames_sampling env video_path max_frames cap s :
  (1 <= max_frames)%Z ->
  VideoCapture env video_path = Returns cap ->
  (0 <= CAP_PROP_FRAME_COUNT cap)%Z ->
  let T := CAP_PROP_FRAME_COUNT cap in
  let stride := Z.max 1 (T `div` max_frames) in
  exists frames,
    extract_frames env video_path max_frames s = (Returns frames, s) /\
    frames = take (Z.to_nat max_frames)
                  (strided stride 0 (take (Z.to_nat T) (stream cap))) /\
    frames = sampler_spec cap max_frames /\
    (forall f, f ∈ frames ->
       exists i : nat, (i < Z.to_nat T)%nat /\ stream cap !! i = Some (Some f) /\
                       (Z.of_nat i `mod` stride = 0)%Z) /\
    (Z.of_nat (length frames) <= max_frames)%Z /\
    (Z.of_nat (length frames) <= T)%Z /\
    (cap = unopened -> frames = []) /\
    (Forall (fun r => r = None) (stream cap) -> frames = []).
Proof.
  intros Hmax Hcap HT T stride.
  set (kept := strided stride 0 (take (Z.to_nat T) (stream cap))).
  exists (take (Z.to_nat max_frames) kept).
  assert (Hlen : (length kept <= Z.to_nat T)%nat).
  { subst kept. etransitivity; [apply strided_length |].
    rewrite length_take. lia. }
  split.
  { rewrite (extract_frames_returns env video_path max_frames cap s Hmax Hcap HT).
    reflexivity. }
  split; [reflexivity |].
  split; [reflexivity |].
  split.
  { intros f Hf. apply elem_of_take in Hf as (j & Hj & _).
    assert (Hin : f ∈ kept) by (eapply list_elem_of_lookup_2; exact Hj).
    apply strided_elem in Hin as (i & Hi & Hmod).
    apply lookup_take_Some in Hi as [Hi Hlt].
    exists i. rewrite Z.add_0_l in Hmod. auto. }
  split; [rewrite length_take; lia |].
  split; [rewrite length_take; lia |].
  split.
  - intros ->. subst kept T. cbn. apply take_nil.
  - intros Hall. subst kept.
    rewrite strided_all_failed; [apply take_nil |].
    apply Forall_take. exact Hall.
Qed.

Lemma extract_frames_sampling_witness :
  let cap := clip 7 in
  let T := CAP_PROP_FRAME_COUNT cap in
  let stride := Z.max 1 (T `div` 3) in
  exists frames,
    extract_frames (demo_env (Returns cap)) "v.mp4" 3 s0 = (Returns frames, s0) /\
    frames = take (Z.to_nat 3)
                  (strided stride 0 (take (Z.to_nat T) (stream cap))) /\
    frames = sampler_spec cap 3 /\
    (forall f, f ∈ frames ->
       exists i : nat, (i < Z.to_nat T)%nat /\ stream cap !! i = Some (Some f) /\
                       (Z.of_nat i `mod` stride = 0)%Z) /\
    (Z.of_nat (length frames) <= 3)%Z /\
    (Z.of_nat (length frames) <= T)%Z /\
    (cap = unopened -> frames = []) /\
    (Forall (fun r => r = None) (stream cap) -> frames = []).
Proof.
  apply (extract_frames_sampling (demo_env (Returns (clip 7))) "v.mp4" 3
           (clip 7) s0).
  - lia.
  - reflexivity.
  - cbn. lia.
Defined.

Example extract_frames_clip7 :
  extract_frames (demo_env (Returns (clip 7))) "v.mp4" 3 s0
  = (Returns [a_frame; a_frame; a_frame], s0).
Proof. reflexivity. Qed.

Example extract_frames_zero_max :
  extract_frames (demo_env (Returns (clip 7))) "v.mp4" 0 s0
  = (Raises (ZeroDivisionError "integer division or modulo by zero"), s0).
Proof. reflexivity. Qed.

(** [extract_frames] has no handler of its own: an exception raised by
    OpenCV while opening the container propagates to the caller. *)
Example extract_frames_cv2_raises e (s : Sys) :
  extract_frames (demo_env (Raises e)) "v.mp4" 100 s = (Raises e, s).
Proof. reflexivity. Qed.

(** ** The geospatial engine: shape of a run *)

Lemma verify_geospatial_unopenable env video_path e s :
  VideoCapture env video_path = Raises e ->
  verify_geospatial_authenticity env video_path s
  = (Returns failed_record,
     mkSys (S (clock_reads s)) (calls s ++ ["extract_gps_metadata"])).
Proof.
  intros Hcap.
  unfold verify_geospatial_authenticity, verify_geospatial_authenticity_of,
    verify_geospatial_body_of, own_methods, extract_gps_metadata, try_except,
    mbind, M_bind, bind, lift, enter, datetime_now.
  cbn. rewrite Hcap. reflexivity.
Qed.

Lemma extract_gps_metadata_opened env video_path cap s :
  VideoCapture env video_path = Returns cap ->
  extract_gps_metadata env video_path s
  = (Returns (Some (mkGPS 37.7749 (-122.4194) (Some 10.0)
                          (Some (now env (clock_reads s))) (Some 5.0)
                          (Some 8%Z) (Some "iPhone 12"))),
     mkSys (S (clock_reads s)) (calls s ++ ["extract_gps_metadata"])).
Proof.
  intros Hcap.
  unfold extract_gps_metadata, try_except, mbind, M_bind, bind, lift, enter,
    datetime_now.
  cbn. rewrite Hcap. reflexivity.
Qed.

Lemma verify_location_consistency_opened env gps video_path cap s :
  VideoCapture env video_path = Returns cap ->
  let T := CAP_PROP_FRAME_COUNT cap in
  let frames := extract_loop 20 T (Z.max 1 (T `div` 20)) (Z.to_nat T)
                             (stream cap) 0 [] in
  let indicators := _analyze_location_indicators frames in
  verify_location_consistency env gps video_path s
  = (Returns {[ "consistency_score" :=
                  VFloat (_calculate_location_consistency indicators);
                "location_indicators" := VReport indicators;
                "verification_method" := VStr "visual_analysis" ]},
     mkSys (clock_reads s) (calls s ++ ["verify_location_consistency"])).
Proof.
  intros Hcap T frames indicators.
  unfold verify_location_consistency, _extract_sample_frames, try_except,
    mbind, M_bind, bind, lift, enter, sample_frames.
  cbn. rewrite Hcap. reflexivity.
Qed.

Lemma detect_gps_manipulation_run env gps s :
  let ts := match timestamp gps with
            | Some t =>
              if Qgt_bool (Qabs (now env (clock_reads s) - t)) 86400
              then 0.8 else 0.1
            | None => 0.5
            end in
  let reads := match timestamp gps with
               | Some _ => S (clock_reads s)
               | None => clock_reads s
               end in
  let ms := [ ("gps_jump", 0.1); ("timestamp_mismatch", ts);
              ("accuracy_anomaly", accuracy_anomaly_score gps);
              ("satellite_anomaly", satellite_anomaly_score gps) ] in
  detect_gps_manipulation env gps s
  = (Returns {[ "manipulation_scores" := VReport (list_to_map ms);
                "overall_manipulation_probability" :=
                  VFloat (py_sum (ms.*2) / Q_of_nat 4);
                "suspicious_patterns" :=
                  VList (VStr <$> (filter (fun kv => Qgt_bool kv.2 0.5 = true)
                                          ms).*1) ]},
     mkSys reads (calls s ++ ["detect_gps_manipulation"])).
Proof.
  unfold detect_gps_manipulation, timestamp_mismatch_score, mbind, M_bind,
    bind, enter, datetime_now, mret, M_ret, ret.
  destruct (timestamp gps) as [t |]; reflexivity.
Qed.

Lemma verify_geospatial_opened env video_path cap s :
  VideoCapture env video_path = Returns cap ->
  let cr := clock_reads s in
  let gps := mkGPS 37.7749 (-122.4194) (Some 10.0) (Some (now env (S cr)))
                   (Some 5.0) (Some 8%Z) (Some "iPhone 12") in
  let s2 := mkSys (S (S cr)) (calls s ++ ["extract_gps_metadata"]) in
  exists lc gm cs mp,
    (verify_location_consistency env gps video_path s2).1 = Returns lc /\
    (detect_gps_manipulation env gps
       (verify_location_consistency env gps video_path s2).2).1 = Returns gm /\
    lc !! "consistency_score" = Some (VFloat cs) /\
    gm !! "overall_manipulation_probability" = Some (VFloat mp) /\
    verify_geospatial_authenticity env video_path s
    = (Returns
         {[ "verification_status" :=
              VStr (verification_status_of (verification_confidence_of cs mp));
            "verification_confidence" :=
              VFloat (verification_confidence_of cs mp);
            "gps_metadata" :=
              VDict {[ "latitude" := VFloat 37.7749;
                       "longitude" := VFloat (-122.4194);
                       "altitude" := VFloat 10.0;
                       "timestamp" := VStr (isoformat env (now env (S cr)));
                       "accuracy" := VFloat 5.0;
                       "satellites" := VInt 8;
                       "device_info" := VStr "iPhone 12" ]};
            "location_consistency" := VDict lc;
            "gps_manipulation" := VDict gm;
            "processing_time" := VFloat (now env (3 + cr)%nat - now env cr);
            "verification_methods" :=
              VList [VStr "gps_analysis"; VStr "visual_analysis"] ]},
       mkSys (4 + cr)
             (calls s ++ ["extract_gps_metadata"; "verify_location_consistency";
                          "detect_gps_manipulation"])).
Proof.
  intros Hcap cr gps s2.
  rewrite (verify_location_consistency_opened env gps video_path cap s2 Hcap).
  cbn [fst snd].
  rewrite detect_gps_manipulation_run. cbn [fst snd timestamp gps].
  eexists _, _, _, _.
  split; [reflexivity |]. split; [reflexivity |].
  split; [reflexivity |]. split; [reflexivity |].
  unfold verify_geospatial_authenticity, verify_geospatial_authenticity_of,
    verify_geospatial_body_of, own_methods, try_except, mbind, M_bind, bind,
    datetime_now.
  cbn [clock_reads calls self_extract_gps_metadata
       self_verify_location_consistency self_detect_gps_manipulation].
  rewrite (extract_gps_metadata_opened env video_path cap _ Hcap).
  cbn [clock_reads calls].
  fold cr. fold gps. fold s2.
  rewrite (verify_location_consistency_opened env gps video_path cap s2 Hcap).
  rewrite detect_gps_manipulation_run.
  cbn [timestamp gps clock_reads calls s2].
  rewrite <- !app_assoc. reflexivity.
Qed.

(** ** GPS manipulation patterns *)

(** The pattern table, for metadata whose accuracy and satellite count are
    not zero. *)
Lemma accuracy_anomaly_score_table gps :
  match accuracy gps with
  | None => accuracy_anomaly_score gps = 0.5
  | Some a =>
    ~ a == 0 ->
    (a < 1 -> accuracy_anomaly_score gps = 0.7) /\
    (50 < a -> accuracy_anomaly_score gps = 0.6) /\
    (1 <= a <= 50 -> accuracy_anomaly_score gps = 0.1)
  end.
Proof.
  unfold accuracy_anomaly_score. destruct (accuracy gps) as [a |]; [| reflexivity].
  intros Hnz.
  destruct (Qeq_bool a 0) eqn:E0; [apply Qeq_bool_iff in E0; contradiction |].
  destruct (Qlt_bool a 1.0) eqn:E1.
  - apply Qlt_bool_iff in E1.
    repeat split; auto; intros; exfalso; lra.
  - apply Qlt_bool_false in E1.
    destruct (Qgt_bool a 50.0) eqn:E2.
    + apply Qgt_bool_iff in E2. repeat split; auto; intros; exfalso; lra.
    + apply Qgt_bool_false in E2. repeat split; auto; intros; exfalso; lra.
Qed.

Lemma satellite_anomaly_score_table gps :
  match satellites gps with
  | None => satellite_anomaly_score gps = 0.5
  | Some n =>
    n <> 0%Z ->
    ((n < 4)%Z -> satellite_anomaly_score gps = 0.8) /\
    ((12 < n)%Z -> satellite_anomaly_score gps = 0.6) /\
    ((4 <= n <= 12)%Z -> satellite_anomaly_score gps = 0.1)
  end.
Proof.
  unfold satellite_anomaly_score.
  destruct (satellites gps) as [n |]; [| reflexivity].
  intros Hnz.
  destruct (Z.eqb_spec n 0) as [| _]; [contradiction |].
  destruct (Z.ltb_spec n 4); [repeat split; auto; intros; lia |].
  destruct (Z.ltb_spec 12 n); repeat split; auto; intros; lia.
Qed.

(** The end-to-end scenario of the specification: accuracy 0.5 m, three
    satellites, a timestamp equal to the detector's clock reading. *)
Example detect_gps_manipulation_scenario env s :
  let gps := mkGPS 0 0 None (Some (now env (clock_reads s))) (Some 0.5)
                   (Some 3%Z) None in
  exists r ms p,
    (detect_gps_manipulation env gps s).1 = Returns r /\
    r !! "manipulation_scores" = Some (VReport ms) /\
    ms !! "gps_jump" = Some 0.1 /\
    ms !! "timestamp_mismatch" = Some 0.1 /\
    ms !! "accuracy_anomaly" = Some 0.7 /\
    ms !! "satellite_anomaly" = Some 0.8 /\
    r !! "overall_manipulation_probability" = Some (VFloat p) /\
    p == 0.425 /\
    r !! "suspicious_patterns"
    = Some (VList [VStr "accuracy_anomaly"; VStr "satellite_anomaly"]).
Proof.
  intros gps. rewrite detect_gps_manipulation_run. cbn [fst timestamp gps].
  assert (Hts : Qgt_bool (Qabs (now env (clock_reads s) - now env (clock_reads s)))
                         86400 = false).
  { apply Qgt_bool_false.
    assert (E : now env (clock_reads s) - now env (clock_reads s) == 0) by ring.
    rewrite E. discriminate. }
  rewrite Hts.
  eexists _, _, _.
  split; [reflexivity |]. split; [reflexivity |].
  repeat split; try reflexivity; vm_compute; reflexivity.
Qed.

(** C6.  [detect_gps_manipulation] on metadata that reports an accuracy of
    0.0 m and 0 satellites: both attributes are present, 0.0 < 1 and 0 < 4,
    yet the accuracy and satellite patterns score 0.5 (the "absent" value)
    instead of 0.7 and 0.8, the overall probability is 0.4 and no pattern is
    triggered. *)
Theorem detect_gps_manipulation_zero_is_absent env s :
  let gps := mkGPS 0 0 None None (Some 0.0) (Some 0%Z) None in
  exists r ms p,
    (detect_gps_manipulation env gps s).1 = Returns r /\
    r !! "manipulation_scores" = Some (VReport ms) /\
    ms !! "accuracy_anomaly" = Some 0.5 /\
    ms !! "satellite_anomaly" = Some 0.5 /\
    r !! "overall_manipulation_probability" = Some (VFloat p) /\
    p == 0.4 /\
    r !! "suspicious_patterns" = Some (VList []).
Proof.
  intros gps. rewrite detect_gps_manipulation_run. cbn [fst timestamp gps].
  eexists _, _, _.
  split; [reflexivity |]. split; [reflexivity |].
  repeat split; try reflexivity; vm_compute; reflexivity.
Qed.

(** ** Geospatial fusion *)

Lemma verification_status_of_spec (c : Q) :
  (verification_status_of c = "verified" <-> 0.7 < c) /\
  (verification_status_of c = "suspicious" <-> c < 0.3) /\
  (verification_status_of c = "uncertain" <-> 0.3 <= c <= 0.7).
Proof.
  unfold verification_status_of.
  destruct (Qgt_bool c 0.7) eqn:E1.
  - apply Qgt_bool_iff in E1.
    repeat split; try discriminate; try (intros; exfalso; lra); auto.
  - apply Qgt_bool_false in E1.
    destruct (Qlt_bool c 0.3) eqn:E2.
    + apply Qlt_bool_iff in E2.
      repeat split; try discriminate; try (intros; exfalso; lra); auto.
    + apply Qlt_bool_false in E2.
      repeat split; try discriminate; try (intros; exfalso; lra); auto.
      all: intros; lra.
Qed.

(** GPS extraction yields no metadata exactly when opening the container
    raises. *)
Lemma extract_gps_metadata_none env video_path s :
  (extract_gps_metadata env video_path s).1 = Returns None <->
  exists e, VideoCapture env video_path = Raises e.
Proof.
  destruct (VideoCapture env video_path) as [cap | e] eqn:Hcap.
  - rewrite (extract_gps_metadata_opened env video_path cap s Hcap). cbn.
    split; [discriminate | intros (e & He); discriminate].
  - unfold extract_gps_metadata, try_except, mbind, M_bind, bind, lift, enter,
      datetime_now.
    cbn. rewrite Hcap. cbn. split; eauto.
Qed.

(** C5.  In [verify_geospatial_authenticity]: when GPS extraction returns no
    metadata the result is the "failed" record and the only engine method
    entered is [extract_gps_metadata] (neither sub-analyzer runs); when it
    returns metadata both sub-analyzers run on that metadata, one after the
    other, the record carries the two reports they returned, the confidence
    is (consistency_score + (1 - overall_manipulation_probability)) / 2 for
    the scores of those two reports, and the status is "verified" iff the
    confidence exceeds 0.7, "suspicious" iff it is below 0.3 and "uncertain"
    otherwise; 0.7 and 0.3 give "uncertain", 0.71 "verified" and 0.29
    "suspicious". *)
Theorem verify_geospatial_status env video_path s :
  let s1 := mkSys (S (clock_reads s)) (calls s) in
  ((extract_gps_metadata env video_path s1).1 = Returns None ->
   exists s' entered,
     verify_geospatial_authenticity env video_path s = (Returns failed_record, s') /\
     failed_record !! "verification_status" = Some (VStr "failed") /\
     calls s' = calls s ++ entered /\
     entered = ["extract_gps_metadata"] /\
     ("verify_location_consistency" ∉ entered) /\
     ("detect_gps_manipulation" ∉ entered)) /\
  (forall gps, (extract_gps_metadata env video_path s1).1 = Returns (Some gps) ->
   let s2 := (extract_gps_metadata env video_path s1).2 in
   let s3 := (verify_location_consistency env gps video_path s2).2 in
   exists r s' lc gm cs mp confidence status,
     verify_geospatial_authenticity env video_path s = (Returns r, s') /\
     calls s' = calls s ++ ["extract_gps_metadata"; "verify_location_consistency";
                            "detect_gps_manipulation"] /\
     (verify_location_consistency env gps video_path s2).1 = Returns lc /\
     (detect_gps_manipulation env gps s3).1 = Returns gm /\
     r !! "location_consistency" = Some (VDict lc) /\
     lc !! "consistency_score" = Some (VFloat cs) /\
     r !! "gps_manipulation" = Some (VDict gm) /\
     gm !! "overall_manipulation_probability" = Some (VFloat mp) /\
     r !! "verification_confidence" = Some (VFloat confidence) /\
     confidence == (cs + (1 - mp)) / 2 /\
     r !! "verification_status" = Some (VStr status) /\
     (status = "verified" <-> 0.7 < confidence) /\
     (status = "suspicious" <-> confidence < 0.3) /\
     (status = "uncertain" <-> 0.3 <= confidence <= 0.7)) /\
  verification_status_of 0.7 = "uncertain" /\
  verification_status_of 0.3 = "uncertain" /\
  verification_status_of 0.71 = "verified" /\
  verification_status_of 0.29 = "suspicious".
Proof.
  intros s1. split; [| split; [| repeat split]].
  - intros Hnone. apply extract_gps_metadata_none in Hnone as (e & He).
    rewrite (verify_geospatial_unopenable env video_path e s He).
    eexists _, _. split; [reflexivity |]. split; [reflexivity |].
    cbn [calls]. split; [reflexivity |]. split; [reflexivity |].
    split; intros Hin; apply list_elem_of_singleton in Hin; discriminate.
  - intros gps Hsome.
    destruct (VideoCapture env video_path) as [cap | e] eqn:Hcap.
    2: { assert (Hn : (extract_gps_metadata env video_path s1).1 = Returns None)
           by (apply extract_gps_metadata_none; eauto).
         rewrite Hn in Hsome. discriminate. }
    rewrite (extract_gps_metadata_opened env video_path cap s1 Hcap) in Hsome |- *.
    cbn [fst snd clock_reads calls s1] in Hsome |- *.
    injection Hsome as <-.
    destruct (verify_geospatial_opened env video_path cap s Hcap)
      as (lc & gm & cs & mp & Hlc & Hgm & Hcs & Hmp & Hrun).
    rewrite Hrun.
    pose proof (verification_status_of_spec (verification_confidence_of cs mp))
      as (? & ? & ?).
    eexists _, _, lc, gm, cs, mp, _, _.
    split; [reflexivity |]. split; [reflexivity |].
    split; [exact Hlc |]. split; [exact Hgm |].
    split; [reflexivity |]. split; [exact Hcs |].
    split; [reflexivity |]. split; [exact Hmp |].
    split; [reflexivity |].
    split; [unfold verification_confidence_of; reflexivity |].
    split; [reflexivity |]. auto.
Qed.

Lemma verify_geospatial_status_witness :
  (exists s' entered,
     verify_geospatial_authenticity (demo_env (Raises (Cv2Error "cv2.error")))
       "v.mp4" s0 = (Returns failed_record, s') /\
     calls s' = calls s0 ++ entered /\
     ("verify_location_consistency" ∉ entered) /\
     ("detect_gps_manipulation" ∉ entered)) /\
  (exists r s' confidence,
     verify_geospatial_authenticity (demo_env (Returns (clip 3))) "v.mp4" s0
       = (Returns r, s') /\
     r !! "verification_confidence" = Some (VFloat confidence) /\
     r !! "verification_status" = Some (VStr "verified") /\
     0.7 < confidence).
Proof.
  split.
  - destruct (verify_geospatial_status (demo_env (Raises (Cv2Error "cv2.error")))
                "v.mp4" s0) as (Hfailed & _).
    destruct Hfailed as (s' & entered & Hrun & _ & Hcalls & _ & Hlc & Hgm);
      [reflexivity |].
    exists s', entered. auto.
  - destruct (verify_geospatial_status (demo_env (Returns (clip 3))) "v.mp4" s0)
      as (_ & Hok & _).
    destruct (Hok (mkGPS 37.7749 (-122.4194) (Some 10.0) (Some (Q_of_nat 1))
                         (Some 5.0) (Some 8%Z) (Some "iPhone 12")))
      as (r & s' & lc & gm & cs & mp & confidence & status & Hrun & _ & _ & _
          & _ & _ & _ & _ & Hconf & _ & Hstatus & Hver & _);
      [reflexivity |].
    assert (Hr : exists rr ss, verify_geospatial_authenticity
                   (demo_env (Returns (clip 3))) "v.mp4" s0 = (Returns rr, ss)
                 /\ rr !! "verification_status" = Some (VStr "verified")).
    { eexists _, _. split; [vm_compute; reflexivity | reflexivity]. }
    destruct Hr as (rr & ss & Hrr & Hst).
    rewrite Hrun in Hrr. injection Hrr as <- <-.
    rewrite Hstatus in Hst. injection Hst as ->.
    exists r, s', confidence. repeat split; auto.
    apply Hver. reflexivity.
Defined.

(** ** The GPS stub end to end *)

Lemma _extract_sample_frames_opened env video_path cap s :
  VideoCapture env video_path = Returns cap ->
  let T := CAP_PROP_FRAME_COUNT cap in
  _extract_sample_frames env video_path 20 s
  = (Returns (extract_loop 20 T (Z.max 1 (T `div` 20)) (Z.to_nat T)
                           (stream cap) 0 []), s).
Proof.
  intros Hcap T.
  unfold _extract_sample_frames, try_except, mbind, M_bind, bind, lift,
    sample_frames.
  rewrite Hcap. reflexivity.
Qed.

Lemma location_consistency_stub (frames : list Frame) :
  (frames <> [] ->
   _calculate_location_consistency (_analyze_location_indicators frames)
   == 0.69) /\
  (frames = [] ->
   _calculate_location_consistency (_analyze_location_indicators frames)
   == 0).
Proof.
  split.
  - intros Hne. destruct frames as [| f fs]; [contradiction |].
    vm_compute. reflexivity.
  - intros ->. vm_compute. reflexivity.
Qed.

(** The record of a run on a container that opens, with the two reports it
    carries spelled out. *)
Lemma verify_geospatial_stub_record env video_path cap s :
  VideoCapture env video_path = Returns cap ->
  let cr := clock_reads s in
  let T := CAP_PROP_FRAME_COUNT cap in
  let frames := extract_loop 20 T (Z.max 1 (T `div` 20)) (Z.to_nat T)
                             (stream cap) 0 [] in
  let indicators := _analyze_location_indicators frames in
  let late := Qgt_bool (Qabs (now env (S (S cr)) - now env (S cr))) 86400 in
  let ms := [ ("gps_jump", 0.1);
              ("timestamp_mismatch", if late then 0.8 else 0.1);
              ("accuracy_anomaly", 0.1); ("satellite_anomaly", 0.1) ] in
  let cs := _calculate_location_consistency indicators in
  let mp := py_sum (ms.*2) / Q_of_nat 4 in
  exists r s' lc gm,
    verify_geospatial_authenticity env video_path s = (Returns r, s') /\
    (_extract_sample_frames env video_path 20 s).1 = Returns frames /\
    r !! "location_consistency" = Some (VDict lc) /\
    lc !! "location_indicators" = Some (VReport indicators) /\
    lc !! "consistency_score" = Some (VFloat cs) /\
    lc !! "verification_method" = Some (VStr "visual_analysis") /\
    r !! "gps_manipulation" = Some (VDict gm) /\
    gm !! "manipulation_scores" = Some (VReport (list_to_map ms)) /\
    gm !! "overall_manipulation_probability" = Some (VFloat mp) /\
    gm !! "suspicious_patterns"
    = Some (VList (if late then [VStr "timestamp_mismatch"] else [])) /\
    r !! "verification_confidence"
    = Some (VFloat (verification_confidence_of cs mp)) /\
    r !! "verification_status"
    = Some (VStr (verification_status_of (verification_confidence_of cs mp))).
Proof.
  intros Hcap cr T frames indicators late ms cs mp.
  destruct (verify_geospatial_opened env video_path cap s Hcap)
    as (lc & gm & cs' & mp' & Hlc & Hgm & Hcs & Hmp & Hrun).
  rewrite verify_location_consistency_opened with (cap := cap) in Hlc, Hgm
    by exact Hcap.
  cbn [fst snd] in Hlc, Hgm.
  rewrite detect_gps_manipulation_run in Hgm.
  cbn [fst timestamp clock_reads] in Hgm.
  injection Hlc as <-. injection Hgm as <-.
  fold T in Hcs, Hrun. fold frames in Hcs, Hrun. fold indicators in Hcs, Hrun.
  fold cr in Hmp, Hrun. fold late in Hmp, Hrun.
  assert (Hcs' : Some (VFloat cs) = Some (VFloat cs')) by exact Hcs.
  assert (Hmp' : Some (VFloat mp) = Some (VFloat mp')) by exact Hmp.
  injection Hcs' as <-. injection Hmp' as <-.
  rewrite Hrun. eexists _, _, _, _.
  split; [reflexivity |].
  split; [rewrite _extract_sample_frames_opened with (cap := cap) by exact Hcap;
          reflexivity |].
  split; [reflexivity |]. split; [reflexivity |]. split; [reflexivity |].
  split; [reflexivity |]. split; [reflexivity |]. split; [reflexivity |].
  split; [reflexivity |].
  split; [subst late; destruct (Qgt_bool _ 86400); reflexivity |].
  split; reflexivity.
Qed.

(** The stub in binary64: the four cases of a sampled frame or none and of a
    clock reading within 24 h or not. *)
Lemma stub_scores_binary64 (frames : list Frame) (late : bool) :
  let indicators := _analyze_location_indicators frames in
  let ms := [ ("gps_jump", 0.1);
              ("timestamp_mismatch", if late then 0.8 else 0.1);
              ("accuracy_anomaly", 0.1); ("satellite_anomaly", 0.1) ] in
  let cs := _calculate_location_consistency indicators in
  let mp := py_sum (ms.*2) / Q_of_nat 4 in
  let cs64 := F64._calculate_location_consistency indicators in
  let mp64 := F64.overall_manipulation_probability ms in
  let c64 := F64.verification_confidence_of cs64 mp64 in
  cs64 = match frames with [] => 0%float | _ => 0.6900000000000002%float end /\
  mp64 = (if late then 0.275%float else 0.1%float) /\
  c64 = match frames, late with
        | [], false => 0.45%float
        | [], true => 0.3625%float
        | _, false => 0.7950000000000002%float
        | _, true => 0.7075%float
        end /\
  F64.verification_status_of c64
  = verification_status_of (verification_confidence_of cs mp) /\
  F64.verification_status_of c64
  = match frames with [] => "uncertain" | _ => "verified" end /\
  Qabs (F64.to_Q cs64 - cs) <= 1 # 1000000000000000 /\
  Qabs (F64.to_Q mp64 - mp) <= 1 # 1000000000000000 /\
  Qabs (F64.to_Q c64 - verification_confidence_of cs mp)
  <= 1 # 1000000000000000.
Proof.
  destruct frames as [| f fs], late; vm_compute;
    repeat split; discriminate.
Qed.

(** C9 (amended).  When the container opens, [extract_gps_metadata] returns
    the fixed San Francisco metadata stamped with the current clock reading,
    whatever the container holds.  Consequently, the detector reading the
    clock within 24 h of that stamp, [verify_geospatial_authenticity] returns
    a record with the four manipulation scores 0.1 and no triggered pattern;
    in binary64 the overall manipulation probability is 0.1 and, with at
    least one sampled frame, the location consistency computed from the stub
    indicators is 0.6900000000000002 and the confidence 0.7950000000000002,
    with status "verified"; with no sampled frame the consistency is 0, the
    confidence 0.45 and the status "uncertain".  The values of the record,
    computed without rounding, are within 1e-15 of the binary64 ones. *)
Theorem stub_gps_verdict env video_path cap s :
  VideoCapture env video_path = Returns cap ->
  Qabs (now env (2 + clock_reads s) - now env (1 + clock_reads s)) <= 86400 ->
  (forall s1,
     (extract_gps_metadata env video_path s1).1
     = Returns (Some (mkGPS 37.7749 (-122.4194) (Some 10.0)
                            (Some (now env (clock_reads s1))) (Some 5.0)
                            (Some 8%Z) (Some "iPhone 12")))) /\
  exists r s' frames lc gm indicators ms cs mp confidence status,
    verify_geospatial_authenticity env video_path s = (Returns r, s') /\
    (_extract_sample_frames env video_path 20 s).1 = Returns frames /\
    r !! "location_consistency" = Some (VDict lc) /\
    lc !! "location_indicators" = Some (VReport indicators) /\
    indicators = _analyze_location_indicators frames /\
    lc !! "consistency_score" = Some (VFloat cs) /\
    r !! "gps_manipulation" = Some (VDict gm) /\
    gm !! "manipulation_scores" = Some (VReport (list_to_map ms)) /\
    ms = [ ("gps_jump", 0.1); ("timestamp_mismatch", 0.1);
           ("accuracy_anomaly", 0.1); ("satellite_anomaly", 0.1) ] /\
    gm !! "overall_manipulation_probability" = Some (VFloat mp) /\
    gm !! "suspicious_patterns" = Some (VList []) /\
    r !! "verification_confidence" = Some (VFloat confidence) /\
    r !! "verification_status" = Some (VStr status) /\
    let cs64 := F64._calculate_location_consistency indicators in
    let mp64 := F64.overall_manipulation_probability ms in
    let c64 := F64.verification_confidence_of cs64 mp64 in
    mp64 = 0.1%float /\
    F64.verification_status_of c64 = status /\
    Qabs (F64.to_Q cs64 - cs) <= 1 # 1000000000000000 /\
    Qabs (F64.to_Q mp64 - mp) <= 1 # 1000000000000000 /\
    Qabs (F64.to_Q c64 - confidence) <= 1 # 1000000000000000 /\
    (frames <> [] ->
     cs64 = 0.6900000000000002%float /\ c64 = 0.7950000000000002%float /\
     status = "verified") /\
    (frames = [] ->
     cs64 = 0%float /\ c64 = 0.45%float /\ status = "uncertain").
Proof.
  intros Hcap Hclock. split.
  { intros s1. rewrite (extract_gps_metadata_opened env video_path cap s1 Hcap).
    reflexivity. }
  destruct (verify_geospatial_stub_record env video_path cap s Hcap)
    as (r & s' & lc & gm & Hrun & Hframes & Hlc & Hind & Hcs & _ & Hgm & Hms
        & Hmp & Hpat & Hconf & Hstatus).
  cbv zeta in Hframes, Hind, Hcs, Hms, Hmp, Hpat, Hconf, Hstatus.
  apply Qgt_bool_false in Hclock. cbn [Nat.add] in Hclock.
  rewrite Hclock in Hms, Hmp, Hpat, Hconf, Hstatus.
  set (frames := extract_loop 20 _ _ _ _ _ _) in *.
  pose proof (stub_scores_binary64 frames false)
    as (Hcs64 & Hmp64 & Hc64 & Hst64 & Hst & Tcs & Tmp & Tc).
  cbv zeta in Hcs64, Hmp64, Hc64, Hst64, Hst, Tcs, Tmp, Tc.
  eexists r, s', frames, lc, gm, _, _, _, _, _, _.
  split; [exact Hrun |]. split; [exact Hframes |]. split; [exact Hlc |].
  split; [exact Hind |]. split; [reflexivity |]. split; [exact Hcs |].
  split; [exact Hgm |]. split; [exact Hms |]. split; [reflexivity |].
  split; [exact Hmp |]. split; [exact Hpat |]. split; [exact Hconf |].
  split; [exact Hstatus |].
  cbv zeta.
  split; [exact Hmp64 |]. split; [exact Hst64 |].
  split; [exact Tcs |]. split; [exact Tmp |]. split; [exact Tc |].
  rewrite <- Hst64, Hst.
  split.
  - intros Hne. rewrite Hc64, Hcs64.
    destruct frames as [| f fs]; [contradiction |]. auto.
  - intros Hnil. rewrite Hc64, Hcs64, Hnil. auto.
Qed.

Lemma stub_gps_verdict_witness :
  (exists r s',
     verify_geospatial_authenticity (demo_env (Returns (clip 3))) "v.mp4" s0
       = (Returns r, s') /\
     r !! "verification_status" = Some (VStr "verified")) /\
  (exists r s',
     verify_geospatial_authenticity (demo_env (Returns unopened)) "v.mp4" s0
       = (Returns r, s') /\
     r !! "verification_status" = Some (VStr "uncertain")).
Proof.
  split.
  - destruct (stub_gps_verdict (demo_env (Returns (clip 3))) "v.mp4" (clip 3) s0)
      as (_ & r & s' & frames & lc & gm & indicators & ms & cs & mp & confidence
          & status & Hrun & Hframes & _ & _ & _ & _ & _ & _ & _ & _ & _ & _
          & Hstatus & _ & _ & _ & _ & _ & Hne & _);
      [reflexivity | vm_compute; discriminate |].
    injection Hframes as <-.
    destruct Hne as (_ & _ & ->); [discriminate |].
    exists r, s'. auto.
  - destruct (stub_gps_verdict (demo_env (Returns unopened)) "v.mp4" unopened s0)
      as (_ & r & s' & frames & lc & gm & indicators & ms & cs & mp & confidence
          & status & Hrun & Hframes & _ & _ & _ & _ & _ & _ & _ & _ & _ & _
          & Hstatus & _ & _ & _ & _ & _ & _ & Hnil);
      [reflexivity | vm_compute; discriminate |].
    injection Hframes as <-.
    destruct Hnil as (_ & _ & ->); [reflexivity |].
    exists r, s'. auto.
Defined.

(** C9 as stated fails by rounding: for a three-frame clip the consistency
    and the confidence computed in binary64 from the record's indicators and
    scores are not the floats 0.69 and 0.795. *)
Lemma stub_confidence_not_0795 :
  exists r s' lc gm indicators ms,
    verify_geospatial_authenticity (demo_env (Returns (clip 3))) "v.mp4" s0
      = (Returns r, s') /\
    r !! "verification_status" = Some (VStr "verified") /\
    r !! "location_consistency" = Some (VDict lc) /\
    lc !! "location_indicators" = Some (VReport indicators) /\
    r !! "gps_manipulation" = Some (VDict gm) /\
    gm !! "manipulation_scores" = Some (VReport (list_to_map ms)) /\
    let cs64 := F64._calculate_location_consistency indicators in
    let mp64 := F64.overall_manipulation_probability ms in
    let c64 := F64.verification_confidence_of cs64 mp64 in
    cs64 = 0.6900000000000002%float /\
    PrimFloat.eqb cs64 0.69%float = false /\
    c64 = 0.7950000000000002%float /\
    PrimFloat.eqb c64 0.795%float = false.
Proof.
  exists (match (verify_geospatial_authenticity (demo_env (Returns (clip 3)))
                   "v.mp4" s0).1 with
          | Returns r => r
          | Raises _ => ∅
          end).
  eexists _, _, _, (_analyze_location_indicators [a_frame]),
    [ ("gps_jump", 0.1); ("timestamp_mismatch", 0.1);
      ("accuracy_anomaly", 0.1); ("satellite_anomaly", 0.1) ].
  split; [vm_compute; reflexivity |].
  split; [reflexivity |]. split; [reflexivity |]. split; [reflexivity |].
  split; [reflexivity |]. split; [reflexivity |].
  vm_compute. repeat split.
Qed.

(** ** Degenerate frame sequences *)

(** With fewer than two frames the face, lighting and temporal analyzers
    return their constant reports. *)
Lemma degenerate_signal_reports env (frames : list Frame) s :
  (length frames < 2)%nat ->
  analyze_face_consistency env frames s
  = (Returns {[ "consistency_score" := 0.0; "face_count_variance" := 0.0 ]}, s) /\
  analyze_lighting_consistency env frames s
  = (Returns {[ "lighting_variance" := 0.0; "shadow_consistency" := 0.0 ]}, s) /\
  analyze_temporal_consistency env frames s
  = (Returns {[ "motion_consistency" := 0.0; "temporal_variance" := 0.0 ]}, s).
Proof.
  intros Hlen.
  unfold analyze_face_consistency, analyze_lighting_consistency,
    analyze_temporal_consistency.
  apply Nat.ltb_lt in Hlen. rewrite Hlen. auto.
Qed.

(** On at least one frame the compression analyzer returns a report. *)
Lemma analyze_compression_artifacts_nonempty env f (fs : list Frame) s :
  exists r,
    analyze_compression_artifacts env (f :: fs) s = (Returns r, s) /\
    r !! "mean_artifact_score"
    = Some (np_mean (artifact_score env <$> f :: fs)) /\
    is_Some (r !! "artifact_variance") /\
    is_Some (r !! "max_artifact_score").
Proof.
  unfold analyze_compression_artifacts, mbind, M_bind, bind. cbn [fmap list_fmap np_max].
  eexists. split; [reflexivity |].
  split; [reflexivity |]. split; eexists; reflexivity.
Qed.

(** C3.  The compression-artifact analyzer on the empty frame sequence: it
    does not return a report, [np.max] of the empty score list raises
    [ValueError].  (The face, lighting and temporal analyzers do return their
    constant reports there, see [degenerate_signal_reports].) *)
Theorem analyze_compression_artifacts_empty_raises env s :
  analyze_compression_artifacts env [] s
  = (Raises (ValueError
       "zero-size array to reduction operation maximum which has no identity"),
     s).
Proof. reflexivity. Qed.

(** Seen from the entry point: a video that yields no frame is reported as
    an "error", not as a degenerate analysis. *)
Lemma analyze_video_no_frames env video_path audio_path cap s :
  VideoCapture env video_path = Returns cap ->
  sampler_spec cap 100 = [] ->
  (0 <= CAP_PROP_FRAME_COUNT cap)%Z ->
  analyze_video env video_path audio_path s
  = (Returns (analyze_video_error (ValueError
       "zero-size array to reduction operation maximum which has no identity")),
     mkSys (S (clock_reads s)) (calls s)).
Proof.
  intros Hcap Hnil HT.
  pose proof (extract_frames_returns env video_path 100 cap
                (mkSys (S (clock_reads s)) (calls s)) ltac:(lia) Hcap HT)
    as Hrun.
  rewrite Hnil in Hrun.
  unfold analyze_video, analyze_video_body, try_except, mbind, M_bind, bind,
    datetime_now in *.
  rewrite Hrun. reflexivity.
Qed.

(** ** The entry points never raise *)

Lemma classification_of_not_error (x : Q) : classification_of x <> "error".
Proof.
  unfold classification_of.
  destruct (Qgt_bool x 0.7); [discriminate |].
  destruct (Qlt_bool x 0.3); discriminate.
Qed.

Lemma analyze_video_body_fields env video_path audio_path t0 s r s' :
  analyze_video_body env video_path audio_path t0 s = (Returns r, s') ->
  has_fields DeepfakeResult_fields r /\
  r !! "classification" <> Some (VStr "error").
Proof.
  intros H. split.
  - unfold analyze_video_body in H.
    repeat (apply bind_returns in H; destruct H as (? & ? & _ & H)).
    injection H as <- _.
    repeat constructor; eexists; reflexivity.
  - apply analyze_video_body_record in H as (x & _ & Hc & _).
    rewrite Hc. intros E. injection E as E.
    exact (classification_of_not_error x E).
Qed.

Lemma verify_geospatial_returns env video_path s :
  exists g s',
    verify_geospatial_authenticity env video_path s = (Returns g, s') /\
    ((has_fields GeospatialResult_fields g /\
      g !! "verification_status" <> Some (VStr "failed") /\
      g !! "verification_status" <> Some (VStr "error")) \/
     g = failed_record).
Proof.
  destruct (VideoCapture env video_path) as [cap | e] eqn:Hcap.
  - destruct (verify_geospatial_opened env video_path cap s Hcap)
      as (lc & gm & cs & mp & _ & _ & _ & _ & Hrun).
    rewrite Hrun. eexists _, _. split; [reflexivity |]. left.
    split; [repeat constructor; eexists; reflexivity |].
    match goal with
    | |- ?m !! _ <> _ /\ _ =>
      change (m !! "verification_status")
        with (Some (VStr (verification_status_of
                            (verification_confidence_of cs mp))))
    end.
    unfold verification_status_of.
    destruct (Qgt_bool _ 0.7); [split; discriminate |].
    destruct (Qlt_bool _ 0.3); split; discriminate.
  - rewrite (verify_geospatial_unopenable env video_path e s Hcap).
    eexists _, _. split; [reflexivity |]. right. reflexivity.
Qed.

(** Whatever the three methods do, a record the [try] block of
    [verify_geospatial_authenticity] returns is the "failed" record or has
    all seven fields, and its status is never "error". *)
Lemma verify_geospatial_body_of_returns env (self : GeospatialMethods)
    video_path t0 s g s' :
  verify_geospatial_body_of env self video_path t0 s = (Returns g, s') ->
  (has_fields GeospatialResult_fields g \/ g = failed_record) /\
  g !! "verification_status" <> Some (VStr "error").
Proof.
  unfold verify_geospatial_body_of. intros H.
  apply bind_returns in H as ([gps |] & s1 & _ & H).
  2: { injection H as <- _. split; [right; reflexivity | discriminate]. }
  repeat (apply bind_returns in H; destruct H as (? & ? & _ & H)).
  injection H as <- _.
  split; [left; repeat constructor; eexists; reflexivity |].
  match goal with
  | |- ?m !! _ <> _ =>
    match m with
    | context [VStr (verification_status_of ?c)] =>
      change (m !! "verification_status")
        with (Some (VStr (verification_status_of c)))
    end
  end.
  unfold verification_status_of.
  destruct (Qgt_bool _ 0.7); [discriminate |].
  destruct (Qlt_bool _ 0.3); discriminate.
Qed.

(** C4 (amended).  Both entry points return a record from every state and
    for every path, whatever the environment does.  [analyze_video] returns
    what its [try] block returns, a record with all eight DeepfakeResult
    fields and a classification other than "error", or, exactly when the
    block raises, the error record: classification "error", confidence 0.0,
    deepfake_score 0.5, empty indicators and heatmap, the error text, and
    every DeepfakeResult field except [frames_analyzed].
    [verify_geospatial_authenticity] likewise returns what its [try] block
    returns, a record with all seven GeospatialResult fields or the "failed"
    record (only [verification_status], [error] and [processing_time]),
    neither with status "error", or, exactly when the block raises, whichever
    of the three methods it calls on [self] raised, the error record: status
    "error", confidence 0.0, the error text and a processing time, without
    [gps_metadata].  With the methods the class defines the block never
    raises. *)
Theorem entry_points_return_records env (self : GeospatialMethods)
    video_path audio_path s :
  let t0 := now env (clock_reads s) in
  let s1 := mkSys (S (clock_reads s)) (calls s) in
  (exists r s',
     analyze_video env video_path audio_path s = (Returns r, s') /\
     match analyze_video_body env video_path audio_path t0 s1 with
     | (Returns r0, s0) =>
       r = r0 /\ s' = s0 /\
       has_fields DeepfakeResult_fields r /\
       r !! "classification" <> Some (VStr "error")
     | (Raises e, s0) =>
       r = analyze_video_error e /\ s' = s0 /\
       r !! "classification" = Some (VStr "error")
     end) /\
  (forall e,
     let r := analyze_video_error e in
     r !! "classification" = Some (VStr "error") /\
     r !! "confidence" = Some (VFloat 0.0) /\
     r !! "deepfake_score" = Some (VFloat 0.5) /\
     r !! "manipulation_indicators" = Some (VDict ∅) /\
     r !! "heatmap_frames" = Some (VList []) /\
     r !! "error" = Some (VStr (exn_str e)) /\
     has_fields [ "classification"; "confidence"; "deepfake_score";
                  "manipulation_indicators"; "heatmap_frames";
                  "processing_time"; "model_version" ] r /\
     r !! "frames_analyzed" = None) /\
  (exists g s',
     verify_geospatial_authenticity_of env self video_path s = (Returns g, s') /\
     match verify_geospatial_body_of env self video_path t0 s1 with
     | (Returns g0, s0) =>
       g = g0 /\ s' = s0 /\
       (has_fields GeospatialResult_fields g \/ g = failed_record) /\
       g !! "verification_status" <> Some (VStr "error")
     | (Raises e, s0) =>
       g = verify_geospatial_error e /\ s' = s0 /\
       g !! "verification_status" = Some (VStr "error") /\
       g !! "verification_confidence" = Some (VFloat 0.0)
     end) /\
  (exists g s',
     verify_geospatial_authenticity env video_path s = (Returns g, s') /\
     verify_geospatial_body env video_path t0 s1 = (Returns g, s') /\
     ((has_fields GeospatialResult_fields g /\
       g !! "verification_status" <> Some (VStr "failed") /\
       g !! "verification_status" <> Some (VStr "error")) \/
      g = failed_record)) /\
  (has_fields ["verification_status"; "error"; "processing_time"] failed_record /\
   failed_record !! "verification_status" = Some (VStr "failed") /\
   failed_record !! "verification_confidence" = None /\
   failed_record !! "gps_metadata" = None) /\
  (forall e,
     let g := verify_geospatial_error e in
     g !! "verification_status" = Some (VStr "error") /\
     g !! "verification_confidence" = Some (VFloat 0.0) /\
     g !! "error" = Some (VStr (exn_str e)) /\
     g !! "processing_time" = Some (VFloat 0.0) /\
     g !! "gps_metadata" = None /\
     g !! "location_consistency" = None /\
     g !! "gps_manipulation" = None /\
     g !! "verification_methods" = None).
Proof.
  intros t0 s1.
  split; [| split; [| split; [| split; [| split]]]].
  - unfold analyze_video, mbind, M_bind, bind, try_except, datetime_now.
    fold s1 t0.
    destruct (analyze_video_body env video_path audio_path t0 s1)
      as [[r | e] s'] eqn:Hbody.
    + exists r, s'. split; [reflexivity |].
      split; [reflexivity |]. split; [reflexivity |].
      exact (analyze_video_body_fields _ _ _ _ _ _ _ Hbody).
    + eexists _, _. split; [reflexivity |]. repeat split.
  - intros e r. subst r.
    repeat (split; [reflexivity |]).
    split; [repeat constructor; eexists; reflexivity | reflexivity].
  - unfold verify_geospatial_authenticity_of, mbind, M_bind, bind, try_except,
      datetime_now.
    fold s1 t0.
    destruct (verify_geospatial_body_of env self video_path t0 s1)
      as [[g | e] s'] eqn:Hbody.
    + exists g, s'. split; [reflexivity |].
      split; [reflexivity |]. split; [reflexivity |].
      exact (verify_geospatial_body_of_returns _ _ _ _ _ _ _ Hbody).
    + eexists _, _. split; [reflexivity |]. repeat split.
  - destruct (verify_geospatial_returns env video_path s)
      as (g & s' & Hrun & Hg).
    exists g, s'. split; [exact Hrun |]. split; [| exact Hg].
    unfold verify_geospatial_authenticity, verify_geospatial_authenticity_of,
      mbind, M_bind, bind, try_except, datetime_now in Hrun.
    fold s1 t0 in Hrun. unfold verify_geospatial_body.
    destruct (verify_geospatial_body_of env (own_methods env) video_path t0 s1)
      as [[g0 | e] s0'] eqn:Hbody.
    + exact Hrun.
    + exfalso. cbv [mret M_ret ret] in Hrun. injection Hrun as <- _.
      destruct Hg as [(_ & _ & Hne) | Hf].
      * apply Hne. reflexivity.
      * discriminate (f_equal (fun m => m !! "verification_status") Hf).
  - split; [repeat constructor; eexists; reflexivity |]. auto.
  - intros e g. subst g. repeat split.
Qed.

(** A subclass whose manipulation detector raises. *)
Lemma entry_points_return_records_witness :
  analyze_video (demo_env (Returns unopened)) "missing.mp4" None s0
  = (Returns (analyze_video_error (ValueError
       "zero-size array to reduction operation maximum which has no identity")),
     mkSys 1 []) /\
  exists s',
    verify_geospatial_authenticity_of (demo_env (Returns (clip 3)))
      (mkMethods (extract_gps_metadata (demo_env (Returns (clip 3))))
                 (verify_location_consistency (demo_env (Returns (clip 3))))
                 (fun _ => raise (ValueError "no fix")))
      "v.mp4" s0
    = (Returns (verify_geospatial_error (ValueError "no fix")), s').
Proof.
  destruct (entry_points_return_records (demo_env (Returns unopened))
              (own_methods (demo_env (Returns unopened)))
              "missing.mp4" None s0) as ((r & s' & Hrun & Hm) & _).
  destruct (entry_points_return_records (demo_env (Returns (clip 3)))
              (mkMethods (extract_gps_metadata (demo_env (Returns (clip 3))))
                 (verify_location_consistency (demo_env (Returns (clip 3))))
                 (fun _ => raise (ValueError "no fix")))
              "v.mp4" None s0) as (_ & _ & (g & s'' & Hgrun & Hgm) & _).
  split.
  - rewrite Hrun. cbv zeta in Hm.
    change (analyze_video_body (demo_env (Returns unopened)) "missing.mp4" None
              (now (demo_env (Returns unopened)) (clock_reads s0))
              (mkSys (S (clock_reads s0)) (calls s0)))
      with (@Raises (gmap string pyval) (ValueError
              "zero-size array to reduction operation maximum which has no identity"),
            mkSys 1 []) in Hm.
    destruct Hm as (-> & -> & _). reflexivity.
  - exists s''. rewrite Hgrun. cbv zeta in Hgm.
    assert (Hb : verify_geospatial_body_of (demo_env (Returns (clip 3)))
              (mkMethods (extract_gps_metadata (demo_env (Returns (clip 3))))
                 (verify_location_consistency (demo_env (Returns (clip 3))))
                 (fun _ => raise (ValueError "no fix")))
              "v.mp4"
              (now (demo_env (Returns (clip 3))) (clock_reads s0))
              (mkSys (S (clock_reads s0)) (calls s0))
            = (Raises (ValueError "no fix"),
               mkSys 2 ["extract_gps_metadata"; "verify_location_consistency"]))
      by reflexivity.
    rewrite Hb in Hgm. destruct Hgm as (-> & _). reflexivity.
Defined.

(** C4 as stated fails: the record [analyze_video] returns for a file that
    cannot be opened has no [frames_analyzed], and the record
    [verify_geospatial_authenticity] returns when no GPS metadata is
    extracted has neither [verification_confidence] nor [gps_metadata]. *)
Lemma returned_records_not_fully_populated :
  (exists r s',
     analyze_video (demo_env (Returns unopened)) "missing.mp4" None s0
       = (Returns r, s') /\
     r !! "frames_analyzed" = None /\
     ~ has_fields DeepfakeResult_fields r) /\
  (exists g s',
     verify_geospatial_authenticity (demo_env (Raises (Cv2Error "cv2.error")))
       "v.mp4" s0 = (Returns g, s') /\
     g !! "verification_confidence" = None /\
     g !! "gps_metadata" = None /\
     ~ has_fields GeospatialResult_fields g).
Proof.
  split.
  - eexists _, _. split; [reflexivity |]. split; [reflexivity |].
    intros H. unfold has_fields, DeepfakeResult_fields in H.
    rewrite !Forall_cons in H.
    destruct H as (_ & _ & _ & _ & _ & _ & _ & [v Hv] & _). discriminate.
  - eexists _, _. split; [reflexivity |].
    split; [reflexivity |]. split; [reflexivity |].
    intros H. unfold has_fields, GeospatialResult_fields in H.
    rewrite !Forall_cons in H.
    destruct H as (_ & [v Hv] & _). discriminate.
Qed.

(** * Further properties of the engines *)

(** ** Sums, means and variances *)

Lemma foldl_Qplus_acc (a : Q) (l : list Q) :
  foldl Qplus a l == a + py_sum l.
Proof.
  unfold py_sum. revert a.
  induction l as [| x l IH]; intros a; cbn [foldl].
  - ring.
  - rewrite IH, (IH (0 + x)). ring.
Qed.

Lemma py_sum_cons (x : Q) (l : list Q) : py_sum (x :: l) == x + py_sum l.
Proof.
  unfold py_sum at 1. cbn [foldl]. rewrite foldl_Qplus_acc. ring.
Qed.

Lemma py_sum_bounds (lo hi : Q) (l : list Q) :
  Forall (fun x => lo <= x <= hi) l ->
  Q_of_nat (length l) * lo <= py_sum l <= Q_of_nat (length l) * hi.
Proof.
  induction 1 as [| x l [Hlo Hhi] _ IH].
  - change (Q_of_nat (length (@nil Q))) with 0. change (py_sum []) with 0. lra.
  - rewrite py_sum_cons. cbn [length].
    unfold Q_of_nat in *. rewrite Nat2Z.inj_succ, <- Z.add_1_r, inject_Z_plus.
    change (inject_Z 1) with 1. lra.
Qed.

Lemma Q_of_nat_pos (n : nat) : (0 < n)%nat -> 0 < Q_of_nat n.
Proof.
  intros H. unfold Q_of_nat. change 0 with (inject_Z 0).
  rewrite <- Zlt_Qlt. lia.
Qed.

Lemma np_mean_bounds (lo hi : Q) (l : list Q) :
  l <> [] ->
  Forall (fun x => lo <= x <= hi) l ->
  lo <= np_mean l <= hi.
Proof.
  intros Hne Hall. unfold np_mean.
  assert (Hn : 0 < Q_of_nat (length l)).
  { apply Q_of_nat_pos. destruct l; [contradiction | cbn; lia]. }
  destruct (py_sum_bounds lo hi l Hall) as [H1 H2]. split.
  - apply Qle_shift_div_l; [exact Hn |]. lra.
  - apply Qle_shift_div_r; [exact Hn |]. lra.
Qed.

Lemma np_mean_nonneg (l : list Q) : Forall (fun x => 0 <= x) l -> 0 <= np_mean l.
Proof.
  intros Hall. destruct l as [| x l].
  - vm_compute. discriminate.
  - assert (Hn : 0 < Q_of_nat (length (x :: l)))
      by (apply Q_of_nat_pos; cbn; lia).
    unfold np_mean. apply Qle_shift_div_l; [exact Hn |].
    assert (Hs : 0 <= py_sum (x :: l)).
    { clear Hn. induction Hall as [| y k Hy _ IH].
      - vm_compute. discriminate.
      - rewrite py_sum_cons. lra. }
    lra.
Qed.

Lemma np_var_nonneg (l : list Q) : 0 <= np_var l.
Proof.
  unfold np_var. apply np_mean_nonneg.
  apply Forall_fmap, Forall_forall. intros x _. cbn.
  generalize (x - np_mean l). intros y. nra.
Qed.

Lemma py_sum_const (c : Q) (l : list Q) :
  Forall (fun x => x == c) l -> py_sum l == Q_of_nat (length l) * c.
Proof.
  intros Hall.
  assert (Hb : Forall (fun x => c <= x <= c) l).
  { eapply Forall_impl; [exact Hall |]. cbn. intros x Hx. rewrite Hx. lra. }
  destruct (py_sum_bounds c c l Hb). lra.
Qed.

Lemma np_mean_const (c : Q) (l : list Q) :
  l <> [] -> Forall (fun x => x == c) l -> np_mean l == c.
Proof.
  intros Hne Hall.
  assert (Hb : Forall (fun x => c <= x <= c) l).
  { eapply Forall_impl; [exact Hall |]. cbn. intros x Hx. rewrite Hx. lra. }
  destruct (np_mean_bounds c c l Hne Hb). lra.
Qed.

Lemma np_var_const (c : Q) (l : list Q) :
  Forall (fun x => x == c) l -> np_var l == 0.
Proof.
  intros Hall. destruct l as [| x l]; [vm_compute; reflexivity |].
  unfold np_var. apply np_mean_const; [discriminate |].
  apply Forall_fmap. eapply Forall_impl; [exact Hall |]. cbn.
  intros y Hy.
  rewrite (np_mean_const c (x :: l)) by (discriminate || exact Hall).
  rewrite Hy. ring.
Qed.

Lemma consistency_ratio (v k : Q) :
  0 <= v -> 0 < k ->
  0 < 1.0 / (1.0 + v / k) <= 1 /\
  (1.0 / (1.0 + v / k) == 1 <-> v == 0).
Proof.
  intros Hv Hk.
  assert (Hvk : 0 <= v / k) by (apply Qle_shift_div_l; lra).
  assert (Hd : 0 < 1.0 + v / k) by lra.
  split; [split |].
  - apply Qlt_shift_div_l; lra.
  - apply Qle_shift_div_r; lra.
  - split; intros H.
    + assert (H1 : 1.0 == 1 * (1.0 + v / k)).
      { rewrite <- H. field. lra. }
      assert (H2 : v / k == 0) by lra.
      assert (H3 : v == (v / k) * k) by (field; lra).
      rewrite H3, H2. ring.
    + assert (H0 : v / k == 0) by (rewrite H; unfold Qdiv; ring).
      rewrite H0. vm_compute. reflexivity.
Qed.

Lemma consistency_plain (v : Q) :
  0 <= v ->
  0 < 1.0 / (1.0 + v) <= 1 /\ (1.0 / (1.0 + v) == 1 <-> v == 0).
Proof.
  intros Hv.
  assert (Hd : 0 < 1.0 + v) by lra.
  split; [split |].
  - apply Qlt_shift_div_l; lra.
  - apply Qle_shift_div_r; lra.
  - split; intros H.
    + assert (H1 : 1.0 == 1 * (1.0 + v)) by (rewrite <- H; field; lra).
      lra.
    + rewrite H. vm_compute. reflexivity.
Qed.

Lemma guarded_var_nonneg (b : bool) (l : list Q) :
  0 <= (if b then np_var l else 0).
Proof. destruct b; [apply np_var_nonneg | discriminate]. Qed.

(** ** The three consistency analyzers *)

Lemma consistency_analyzers_return env (frames : list Frame) s :
  exists fa la ta,
    analyze_face_consistency env frames s = (Returns fa, s) /\
    analyze_lighting_consistency env frames s = (Returns la, s) /\
    analyze_temporal_consistency env frames s = (Returns ta, s).
Proof.
  unfold analyze_face_consistency, analyze_lighting_consistency,
    analyze_temporal_consistency.
  destruct (length frames <? 2)%nat; eexists _, _, _; repeat split.
Qed.

(** X1.  For every frame sequence the face, lighting and temporal analyzers
    return a report (leaving the state alone) whose variance is non-negative
    and whose consistency score lies in [0,1]; on two frames or more the score
    is strictly positive, and it is 1 when the variance is 0. *)
Theorem consistency_reports_in_range env (frames : list Frame) s :
  exists fa la ta c1 v1 c2 v2 c3 v3,
    analyze_face_consistency env frames s = (Returns fa, s) /\
    fa !! "consistency_score" = Some c1 /\
    fa !! "face_count_variance" = Some v1 /\
    analyze_lighting_consistency env frames s = (Returns la, s) /\
    la !! "shadow_consistency" = Some c2 /\
    la !! "lighting_variance" = Some v2 /\
    analyze_temporal_consistency env frames s = (Returns ta, s) /\
    ta !! "motion_consistency" = Some c3 /\
    ta !! "temporal_variance" = Some v3 /\
    (0 <= v1 /\ 0 <= c1 <= 1) /\
    (0 <= v2 /\ 0 <= c2 <= 1) /\
    (0 <= v3 /\ 0 <= c3 <= 1) /\
    ((2 <= length frames)%nat ->
     (0 < c1 /\ (v1 == 0 -> c1 == 1)) /\
     (0 < c2 /\ (v2 == 0 -> c2 == 1)) /\
     (0 < c3 /\ (v3 == 0 -> c3 == 1))).
Proof.
  unfold analyze_face_consistency, analyze_lighting_consistency,
    analyze_temporal_consistency.
  destruct (Nat.ltb_spec (length frames) 2) as [Hlt | Hge].
  - eexists _, _, _, _, _, _, _, _, _.
    do 9 (split; [reflexivity |]).
    repeat split; try discriminate; lia.
  - set (v1 := if (1 <? length ((fun frame => Q_of_nat (face_count env frame))
                                  <$> frames))%nat
               then np_var ((fun frame => Q_of_nat (face_count env frame))
                              <$> frames) else 0).
    set (v2 := if (1 <? length (mean_lightness env <$> frames))%nat
               then np_var (mean_lightness env <$> frames) else 0).
    set (v3 := if (1 <? length (consecutive_motion env frames))%nat
               then np_var (consecutive_motion env frames) else 0).
    assert (H1 : 0 <= v1) by apply guarded_var_nonneg.
    assert (H2 : 0 <= v2) by apply guarded_var_nonneg.
    assert (H3 : 0 <= v3) by apply guarded_var_nonneg.
    destruct (consistency_plain v1 H1) as [[? ?] ?].
    destruct (consistency_ratio v2 100.0 H2 ltac:(reflexivity)) as [[? ?] ?].
    destruct (consistency_ratio v3 100.0 H3 ltac:(reflexivity)) as [[? ?] ?].
    eexists _, _, _, _, _, _, _, _, _.
    do 9 (split; [reflexivity |]).
    repeat split; auto; try lra; tauto.
Qed.

Lemma consistency_reports_in_range_witness :
  exists fa la ta,
    analyze_face_consistency (demo_env (Returns (clip 3)))
      [a_frame; a_frame; a_frame] s0 = (Returns fa, s0) /\
    analyze_lighting_consistency (demo_env (Returns (clip 3)))
      [a_frame; a_frame; a_frame] s0 = (Returns la, s0) /\
    analyze_temporal_consistency (demo_env (Returns (clip 3)))
      [a_frame; a_frame; a_frame] s0 = (Returns ta, s0) /\
    (exists c1, fa !! "consistency_score" = Some c1 /\ 0 < c1) /\
    (exists c2, la !! "shadow_consistency" = Some c2 /\ 0 < c2) /\
    (exists c3, ta !! "motion_consistency" = Some c3 /\ 0 < c3).
Proof.
  destruct (consistency_reports_in_range (demo_env (Returns (clip 3)))
              [a_frame; a_frame; a_frame] s0)
    as (fa & la & ta & c1 & v1 & c2 & v2 & c3 & v3 & Hf & Hc1 & _ & Hl & Hc2
        & _ & Ht & Hc3 & _ & _ & _ & _ & Hpos).
  destruct Hpos as ((? & _) & (? & _) & (? & _)); [cbn; lia |].
  exists fa, la, ta.
  split; [exact Hf |]. split; [exact Hl |]. split; [exact Ht |].
  split; [exists c1; auto |]. split; [exists c2; auto | exists c3; auto].
Defined.

(** ** The compression-artifact analyzer *)

Lemma Qmax_b_spec (a b : Q) :
  a <= Qmax_b a b /\ b <= Qmax_b a b /\ (Qmax_b a b = a \/ Qmax_b a b = b).
Proof.
  unfold Qmax_b. destruct (Qle_bool a b) eqn:E.
  - apply Qle_bool_iff in E. repeat split; auto; lra.
  - assert (b <= a).
    { destruct (Qlt_le_dec b a) as [H | H]; [lra |].
      apply Qle_bool_iff in H. congruence. }
    repeat split; auto; lra.
Qed.

Lemma foldl_Qmax_b_spec (x : Q) (l : list Q) :
  (forall y, y ∈ x :: l -> y <= foldl Qmax_b x l) /\
  foldl Qmax_b x l ∈ x :: l.
Proof.
  revert x. induction l as [| z l IH]; intros x; cbn [foldl].
  - split.
    + intros y Hy. apply list_elem_of_singleton in Hy as ->. lra.
    + apply list_elem_of_singleton. reflexivity.
  - destruct (IH (Qmax_b x z)) as [Hub Hin].
    destruct (Qmax_b_spec x z) as (Hx & Hz & Hor).
    assert (Hm : Qmax_b x z <= foldl Qmax_b (Qmax_b x z) l)
      by (apply Hub; left).
    split.
    + intros y Hy. apply elem_of_cons in Hy as [-> | Hy]; [lra |].
      apply elem_of_cons in Hy as [-> | Hy]; [lra |].
      apply Hub. right. exact Hy.
    + apply elem_of_cons in Hin as [Hin | Hin].
      * rewrite Hin. destruct Hor as [-> | ->]; [left | right; left].
      * right. right. exact Hin.
Qed.

(** X2.  On a non-empty frame sequence whose per-frame artifact scores lie in
    [lo, hi], the compression analyzer returns a report whose maximum is the
    score of one of the frames, bounds the score of every frame and lies in
    [lo, hi], whose mean is non-negative when the scores are, and whose
    variance is non-negative; on a single frame the variance is 0.0 and mean
    and maximum are the score of that frame. *)
Theorem compression_report_bounds env f (fs : list Frame) s (lo hi : Q) :
  (forall g, g ∈ f :: fs -> lo <= artifact_score env g <= hi) ->
  exists r mean var mx,
    analyze_compression_artifacts env (f :: fs) s = (Returns r, s) /\
    r !! "mean_artifact_score" = Some mean /\
    r !! "artifact_variance" = Some var /\
    r !! "max_artifact_score" = Some mx /\
    lo <= mx <= hi /\
    (0 <= lo -> 0 <= mean) /\
    0 <= var /\
    (exists g, g ∈ f :: fs /\ mx = artifact_score env g) /\
    (forall g, g ∈ f :: fs -> artifact_score env g <= mx) /\
    (fs = [] -> var = 0.0 /\ mean == artifact_score env f /\
                mx = artifact_score env f).
Proof.
  intros Hrange.
  set (scores := artifact_score env <$> f :: fs).
  assert (Hne : scores <> []) by discriminate.
  assert (Hall : Forall (fun x => lo <= x <= hi) scores).
  { apply Forall_fmap, Forall_forall. exact Hrange. }
  destruct (foldl_Qmax_b_spec (artifact_score env f) (artifact_score env <$> fs))
    as [Hub Hin].
  set (mx := foldl Qmax_b (artifact_score env f) (artifact_score env <$> fs)) in *.
  assert (Hmx : forall g, g ∈ f :: fs -> artifact_score env g <= mx).
  { intros g Hg. apply Hub.
    change (artifact_score env g ∈ artifact_score env <$> f :: fs).
    apply list_elem_of_fmap. eauto. }
  assert (Hatt : exists g, g ∈ f :: fs /\ mx = artifact_score env g).
  { change (mx ∈ artifact_score env <$> f :: fs) in Hin.
    apply list_elem_of_fmap in Hin as (g & Hg1 & Hg2). eauto. }
  assert (Hmxr : lo <= mx <= hi).
  { destruct Hatt as (g & Hg & ->). apply Hrange, Hg. }
  assert (Hmean : lo <= np_mean scores <= mx).
  { apply np_mean_bounds; [exact Hne |].
    apply Forall_fmap, Forall_forall. intros g Hg. cbn.
    split; [apply Hrange, Hg | apply Hmx, Hg]. }
  exists {[ "mean_artifact_score" := np_mean scores;
            "artifact_variance" :=
              (if (1 <? length scores)%nat then np_var scores else 0.0);
            "max_artifact_score" := mx ]}.
  eexists _, _, _.
  split; [reflexivity |]. do 3 (split; [reflexivity |]).
  split; [exact Hmxr |].
  split; [intros H0; lra |].
  split; [destruct (1 <? length scores)%nat;
          [apply np_var_nonneg | discriminate] |].
  split; [exact Hatt |]. split; [exact Hmx |].
  intros ->. split; [reflexivity |]. split; [| reflexivity].
  subst scores. apply np_mean_const; [discriminate |].
  cbn [fmap list_fmap]. constructor; [reflexivity | constructor].
Qed.

Lemma compression_report_bounds_witness :
  exists r mean mx,
    analyze_compression_artifacts (demo_env (Returns (clip 3)))
      [a_frame; a_frame] s0 = (Returns r, s0) /\
    r !! "mean_artifact_score" = Some mean /\
    r !! "max_artifact_score" = Some mx /\
    0 <= mean /\ 0.1 <= mx <= 0.1.
Proof.
  destruct (compression_report_bounds (demo_env (Returns (clip 3))) a_frame
              [a_frame] s0 0.1 0.1)
    as (r & mean & var & mx & Hr & Hmean & _ & Hmx & Hb & Hpos & _).
  - intros g _. cbn. split; discriminate.
  - exists r, mean, mx. repeat split; auto; try apply Hb.
    apply Hpos. discriminate.
Defined.

(** ** The heatmap placeholder *)

Lemma heatmap_indices (n : nat) :
  filter (fun i => (i `mod` 3 = 0)%nat) (seq 0 (Nat.min 10 n))
  = take ((Nat.min 10 n + 2) / 3) [0; 3; 6; 9]%nat.
Proof. do 10 (destruct n as [| n]; [reflexivity |]). reflexivity. Qed.

(** X3.  [_generate_heatmap_frames] ignores the analysis results: whatever
    they are, it returns the multiples of 3 below [min(10, len(frames))] as
    floats, that is the first [ceil(min(10, len) / 3)] of 0, 3, 6, 9.  So the
    list has at most four entries, each the index of a frame of the input,
    it is empty exactly for the empty sequence, and otherwise starts with
    frame 0. *)
Theorem heatmap_frames_placeholder (frames : list Frame)
    (ar ar' : gmap string (gmap string Q)) :
  let n := length frames in
  let h := _generate_heatmap_frames frames ar in
  h = _generate_heatmap_frames frames ar' /\
  h = Q_of_nat <$> take ((Nat.min 10 n + 2) / 3) [0; 3; 6; 9]%nat /\
  (length h <= 4)%nat /\
  (forall q, q ∈ h <->
     exists i : nat, q = Q_of_nat i /\ (i < n)%nat /\ (i < 10)%nat /\
                     (i `mod` 3 = 0)%nat) /\
  (h = [] <-> frames = []) /\
  (frames <> [] -> head h = Some (Q_of_nat 0)).
Proof.
  intros n h.
  assert (Hh : h = Q_of_nat <$> filter (fun i => (i `mod` 3 = 0)%nat)
                                       (seq 0 (Nat.min 10 n))).
  { subst h n. unfold _generate_heatmap_frames.
    destruct frames as [| f fs]; reflexivity. }
  split; [reflexivity |].
  split; [rewrite Hh, heatmap_indices; reflexivity |].
  split.
  { rewrite Hh, heatmap_indices, length_fmap, length_take. cbn. lia. }
  split.
  { intros q. rewrite Hh, list_elem_of_fmap. split.
    - intros (i & -> & Hi). apply list_elem_of_filter in Hi as [Hmod Hi].
      apply elem_of_seq in Hi. exists i. repeat split; auto; lia.
    - intros (i & -> & Hn & H10 & Hmod). exists i. split; [reflexivity |].
      apply list_elem_of_filter. split; [exact Hmod |].
      apply elem_of_seq. lia. }
  split.
  { rewrite Hh, heatmap_indices. subst n.
    destruct frames as [| f fs]; [split; reflexivity |].
    split; [| discriminate].
    cbn [length]. intros H. exfalso.
    apply fmap_nil_inv in H.
    assert (Hl : length (take ((Nat.min 10 (S (length fs)) + 2) / 3)
                              [0; 3; 6; 9]%nat) = 0%nat) by (rewrite H; reflexivity).
    rewrite length_take in Hl. cbn [length] in Hl.
    assert (1 <= (Nat.min 10 (S (length fs)) + 2) / 3)%nat.
    { apply Nat.div_le_lower_bound; lia. }
    lia. }
  intros Hne. rewrite Hh, heatmap_indices. subst n.
  destruct frames as [| f fs]; [contradiction |].
  cbn [length].
  assert (Hk : (1 <= (Nat.min 10 (S (length fs)) + 2) / 3)%nat).
  { apply Nat.div_le_lower_bound; lia. }
  destruct ((Nat.min 10 (S (length fs)) + 2) / 3)%nat as [| k]; [lia |].
  reflexivity.
Qed.

Lemma heatmap_frames_placeholder_witness :
  head (_generate_heatmap_frames [a_frame; a_frame] ∅) = Some (Q_of_nat 0).
Proof.
  destruct (heatmap_frames_placeholder [a_frame; a_frame] ∅ ∅)
    as (_ & _ & _ & _ & _ & H).
  apply H. discriminate.
Defined.

Example heatmap_frames_seven :
  _generate_heatmap_frames (replicate 7 a_frame) ∅
  = Q_of_nat <$> [0; 3; 6]%nat.
Proof. reflexivity. Qed.

(** ** [analyze_video]: which runs succeed, and what a successful record holds *)

Lemma extract_loop_length mf T iv n reads fc (frames : list Frame) :
  (Z.of_nat (length frames) <= Z.max 0 mf)%Z ->
  (Z.of_nat (length (extract_loop mf T iv n reads fc frames)) <= Z.max 0 mf)%Z.
Proof.
  revert reads fc frames.
  induction n as [| n IH]; intros reads fc frames Hlen; cbn [extract_loop];
    [exact Hlen |].
  destruct (Z.ltb_spec (Z.of_nat (length frames)) mf) as [Hlt | Hge];
    cbn [andb]; [| exact Hlen].
  destruct (fc <? T)%Z; [| exact Hlen].
  destruct reads as [| r reads]; cbn [cap_read]; [apply IH; exact Hlen |].
  destruct r as [frame |]; [| apply IH; exact Hlen].
  destruct (fc `mod` iv =? 0)%Z; apply IH; [| exact Hlen].
  rewrite length_app. cbn. lia.
Qed.

Lemma extract_frames_state env video_path max_frames s s' :
  extract_frames env video_path max_frames s
  = ((extract_frames env video_path max_frames s').1, s).
Proof.
  unfold extract_frames, mbind, M_bind, bind, lift, sample_frames.
  destruct (VideoCapture env video_path) as [cap | e]; [| reflexivity].
  destruct (max_frames =? 0)%Z; reflexivity.
Qed.

Lemma extract_frames_length env video_path max_frames s frames :
  (extract_frames env video_path max_frames s).1 = Returns frames ->
  (Z.of_nat (length frames) <= Z.max 0 max_frames)%Z.
Proof.
  unfold extract_frames, mbind, M_bind, bind, lift, sample_frames.
  destruct (VideoCapture env video_path) as [cap | e]; [| discriminate].
  destruct (max_frames =? 0)%Z; [discriminate |].
  cbn. intros H. injection H as <-. apply extract_loop_length. cbn. lia.
Qed.

(** The audio report [analyze_video] uses for a given [audio_path]. *)
Lemma audio_analysis_cases env (audio_path : option string) s :
  let aa := match audio_path with
            | Some p =>
              if negb (String.eqb p "") && path_exists env p
              then audio_stub_report else ∅
            | None => ∅
            end in
  match audio_path with
  | Some p =>
    if negb (String.eqb p "") && path_exists env p
    then detect_audio_manipulation p
    else mret ∅
  | None => mret ∅
  end s = (Returns aa, s).
Proof.
  destruct audio_path as [p |]; [| reflexivity].
  destruct (negb (String.eqb p "") && path_exists env p); reflexivity.
Qed.

Lemma analyze_video_sampled env video_path audio_path s f fs :
  (extract_frames env video_path 100 s).1 = Returns (f :: fs) ->
  let frames := f :: fs in
  let aa := match audio_path with
            | Some p =>
              if negb (String.eqb p "") && path_exists env p
              then audio_stub_report else ∅
            | None => ∅
            end in
  exists fa la ca ta,
    analyze_face_consistency env frames s = (Returns fa, s) /\
    analyze_lighting_consistency env frames s = (Returns la, s) /\
    analyze_compression_artifacts env frames s = (Returns ca, s) /\
    analyze_temporal_consistency env frames s = (Returns ta, s) /\
    let ar : gmap string (gmap string Q) :=
      {[ "face_consistency" := fa;
         "lighting_consistency" := la;
         "compression_artifacts" := ca;
         "temporal_consistency" := ta;
         "audio_manipulation" := aa ]} in
    let x := calculate_deepfake_score ar in
    analyze_video env video_path audio_path s
    = (Returns
         {[ "classification" := VStr (classification_of x);
            "confidence" := VFloat (confidence_of (classification_of x) x);
            "deepfake_score" := VFloat x;
            "manipulation_indicators" := VDict (VReport <$> ar);
            "heatmap_frames" :=
              VList (VFloat <$> _generate_heatmap_frames frames ar);
            "processing_time" :=
              VFloat (now env (1 + clock_reads s) - now env (clock_reads s));
            "model_version" := VStr "1.0.0";
            "frames_analyzed" := VInt (Z.of_nat (length frames)) ]},
       mkSys (2 + clock_reads s) (calls s)).
Proof.
  intros Hframes frames aa. subst frames.
  destruct (consistency_analyzers_return env (f :: fs) s)
    as (fa & la & ta & Hfa & Hla & Hta).
  destruct (analyze_compression_artifacts_nonempty env f fs s)
    as (ca & Hca & _).
  exists fa, la, ca, ta.
  split; [exact Hfa |]. split; [exact Hla |]. split; [exact Hca |].
  split; [exact Hta |].
  intros ar x.
  set (s1 := mkSys (S (clock_reads s)) (calls s)).
  assert (Hex : extract_frames env video_path 100 s1 = (Returns (f :: fs), s1)).
  { rewrite (extract_frames_state env video_path 100 s1 s), Hframes.
    reflexivity. }
  destruct (consistency_analyzers_return env (f :: fs) s1)
    as (fa' & la' & ta' & Hfa' & Hla' & Hta').
  destruct (analyze_compression_artifacts_nonempty env f fs s1)
    as (ca' & Hca' & _).
  assert (fa' = fa).
  { unfold analyze_face_consistency in Hfa, Hfa'.
    destruct (length (f :: fs) <? 2)%nat; cbv [mret M_ret ret] in Hfa, Hfa';
      congruence. }
  assert (la' = la).
  { unfold analyze_lighting_consistency in Hla, Hla'.
    destruct (length (f :: fs) <? 2)%nat; cbv [mret M_ret ret] in Hla, Hla';
      congruence. }
  assert (ta' = ta).
  { unfold analyze_temporal_consistency in Hta, Hta'.
    destruct (length (f :: fs) <? 2)%nat; cbv [mret M_ret ret] in Hta, Hta';
      congruence. }
  assert (ca' = ca).
  { unfold analyze_compression_artifacts, mbind, M_bind, bind in Hca, Hca'.
    cbn [fmap list_fmap np_max] in Hca, Hca'.
    cbv [mret M_ret ret] in Hca, Hca'. congruence. }
  subst fa' la' ta' ca'.
  unfold analyze_video, analyze_video_body, try_except, mbind, M_bind, bind,
    datetime_now.
  fold s1. rewrite Hex. rewrite Hfa', Hla', Hca', Hta'.
  rewrite (audio_analysis_cases env audio_path s1). fold aa.
  reflexivity.
Qed.

(** X4.  [analyze_video] never enters a geospatial method and returns
    according to what [extract_frames] yields: if OpenCV raises, the error
    record with that exception's text; if no frame is sampled, the error
    record with numpy's empty-reduction message; in both cases after a single
    clock reading.  Otherwise the record is not an error record, the clock is
    read twice, [processing_time] is the difference of the two readings and
    [frames_analyzed] is the number of sampled frames, between 1 and 100. *)
Theorem analyze_video_outcomes env video_path audio_path s :
  exists r s',
    analyze_video env video_path audio_path s = (Returns r, s') /\
    calls s' = calls s /\
    match (extract_frames env video_path 100 s).1 with
    | Raises e =>
      r = analyze_video_error e /\ clock_reads s' = S (clock_reads s)
    | Returns [] =>
      r = analyze_video_error (ValueError
            "zero-size array to reduction operation maximum which has no identity")
      /\ clock_reads s' = S (clock_reads s)
    | Returns (f :: fs) =>
      r !! "classification" <> Some (VStr "error") /\
      clock_reads s' = S (S (clock_reads s)) /\
      r !! "processing_time"
      = Some (VFloat (now env (S (clock_reads s)) - now env (clock_reads s))) /\
      r !! "frames_analyzed" = Some (VInt (Z.of_nat (length (f :: fs)))) /\
      (1 <= length (f :: fs) <= 100)%nat
    end.
Proof.
  set (s1 := mkSys (S (clock_reads s)) (calls s)).
  pose proof (extract_frames_state env video_path 100 s1 s) as Hst.
  destruct ((extract_frames env video_path 100 s).1) as [[| f fs] | e] eqn:Hex.
  - eexists _, _. split.
    { unfold analyze_video, analyze_video_body, try_except, mbind, M_bind,
        bind, datetime_now.
      fold s1. rewrite Hst. reflexivity. }
    repeat split.
  - destruct (analyze_video_sampled env video_path audio_path s f fs Hex)
      as (fa & la & ca & ta & _ & _ & _ & _ & Hrun).
    cbv zeta in Hrun. rewrite Hrun.
    eexists _, _. split; [reflexivity |]. split; [reflexivity |].
    split.
    { match goal with
      | |- ?m !! _ <> _ =>
        assert (Hc : exists x, m !! "classification"
                               = Some (VStr (classification_of x)))
          by (eexists; reflexivity)
      end.
      destruct Hc as (x & ->). intros E. injection E as E.
      exact (classification_of_not_error x E). }
    split; [reflexivity |]. split; [reflexivity |]. split; [reflexivity |].
    apply extract_frames_length in Hex. cbn [length] in *. lia.
  - eexists _, _. split.
    { unfold analyze_video, analyze_video_body, try_except, mbind, M_bind,
        bind, datetime_now.
      fold s1. rewrite Hst. reflexivity. }
    repeat split.
Qed.

(** X5.  An audio path that is empty or names no existing file changes
    nothing: the run is the run without audio, record and final state. *)
Theorem analyze_video_missing_audio env video_path p s :
  p = "" \/ path_exists env p = false ->
  analyze_video env video_path (Some p) s = analyze_video env video_path None s.
Proof.
  intros H.
  assert (Hc : negb (String.eqb p "") && path_exists env p = false).
  { destruct H as [-> | ->]; [reflexivity | apply andb_false_r]. }
  unfold analyze_video, analyze_video_body. rewrite Hc. reflexivity.
Qed.

Lemma analyze_video_missing_audio_witness :
  analyze_video (demo_env (Returns (clip 3))) "v.mp4" (Some "") s0
  = analyze_video (demo_env (Returns (clip 3))) "v.mp4" None s0.
Proof.
  apply analyze_video_missing_audio. left. reflexivity.
Defined.

(** ** Two shapes of video, end to end *)

Lemma score_of_reports (fa la ca ta aa : gmap string Q) (c1 c2 m c3 : Q) :
  fa !! "consistency_score" = Some c1 ->
  la !! "shadow_consistency" = Some c2 ->
  ca !! "mean_artifact_score" = Some m ->
  ta !! "motion_consistency" = Some c3 ->
  calculate_deepfake_score
    {[ "face_consistency" := fa;
       "lighting_consistency" := la;
       "compression_artifacts" := ca;
       "temporal_consistency" := ta;
       "audio_manipulation" := aa ]}
  == 1 - (0.3 * c1 + 0.2 * c2 + 0.25 * (1 - m) + 0.15 * c3
          + 0.1 * (1 - default 0.5 (aa !! "audio_manipulation_score"))).
Proof.
  intros H1 H2 H3 H4. rewrite calculate_deepfake_score_reports.
  rewrite H1, H2, H3, H4. cbn [default from_option]. unfold id. reflexivity.
Qed.

Lemma classification_of_Qeq (x y : Q) :
  x == y -> classification_of x = classification_of y.
Proof.
  intros E. unfold classification_of, Qgt_bool, Qlt_bool.
  assert (H1 : Qle_bool x 0.7 = Qle_bool y 0.7).
  { apply eq_true_iff_eq. rewrite !Qle_bool_iff, E. reflexivity. }
  assert (H2 : Qle_bool 0.3 x = Qle_bool 0.3 y).
  { apply eq_true_iff_eq. rewrite !Qle_bool_iff, E. reflexivity. }
  rewrite H1, H2. reflexivity.
Qed.

(** A single sampled frame without rounding: the score is 0.70 + 0.25 a. *)
Lemma analyze_video_single_frame_exact env video_path s f :
  (extract_frames env video_path 100 s).1 = Returns [f] ->
  0 <= artifact_score env f ->
  exists r s' x,
    analyze_video env video_path None s = (Returns r, s') /\
    r !! "deepfake_score" = Some (VFloat x) /\
    x == 0.70 + 0.25 * artifact_score env f /\
    r !! "classification" = Some (VStr (classification_of x)) /\
    classification_of x <> "real" /\
    (classification_of x = "deepfake" <-> 0 < artifact_score env f) /\
    (classification_of x = "uncertain" <-> artifact_score env f == 0).
Proof.
  intros Hex Ha.
  destruct (analyze_video_sampled env video_path None s f [] Hex)
    as (fa & la & ca & ta & Hfa & Hla & Hca & Hta & Hrun).
  cbv zeta in Hrun. rewrite Hrun.
  injection Hfa as <-. injection Hla as <-. injection Hta as <-.
  unfold analyze_compression_artifacts, mbind, M_bind, bind in Hca.
  cbn [fmap list_fmap np_max] in Hca. cbv [mret M_ret ret] in Hca.
  injection Hca as <-.
  eexists _, _, _. split; [reflexivity |]. split; [reflexivity |].
  match goal with
  | |- ?x == _ /\ _ => set (score := x)
  end.
  assert (Hx : score == 0.70 + 0.25 * artifact_score env f).
  { subst score.
    rewrite (score_of_reports _ _ _ _ _ 0.0 0.0
               (np_mean [artifact_score env f]) 0.0)
      by reflexivity.
    rewrite lookup_empty. cbn [default from_option]. unfold id.
    rewrite (np_mean_const (artifact_score env f))
      by (discriminate || (constructor; [reflexivity | constructor])).
    lra. }
  pose proof (classification_of_spec score) as (Hd & Hr & Hu).
  split; [exact Hx |]. split; [reflexivity |].
  split; [rewrite Hr; lra |].
  split; [rewrite Hd; split; intros; lra |].
  rewrite Hu. split; intros; lra.
Qed.

Lemma Qabs_close (x y tol : Q) : x == y -> 0 <= tol -> Qabs (x - y) <= tol.
Proof. intros E Ht. apply Qabs_Qle_condition. split; lra. Qed.

(** X6.  A video from which exactly one frame is sampled, analysed without
    audio: the three consistency signals are 0, so with an artifact score
    a >= 0 the deepfake score is at least 0.7 and the video is never
    classified "real"; it is "uncertain" for a = 0 and "deepfake" as soon as
    a >= 0.001.  For a <= 1 the score is 0.70 + 0.25 a up to rounding. *)
Theorem analyze_video_single_frame env video_path s f :
  (extract_frames env video_path 100 s).1 = Returns [f] ->
  0 <= artifact_score env f ->
  exists r s' x,
    analyze_video env video_path None s = (Returns r, s') /\
    r !! "deepfake_score" = Some (VFloat x) /\
    r !! "classification" = Some (VStr (classification_of x)) /\
    0.7 <= x /\
    classification_of x <> "real" /\
    (artifact_score env f == 0 -> classification_of x = "uncertain") /\
    (0.001 <= artifact_score env f -> classification_of x = "deepfake") /\
    (artifact_score env f <= 1 ->
     Qabs (x - (0.70 + 0.25 * artifact_score env f)) <= 1 # 1000000000).
Proof.
  intros Hex Ha.
  destruct (analyze_video_single_frame_exact env video_path s f Hex Ha)
    as (r & s' & x & Hrun & Hx & Hval & Hc & Hreal & Hd & Hu).
  exists r, s', x.
  split; [exact Hrun |]. split; [exact Hx |]. split; [exact Hc |].
  split; [lra |]. split; [exact Hreal |].
  split; [intros H; apply Hu; exact H |].
  split; [intros H; apply Hd; lra |].
  intros _. apply Qabs_close; [exact Hval | discriminate].
Qed.

Lemma analyze_video_single_frame_witness :
  exists r s',
    analyze_video (demo_env (Returns (clip 1))) "v.mp4" None s0 = (Returns r, s') /\
    r !! "classification" = Some (VStr "deepfake").
Proof.
  destruct (analyze_video_single_frame (demo_env (Returns (clip 1))) "v.mp4"
              s0 a_frame)
    as (r & s' & x & Hrun & _ & Hc & _ & _ & _ & Hd & _);
    [reflexivity | discriminate |].
  exists r, s'. split; [exact Hrun |].
  rewrite Hc. f_equal. f_equal. apply Hd. discriminate.
Defined.

Lemma guarded_var_const (b : bool) (l : list Q) (c : Q) :
  Forall (fun x => x == c) l -> (if b then np_var l else 0) == 0.
Proof. intros H. destruct b; [apply (np_var_const c), H | reflexivity]. Qed.

(** A steady video without rounding: the three consistency signals are 1
    and the score is 0.05 + 0.25 m. *)
Lemma analyze_video_steady_exact env video_path s f fs (faces : nat)
    (light motion : Q) :
  (extract_frames env video_path 100 s).1 = Returns (f :: fs) ->
  (2 <= length (f :: fs))%nat ->
  (forall g, g ∈ f :: fs -> face_count env g = faces) ->
  (forall g, g ∈ f :: fs -> mean_lightness env g == light) ->
  Forall (fun m => m == motion) (consecutive_motion env (f :: fs)) ->
  exists r s' x,
    analyze_video env video_path None s = (Returns r, s') /\
    r !! "deepfake_score" = Some (VFloat x) /\
    x == 0.05 + 0.25 * np_mean (artifact_score env <$> f :: fs) /\
    r !! "classification" = Some (VStr (classification_of x)).
Proof.
  intros Hex Hlen Hfaces Hlight Hmotion.
  destruct (analyze_video_sampled env video_path None s f fs Hex)
    as (fa & la & ca & ta & Hfa & Hla & Hca & Hta & Hrun).
  cbv zeta in Hrun. rewrite Hrun.
  unfold analyze_face_consistency in Hfa.
  unfold analyze_lighting_consistency in Hla.
  unfold analyze_temporal_consistency in Hta.
  assert (Hlt : (length (f :: fs) <? 2)%nat = false) by (apply Nat.ltb_ge; lia).
  rewrite Hlt in Hfa, Hla, Hta. cbv [mret M_ret ret] in Hfa, Hla, Hta.
  injection Hfa as <-. injection Hla as <-. injection Hta as <-.
  unfold analyze_compression_artifacts, mbind, M_bind, bind in Hca.
  cbn [fmap list_fmap np_max] in Hca. cbv [mret M_ret ret] in Hca.
  injection Hca as <-.
  eexists _, _, _. split; [reflexivity |]. split; [reflexivity |].
  match goal with
  | |- ?x == _ /\ _ => set (score := x)
  end.
  set (m := np_mean (artifact_score env <$> f :: fs)).
  assert (Hv1 : (if (1 <? length ((fun frame => Q_of_nat (face_count env frame))
                                    <$> f :: fs))%nat
                 then np_var ((fun frame => Q_of_nat (face_count env frame))
                                <$> f :: fs) else 0) == 0).
  { apply (guarded_var_const _ _ (Q_of_nat faces)).
    apply Forall_fmap, Forall_forall. intros g Hg. cbn.
    rewrite (Hfaces g Hg). reflexivity. }
  assert (Hv2 : (if (1 <? length (mean_lightness env <$> f :: fs))%nat
                 then np_var (mean_lightness env <$> f :: fs) else 0) == 0).
  { apply (guarded_var_const _ _ light).
    apply Forall_fmap, Forall_forall. intros g Hg. cbn. apply Hlight, Hg. }
  assert (Hv3 : (if (1 <? length (consecutive_motion env (f :: fs)))%nat
                 then np_var (consecutive_motion env (f :: fs)) else 0) == 0).
  { apply (guarded_var_const _ _ motion). exact Hmotion. }
  split; [| reflexivity].
  subst score.
  erewrite score_of_reports; [| reflexivity | reflexivity | reflexivity
                              | reflexivity].
  rewrite lookup_empty. cbn [default from_option]. unfold id.
  fold m. cbn [fmap list_fmap] in Hv1, Hv2. cbn [fmap list_fmap].
  rewrite Hv1, Hv2, Hv3.
  assert (E1 : 1.0 / (1.0 + 0) == 1) by reflexivity.
  assert (E2 : 1.0 / (1.0 + 0 / 100.0) == 1) by reflexivity.
  rewrite E1, E2. subst m. cbn [fmap list_fmap]. lra.
Qed.

(** X7.  A steady video: two or more sampled frames that all show the same
    number of faces and the same mean lightness, with the same motion between
    each frame and the next, and artifact scores in [0,1].  Analysed without
    audio its deepfake score is 0.05 + 0.25 m up to rounding, with m the mean
    artifact score; so it is never classified "deepfake", and it is "real"
    when m <= 0.99. *)
Theorem analyze_video_steady env video_path s f fs (faces : nat)
    (light motion : Q) :
  (extract_frames env video_path 100 s).1 = Returns (f :: fs) ->
  (2 <= length (f :: fs))%nat ->
  (forall g, g ∈ f :: fs -> face_count env g = faces) ->
  (forall g, g ∈ f :: fs -> mean_lightness env g == light) ->
  Forall (fun m => m == motion) (consecutive_motion env (f :: fs)) ->
  (forall g, g ∈ f :: fs -> 0 <= artifact_score env g <= 1) ->
  exists r s' x,
    analyze_video env video_path None s = (Returns r, s') /\
    r !! "deepfake_score" = Some (VFloat x) /\
    r !! "classification" = Some (VStr (classification_of x)) /\
    Qabs (x - (0.05 + 0.25 * np_mean (artifact_score env <$> f :: fs)))
    <= 1 # 1000000000 /\
    classification_of x <> "deepfake" /\
    (np_mean (artifact_score env <$> f :: fs) <= 0.99 ->
     classification_of x = "real").
Proof.
  intros Hex Hlen Hfaces Hlight Hmotion Hart.
  destruct (analyze_video_steady_exact env video_path s f fs faces light motion
              Hex Hlen Hfaces Hlight Hmotion)
    as (r & s' & x & Hrun & Hx & Hval & Hc).
  assert (Hm : 0 <= np_mean (artifact_score env <$> f :: fs) <= 1).
  { apply np_mean_bounds; [discriminate |].
    apply Forall_fmap, Forall_forall. exact Hart. }
  pose proof (classification_of_spec x) as (Hd & Hr & _).
  exists r, s', x.
  split; [exact Hrun |]. split; [exact Hx |]. split; [exact Hc |].
  split; [apply Qabs_close; [exact Hval | discriminate] |].
  split; [rewrite Hd; lra |].
  intros H. apply Hr. lra.
Qed.

Lemma analyze_video_steady_witness :
  exists r s',
    analyze_video (demo_env (Returns (clip 3))) "v.mp4" None s0 = (Returns r, s') /\
    r !! "classification" = Some (VStr "real").
Proof.
  destruct (analyze_video_steady (demo_env (Returns (clip 3))) "v.mp4" s0
              a_frame [a_frame; a_frame] 1 128 0)
    as (r & s' & x & Hrun & _ & Hc & _ & _ & Hreal).
  - reflexivity.
  - cbn. lia.
  - reflexivity.
  - reflexivity.
  - repeat constructor.
  - intros g _. split; discriminate.
  - exists r, s'. split; [exact Hrun |].
    rewrite Hc. f_equal. f_equal. apply Hreal. vm_compute. discriminate.
Defined.

(** ** More on the frame sampler *)

Lemma strided_one pos (reads : list (option Frame)) :
  strided 1 pos reads = omap id reads.
Proof.
  revert pos. induction reads as [| r rest IH]; intros pos; cbn [strided];
    [reflexivity |].
  rewrite Z.mod_1_r. cbn [Z.eqb]. rewrite IH.
  destruct r; reflexivity.
Qed.

(** X8.  No striding happens until the container reports at least twice
    [max_frames] frames: for 0 <= T < 2 * max_frames the sampler returns the
    frames decoded by the first T reads, cut off after [max_frames] of them.
    For T <= max_frames that is every decoded frame; for a longer video
    whose reads all decode it is the first [max_frames] frames, the rest of
    the video is never looked at. *)
Theorem extract_frames_no_stride env video_path max_frames cap s :
  VideoCapture env video_path = Returns cap ->
  (1 <= max_frames)%Z ->
  (0 <= CAP_PROP_FRAME_COUNT cap < 2 * max_frames)%Z ->
  let T := Z.to_nat (CAP_PROP_FRAME_COUNT cap) in
  let decoded := omap id (take T (stream cap)) in
  extract_frames env video_path max_frames s
  = (Returns (take (Z.to_nat max_frames) decoded), s) /\
  ((CAP_PROP_FRAME_COUNT cap <= max_frames)%Z ->
   take (Z.to_nat max_frames) decoded = decoded) /\
  (Forall is_Some (stream cap) ->
   take (Z.to_nat max_frames) decoded
   = omap id (take (Nat.min (Z.to_nat max_frames) T) (stream cap))).
Proof.
  intros Hcap Hmax HT T decoded.
  assert (Hstride : Z.max 1 (CAP_PROP_FRAME_COUNT cap `div` max_frames) = 1%Z).
  { assert (CAP_PROP_FRAME_COUNT cap `div` max_frames < 2)%Z
      by (apply Z.div_lt_upper_bound; lia).
    lia. }
  split; [| split].
  - rewrite (extract_frames_returns env video_path max_frames cap s)
      by (lia || exact Hcap).
    unfold sampler_spec. rewrite Hstride, strided_one. reflexivity.
  - intros Hle. apply take_ge. subst decoded.
    rewrite <- (strided_one 0).
    etransitivity; [apply strided_length |]. rewrite length_take. lia.
  - intros Hall. subst decoded.
    assert (Homap : forall l : list (option Frame),
               Forall is_Some l -> forall n, take n (omap id l) = omap id (take n l)).
    { induction 1 as [| r l [fr ->] _ IH]; intros [| n]; cbn; try reflexivity.
      f_equal. apply IH. }
    rewrite Homap by (apply Forall_take; exact Hall).
    rewrite take_take. reflexivity.
Qed.

Lemma extract_frames_no_stride_witness :
  extract_frames (demo_env (Returns (clip 5))) "v.mp4" 3 s0
  = (Returns (take 3 (omap id (take 5 (stream (clip 5))))), s0).
Proof.
  destruct (extract_frames_no_stride (demo_env (Returns (clip 5))) "v.mp4" 3
              (clip 5) s0) as (H & _); [reflexivity | lia | cbn; lia |].
  exact H.
Defined.

(** X9.  [_extract_sample_frames] never raises: whatever the environment and
    for every [max_frames], zero and negative included, it returns a list of
    at most [max(0, max_frames)] frames and leaves the state alone; the list
    is empty when OpenCV raises and when [max_frames <= 0].  When
    [extract_frames] returns it returns the same frames, but with
    [max_frames = 0] on a container that opens [extract_frames] raises
    [ZeroDivisionError]. *)
Theorem _extract_sample_frames_never_raises env video_path max_frames s :
  exists frames,
    _extract_sample_frames env video_path max_frames s = (Returns frames, s) /\
    (Z.of_nat (length frames) <= Z.max 0 max_frames)%Z /\
    ((exists e, VideoCapture env video_path = Raises e) -> frames = []) /\
    ((max_frames <= 0)%Z -> frames = []) /\
    (forall frames',
       extract_frames env video_path max_frames s = (Returns frames', s) ->
       frames' = frames) /\
    (forall cap, VideoCapture env video_path = Returns cap ->
       max_frames = 0%Z ->
       extract_frames env video_path max_frames s
       = (Raises (ZeroDivisionError "integer division or modulo by zero"), s)).
Proof.
  unfold _extract_sample_frames, extract_frames, try_except, mbind, M_bind,
    bind, lift, sample_frames.
  destruct (VideoCapture env video_path) as [cap | e].
  - destruct (Z.eqb_spec max_frames 0) as [-> | Hnz].
    + exists [].
      repeat split; intros; try reflexivity; try discriminate; cbn; lia.
    + cbv [mret M_ret ret].
      set (frames := extract_loop _ _ _ _ _ _ _).
      assert (Hlen : (Z.of_nat (length frames) <= Z.max 0 max_frames)%Z)
        by (apply extract_loop_length; cbn; lia).
      exists frames. split; [reflexivity |]. split; [exact Hlen |].
      split; [intros (e & He); discriminate |].
      split.
      { intros Hneg. destruct frames; [reflexivity | cbn in Hlen; lia]. }
      split; [intros frames' H; injection H as <-; reflexivity |].
      intros cap' _ ->. contradiction.
  - exists [].
    repeat split; intros; try reflexivity; try discriminate; cbn; lia.
Qed.

Lemma _extract_sample_frames_never_raises_witness :
  _extract_sample_frames (demo_env (Returns (clip 5))) "v.mp4" 0 s0
    = (Returns [], s0) /\
  extract_frames (demo_env (Returns (clip 5))) "v.mp4" 0 s0
    = (Raises (ZeroDivisionError "integer division or modulo by zero"), s0).
Proof.
  destruct (_extract_sample_frames_never_raises
              (demo_env (Returns (clip 5))) "v.mp4" 0 s0)
    as (frames & Hrun & _ & _ & Hnil & _ & Hzero).
  rewrite (Hnil ltac:(lia)) in Hrun.
  split; [exact Hrun | apply (Hzero (clip 5)); reflexivity].
Defined.

(** ** Location consistency *)

Lemma location_consistency_fold (indicators : gmap string Q) :
  indicators <> ∅ ->
  _calculate_location_consistency indicators
  = let acc0 := (0.0, 0.0) in
    let step (acc : Q * Q) (kw : string * Q) :=
      match indicators !! kw.1 with
      | Some v => (acc.1 + v * kw.2, acc.2 + kw.2)
      | None => acc
      end in
    let acc := step (step (step (step acc0 ("indicators_found", 0.3))
                                ("consistency", 0.4))
                          ("landmark_detection", 0.2))
                    ("text_recognition", 0.1) in
    if Qgt_bool acc.2 0 then acc.1 / acc.2 else 0.0.
Proof.
  intros Hne. unfold _calculate_location_consistency.
  destruct (decide (indicators = ∅)) as [E | _]; [contradiction |].
  unfold location_weights. cbn [foldl fst snd].
  destruct (indicators !! "indicators_found"),
    (indicators !! "consistency"),
    (indicators !! "landmark_detection"),
    (indicators !! "text_recognition"); reflexivity.
Qed.

(** The weighted average without rounding. *)
Lemma location_consistency_exact (indicators : gmap string Q) :
  (forall lo hi : Q,
     lo <= 0 <= hi ->
     (forall k v, k ∈ location_weights.*1 -> indicators !! k = Some v ->
                  lo <= v <= hi) ->
     lo <= _calculate_location_consistency indicators <= hi) /\
  (forall c : Q,
     (exists k v, k ∈ location_weights.*1 /\ indicators !! k = Some v) ->
     (forall k v, k ∈ location_weights.*1 -> indicators !! k = Some v ->
                  v == c) ->
     _calculate_location_consistency indicators == c) /\
  ((forall k, k ∈ location_weights.*1 -> indicators !! k = None) ->
   _calculate_location_consistency indicators = 0.0) /\
  (forall k v, k ∉ location_weights.*1 ->
     _calculate_location_consistency (<[k := v]> indicators)
     = _calculate_location_consistency indicators).
Proof.
  assert (Hkeys : forall k, k ∈ location_weights.*1 <->
            k = "indicators_found" \/ k = "consistency" \/
            k = "landmark_detection" \/ k = "text_recognition").
  { intros k. cbn. rewrite !elem_of_cons, elem_of_nil. tauto. }
  split; [| split; [| split]].
  - intros lo hi H0 Hv.
    destruct (decide (indicators = ∅)) as [-> | Hne].
    { assert (E : _calculate_location_consistency ∅ = 0.0) by reflexivity.
      rewrite E. lra. }
    rewrite (location_consistency_fold indicators Hne). cbv zeta. cbn [fst snd].
    pose proof (fun v => Hv "indicators_found" v ltac:(apply Hkeys; tauto)) as H1.
    pose proof (fun v => Hv "consistency" v ltac:(apply Hkeys; tauto)) as H2.
    pose proof (fun v => Hv "landmark_detection" v ltac:(apply Hkeys; tauto)) as H3.
    pose proof (fun v => Hv "text_recognition" v ltac:(apply Hkeys; tauto)) as H4.
    destruct (indicators !! "indicators_found") as [v1 |];
      [specialize (H1 v1 eq_refl) | clear H1];
    (destruct (indicators !! "consistency") as [v2 |];
      [specialize (H2 v2 eq_refl) | clear H2]);
    (destruct (indicators !! "landmark_detection") as [v3 |];
      [specialize (H3 v3 eq_refl) | clear H3]);
    (destruct (indicators !! "text_recognition") as [v4 |];
      [specialize (H4 v4 eq_refl) | clear H4]);
    cbn [fst snd];
    (match goal with
     | |- context [Qgt_bool ?w 0] =>
       destruct (Qgt_bool w 0) eqn:E;
       [apply Qgt_bool_iff in E; split;
        [apply Qle_shift_div_l; [exact E | lra]
        | apply Qle_shift_div_r; [exact E | lra]]
       | split; lra]
     end).
  - intros c Hsome Hv.
    destruct (decide (indicators = ∅)) as [-> | Hne].
    { destruct Hsome as (k & v & _ & H). rewrite lookup_empty in H. discriminate. }
    rewrite (location_consistency_fold indicators Hne). cbv zeta. cbn [fst snd].
    destruct Hsome as (k0 & v0 & Hk0 & Hl0). apply Hkeys in Hk0.
    pose proof (fun v => Hv "indicators_found" v ltac:(apply Hkeys; tauto)) as H1.
    pose proof (fun v => Hv "consistency" v ltac:(apply Hkeys; tauto)) as H2.
    pose proof (fun v => Hv "landmark_detection" v ltac:(apply Hkeys; tauto)) as H3.
    pose proof (fun v => Hv "text_recognition" v ltac:(apply Hkeys; tauto)) as H4.
    destruct (indicators !! "indicators_found") as [v1 |] eqn:L1;
      [specialize (H1 v1 eq_refl) | clear H1];
    (destruct (indicators !! "consistency") as [v2 |] eqn:L2;
      [specialize (H2 v2 eq_refl) | clear H2]);
    (destruct (indicators !! "landmark_detection") as [v3 |] eqn:L3;
      [specialize (H3 v3 eq_refl) | clear H3]);
    (destruct (indicators !! "text_recognition") as [v4 |] eqn:L4;
      [specialize (H4 v4 eq_refl) | clear H4]);
    cbn [fst snd];
    try (exfalso; destruct Hk0 as [-> | [-> | [-> | ->]]]; congruence);
    (match goal with
     | |- (if Qgt_bool ?w 0 then ?n / ?w else _) == _ =>
       assert (E : 0 < w) by lra;
       apply Qgt_bool_iff in E as Eb; rewrite Eb;
       assert (Hlo : c <= n / w) by (apply Qle_shift_div_l; [exact E | lra]);
       assert (Hhi : n / w <= c) by (apply Qle_shift_div_r; [exact E | lra]);
       lra
     end).
  - intros Hnone.
    destruct (decide (indicators = ∅)) as [-> | Hne]; [reflexivity |].
    rewrite (location_consistency_fold indicators Hne). cbv zeta.
    cbn [fst snd]. rewrite !Hnone by (apply Hkeys; tauto). reflexivity.
  - intros k v Hk.
    assert (Hins : <[k := v]> indicators <> ∅) by apply insert_non_empty.
    rewrite (location_consistency_fold _ Hins). cbv zeta. cbn [fst snd].
    rewrite !lookup_insert_ne
      by (intros ->; apply Hk, Hkeys; tauto).
    destruct (decide (indicators = ∅)) as [-> | Hne].
    + rewrite !lookup_empty. reflexivity.
    + rewrite (location_consistency_fold indicators Hne). cbv zeta.
      cbn [fst snd]. reflexivity.
Qed.

(** X10.  [_calculate_location_consistency] is a weighted average of the
    indicators that are present among the four weighted keys: for values in
    [0,1] it lies in [0,1], and it is c when every weighted indicator present
    is c, both up to rounding; it is 0.0 when none of the four is present;
    and it ignores every other key, such as [weather_consistency].  The
    rounding is real: in binary64 the single indicator consistency = 0.8
    gives 0.8000000000000002, and the indicators of the stub give
    0.6900000000000002. *)
Theorem location_consistency_weighted_average (indicators : gmap string Q) :
  ((forall k v, k ∈ location_weights.*1 -> indicators !! k = Some v ->
                0 <= v <= 1) ->
   0 <= _calculate_location_consistency indicators <= 1 + (1 # 1000000000)) /\
  (forall c : Q,
     0 <= c <= 1 ->
     (exists k v, k ∈ location_weights.*1 /\ indicators !! k = Some v) ->
     (forall k v, k ∈ location_weights.*1 -> indicators !! k = Some v ->
                  v == c) ->
     Qabs (_calculate_location_consistency indicators - c) <= 1 # 1000000000) /\
  ((forall k, k ∈ location_weights.*1 -> indicators !! k = None) ->
   _calculate_location_consistency indicators = 0.0) /\
  (forall k v, k ∉ location_weights.*1 ->
     _calculate_location_consistency (<[k := v]> indicators)
     = _calculate_location_consistency indicators) /\
  F64._calculate_location_consistency {[ "consistency" := 0.8 ]}
  = 0.8000000000000002%float /\
  F64._calculate_location_consistency
    {[ "indicators_found" := 0.6; "consistency" := 0.8;
       "landmark_detection" := 0.7; "text_recognition" := 0.5;
       "weather_consistency" := 0.9 ]}
  = 0.6900000000000002%float.
Proof.
  destruct (location_consistency_exact indicators) as (Hb & Hc & H0 & Hi).
  split.
  { intros Hv. destruct (Hb 0 1 ltac:(split; discriminate) Hv). split; lra. }
  split.
  { intros c _ Hsome Hv. apply Qabs_close; [| discriminate].
    apply Hc; assumption. }
  split; [exact H0 |]. split; [exact Hi |].
  split; vm_compute; reflexivity.
Qed.

Lemma location_consistency_weighted_average_witness :
  0 <= _calculate_location_consistency
         {[ "indicators_found" := 0.6; "consistency" := 0.8;
            "weather_consistency" := 0.9 ]} <= 1 + (1 # 1000000000).
Proof.
  destruct (location_consistency_weighted_average
              {[ "indicators_found" := 0.6; "consistency" := 0.8;
                 "weather_consistency" := 0.9 ]}) as (Hb & _).
  apply Hb.
  intros k v Hk Hv.
  cbn in Hk. rewrite !elem_of_cons, elem_of_nil in Hk.
  destruct Hk as [-> | [-> | [-> | [-> | []]]]]; cbn in Hv;
    try discriminate; injection Hv as <-; split; discriminate.
Defined.

(** ** The manipulation detector on arbitrary metadata *)










(** ** The geospatial entry point on every environment *)

Lemma verify_geospatial_stub_values env video_path cap s :
  VideoCapture env video_path = Returns cap ->
  let cr := clock_reads s in
  let T := CAP_PROP_FRAME_COUNT cap in
  let frames := extract_loop 20 T (Z.max 1 (T `div` 20)) (Z.to_nat T)
                             (stream cap) 0 [] in
  let cs := _calculate_location_consistency
              (_analyze_location_indicators frames) in
  let ts := if Qgt_bool (Qabs (now env (S (S cr)) - now env (S cr))) 86400
            then 0.8 else 0.1 in
  let mp := py_sum [0.1; ts; 0.1; 0.1] / Q_of_nat 4 in
  exists r s' lc,
    verify_geospatial_authenticity env video_path s = (Returns r, s') /\
    (_extract_sample_frames env video_path 20 s).1 = Returns frames /\
    r !! "verification_confidence"
    = Some (VFloat (verification_confidence_of cs mp)) /\
    r !! "verification_status"
    = Some (VStr (verification_status_of (verification_confidence_of cs mp))) /\
    r !! "location_consistency" = Some (VDict lc) /\
    lc !! "verification_method" = Some (VStr "visual_analysis") /\
    clock_reads s' = (4 + cr)%nat.
Proof.
  intros Hcap cr T frames cs ts mp.
  destruct (verify_geospatial_opened env video_path cap s Hcap)
    as (lc & gm & cs' & mp' & Hlc & Hgm & Hcs & Hmp & Hrun).
  rewrite verify_location_consistency_opened with (cap := cap) in Hlc, Hgm
    by exact Hcap.
  cbn [fst snd] in Hlc, Hgm.
  rewrite detect_gps_manipulation_run in Hgm.
  cbn [fst timestamp clock_reads] in Hgm.
  injection Hlc as <-. injection Hgm as <-.
  fold T in Hcs, Hrun. fold frames in Hcs, Hrun.
  assert (Hcs' : Some (VFloat cs) = Some (VFloat cs')) by exact Hcs.
  assert (Hmp' : Some (VFloat mp) = Some (VFloat mp')) by exact Hmp.
  injection Hcs' as <-. injection Hmp' as <-.
  rewrite Hrun. eexists _, _, _.
  split; [reflexivity |].
  split; [rewrite _extract_sample_frames_opened with (cap := cap) by exact Hcap;
          reflexivity |].
  split; [reflexivity |]. split; [reflexivity |]. split; [reflexivity |].
  split; reflexivity.
Qed.

(** X12.  Whatever the video and the clock, [verify_geospatial_authenticity]
    answers "failed" when OpenCV raises on opening, and otherwise
    "verified" exactly when at least one frame is sampled and "uncertain"
    exactly when none is; it never answers "suspicious" or "error".  When
    the container opens, the confidence computed in binary64 from the
    indicators and the scores of the record is 0.7950000000000002 or 0.7075
    with a frame sampled and 0.45 or 0.3625 with none (the second of each
    pair when the detector's clock reading is more than 24 h from the
    stub's); it gives the same status, and the confidence of the record,
    computed without rounding, is within 1e-15 of it. *)
Theorem verify_geospatial_verdicts env video_path s :
  exists r s' status,
    verify_geospatial_authenticity env video_path s = (Returns r, s') /\
    r !! "verification_status" = Some (VStr status) /\
    status <> "suspicious" /\ status <> "error" /\
    match VideoCapture env video_path with
    | Raises _ => status = "failed"
    | Returns _ =>
      exists frames lc gm indicators ms confidence,
        (_extract_sample_frames env video_path 20 s).1 = Returns frames /\
        r !! "location_consistency" = Some (VDict lc) /\
        lc !! "location_indicators" = Some (VReport indicators) /\
        r !! "gps_manipulation" = Some (VDict gm) /\
        gm !! "manipulation_scores" = Some (VReport (list_to_map ms)) /\
        ms.*1 = ["gps_jump"; "timestamp_mismatch"; "accuracy_anomaly";
                 "satellite_anomaly"] /\
        r !! "verification_confidence" = Some (VFloat confidence) /\
        (status = "verified" <-> frames <> []) /\
        (status = "uncertain" <-> frames = []) /\
        let c64 :=
          F64.verification_confidence_of
            (F64._calculate_location_consistency indicators)
            (F64.overall_manipulation_probability ms) in
        F64.verification_status_of c64 = status /\
        Qabs (F64.to_Q c64 - confidence) <= 1 # 1000000000000000 /\
        (frames <> [] ->
         c64 = 0.7950000000000002%float \/ c64 = 0.7075%float) /\
        (frames = [] -> c64 = 0.45%float \/ c64 = 0.3625%float)
    end.
Proof.
  destruct (VideoCapture env video_path) as [cap | e] eqn:Hcap.
  2: { rewrite (verify_geospatial_unopenable env video_path e s Hcap).
       eexists _, _, _. split; [reflexivity |]. split; [reflexivity |].
       repeat split; discriminate. }
  destruct (verify_geospatial_stub_record env video_path cap s Hcap)
    as (r & s' & lc & gm & Hrun & Hframes & Hlc & Hind & _ & _ & Hgm & Hms
        & _ & _ & Hconf & Hstatus).
  cbv zeta in Hframes, Hind, Hms, Hconf, Hstatus.
  set (frames := extract_loop 20 _ _ _ _ _ _) in *.
  set (late := Qgt_bool (Qabs (now env (S (S (clock_reads s)))
                               - now env (S (clock_reads s)))) 86400) in *.
  pose proof (stub_scores_binary64 frames late)
    as (_ & _ & Hc64 & Hst64 & Hst & _ & _ & Tc).
  cbv zeta in Hc64, Hst64, Hst, Tc.
  rewrite <- Hst64 in Hstatus.
  eexists r, s', _.
  split; [exact Hrun |]. split; [exact Hstatus |].
  rewrite Hst.
  split; [destruct frames; discriminate |].
  split; [destruct frames; discriminate |].
  eexists frames, lc, gm, _, _, _.
  split; [exact Hframes |]. split; [exact Hlc |]. split; [exact Hind |].
  split; [exact Hgm |]. split; [exact Hms |]. split; [reflexivity |].
  split; [exact Hconf |].
  split; [destruct frames; split; intros; congruence |].
  split; [destruct frames; split; intros; congruence |].
  cbv zeta.
  split; [exact Hst |]. split; [exact Tc |].
  rewrite Hc64.
  split; intros H; destruct frames as [| f fs], late; try congruence; auto.
Qed.

Lemma _extract_sample_frames_state env video_path max_frames s s' :
  _extract_sample_frames env video_path max_frames s
  = ((_extract_sample_frames env video_path max_frames s').1, s).
Proof.
  unfold _extract_sample_frames, try_except, mbind, M_bind, bind, lift,
    sample_frames.
  destruct (VideoCapture env video_path) as [cap | e]; [| reflexivity].
  destruct (max_frames =? 0)%Z; reflexivity.
Qed.

Lemma _extract_sample_frames_returns env video_path max_frames s :
  exists frames,
    _extract_sample_frames env video_path max_frames s = (Returns frames, s).
Proof.
  unfold _extract_sample_frames, try_except, mbind, M_bind, bind, lift,
    sample_frames.
  destruct (VideoCapture env video_path) as [cap | e]; [| eexists; reflexivity].
  destruct (max_frames =? 0)%Z; eexists; reflexivity.
Qed.

(** X13.  [verify_location_consistency] never raises and never takes its
    [except] branch, whatever OpenCV does: the report always says
    [visual_analysis], carries no [error] key, and does not depend on the
    GPS metadata it is handed; its consistency score is that of the stub
    indicators of the sampled frames, never the 0.5 of the handler: in
    binary64 0.6900000000000002 when at least one frame is sampled and 0
    when none is, the score of the report, computed without rounding, being
    within 1e-15 of it. *)
Theorem verify_location_consistency_never_fails env gps gps' video_path s :
  exists r frames indicators cs,
    verify_location_consistency env gps video_path s
    = (Returns r, mkSys (clock_reads s)
                        (calls s ++ ["verify_location_consistency"])) /\
    verify_location_consistency env gps' video_path s
    = verify_location_consistency env gps video_path s /\
    (_extract_sample_frames env video_path 20 s).1 = Returns frames /\
    r !! "verification_method" = Some (VStr "visual_analysis") /\
    r !! "error" = None /\
    r !! "location_indicators" = Some (VReport indicators) /\
    indicators = _analyze_location_indicators frames /\
    r !! "consistency_score" = Some (VFloat cs) /\
    ~ cs == 0.5 /\
    let cs64 := F64._calculate_location_consistency indicators in
    Qabs (F64.to_Q cs64 - cs) <= 1 # 1000000000000000 /\
    (frames <> [] -> cs64 = 0.6900000000000002%float) /\
    (frames = [] -> cs64 = 0%float).
Proof.
  set (s1 := mkSys (clock_reads s) (calls s ++ ["verify_location_consistency"])).
  destruct (_extract_sample_frames_returns env video_path 20 s1)
    as (frames & Hrun).
  assert (Hs : (_extract_sample_frames env video_path 20 s).1 = Returns frames).
  { rewrite (_extract_sample_frames_state env video_path 20 s s1), Hrun.
    reflexivity. }
  pose proof (location_consistency_stub frames) as [Hne Hnil].
  pose proof (stub_scores_binary64 frames false)
    as (Hcs64 & _ & _ & _ & _ & Tcs & _).
  cbv zeta in Hcs64, Tcs.
  eexists _, frames, _, _.
  split.
  { unfold verify_location_consistency, try_except, mbind, M_bind, bind, enter.
    fold s1. rewrite Hrun. reflexivity. }
  split; [reflexivity |]. split; [exact Hs |].
  split; [reflexivity |]. split; [reflexivity |]. split; [reflexivity |].
  split; [reflexivity |]. split; [reflexivity |].
  split.
  { destruct frames as [| f fs].
    - rewrite (Hnil eq_refl). discriminate.
    - rewrite (Hne ltac:(discriminate)). discriminate. }
  cbv zeta. split; [exact Tcs |].
  rewrite Hcs64. split; intros H; destruct frames; congruence.
Qed.

Lemma verify_location_consistency_never_fails_witness :
  exists r,
    verify_location_consistency (demo_env (Raises (Cv2Error "cv2.error")))
      (mkGPS 0 0 None None None None None) "v.mp4" s0
    = (Returns r, mkSys 0 ["verify_location_consistency"]) /\
    r !! "verification_method" = Some (VStr "visual_analysis").
Proof.
  destruct (verify_location_consistency_never_fails
              (demo_env (Raises (Cv2Error "cv2.error")))
              (mkGPS 0 0 None None None None None)
              (mkGPS 0 0 None None None None None) "v.mp4" s0)
    as (r & frames & indicators & cs & Hrun & _ & _ & Hm & _).
  exists r. split; [exact Hrun | exact Hm].
Defined.

(** * The video routes *)

(** ** The dashboard *)

Lemma filter_length_partition {A} (p1 p2 p3 : A -> bool) (l : list A) :
  (forall a, p1 a = true -> p2 a = false /\ p3 a = false) ->
  (forall a, p2 a = true -> p3 a = false) ->
  (length (filter (fun a => p1 a = true) l)
   + length (filter (fun a => p2 a = true) l)
   + length (filter (fun a => p3 a = true) l)
   + length (filter (fun a => p1 a || p2 a || p3 a = false) l)
   = length l)%nat.
Proof.
  intros H12 H23. induction l as [| a l IH]; [reflexivity |].
  rewrite !filter_cons. cbn [length].
  destruct (p1 a) eqn:E1.
  - destruct (H12 a E1) as [-> ->]. cbn.
    repeat match goal with
           | |- context [decide (?x = ?y)] =>
             destruct (decide (x = y)); try congruence
           end.
    cbn [length]. lia.
  - destruct (p2 a) eqn:E2.
    + rewrite (H23 a E2). cbn.
      repeat match goal with
             | |- context [decide (?x = ?y)] =>
               destruct (decide (x = y)); try congruence
             end.
      cbn [length]. lia.
    + destruct (p3 a) eqn:E3; cbn;
        repeat match goal with
               | |- context [decide (?x = ?y)] =>
                 destruct (decide (x = y)); try congruence
               end;
        cbn [length]; lia.
Qed.

Lemma is_str_exclusive (v : pyval) (t1 t2 : string) :
  t1 <> t2 -> is_str v t1 = true -> is_str v t2 = false.
Proof.
  intros Hne H. destruct v; try discriminate. cbn in *.
  apply String.eqb_eq in H. subst. apply String.eqb_neq. exact Hne.
Qed.

Lemma last_ten_length {A} (l : list A) :
  length (last_ten l) = Nat.min 10 (length l).
Proof. unfold last_ten. rewrite length_drop. lia. Qed.

Lemma last_ten_subset {A} (l : list A) (a : A) : a ∈ last_ten l -> a ∈ l.
Proof.
  unfold last_ten. intros H.
  rewrite <- (take_drop (length l - 10) l). apply elem_of_app. right. exact H.
Qed.

Lemma omap_all_some_length {A B} (f : A -> option B) (l : list A) :
  (forall a, a ∈ l -> is_Some (f a)) -> length (omap f l) = length l.
Proof.
  induction l as [| a l IH]; intros H; [reflexivity |]. cbn.
  destruct (H a ltac:(left)) as [b ->]. cbn. f_equal.
  apply IH. intros a' Ha'. apply H. right. exact Ha'.
Qed.

(** X14.  The dashboard of a user: the processed videos are among the
    user's videos; the deepfake, real and uncertain counts together with the
    analyses classified otherwise add up to the user's analyses, so an
    analysis stored with classification "error" makes the three buckets fall
    short of the total; the recent list holds exactly the last
    min(10, analyses) analyses; and no more geospatial rows are suspicious
    than the user's videos have geospatial rows. *)
Theorem dashboard_counts (current_user : User) (db : DB) :
  let d := get_dashboard current_user db in
  let user_videos :=
    filter (fun v => v_user_id v = Some (u_id current_user)) (videos db) in
  let analyses :=
    filter (fun a => a_video_id a ∈ v_id <$> user_videos) (analysis_results db) in
  let other :=
    filter (fun a => is_str (a_classification a) "deepfake"
                     || is_str (a_classification a) "real"
                     || is_str (a_classification a) "uncertain" = false)
           analyses in
  total_videos d = length user_videos /\
  (processed_videos d <= total_videos d)%nat /\
  (deepfake_count d + real_count d + uncertain_count d + length other
   = length analyses)%nat /\
  ((exists a, a ∈ analyses /\ a_classification a = VStr "error") ->
   (deepfake_count d + real_count d + uncertain_count d < length analyses)%nat) /\
  length (recent_analyses d) = Nat.min 10 (length analyses) /\
  (geospatial_suspicious d
   <= length (filter (fun g => g_video_id g ∈ v_id <$> user_videos)
                     (geospatial_data db)))%nat.
Proof.
  intros d user_videos analyses other.
  assert (Hsum : (deepfake_count d + real_count d + uncertain_count d
                  + length other = length analyses)%nat).
  { subst d other. unfold get_dashboard. cbn.
    fold user_videos. fold analyses.
    apply (filter_length_partition
             (fun a => is_str (a_classification a) "deepfake")
             (fun a => is_str (a_classification a) "real")
             (fun a => is_str (a_classification a) "uncertain")).
    - intros a H. split; eapply is_str_exclusive; try exact H; discriminate.
    - intros a H. eapply is_str_exclusive; try exact H; discriminate. }
  split; [reflexivity |].
  split; [subst d; cbn; apply length_filter |].
  split; [exact Hsum |].
  split.
  { intros (a & Ha & Hc).
    assert (Hin : a ∈ other).
    { subst other. apply list_elem_of_filter. split; [| exact Ha].
      rewrite Hc. reflexivity. }
    assert (0 < length other)%nat.
    { destruct other; [inversion Hin | cbn; lia]. }
    lia. }
  split.
  { subst d. unfold get_dashboard. cbn. fold user_videos. fold analyses.
    rewrite omap_all_some_length; [apply last_ten_length |].
    intros a Ha. apply last_ten_subset in Ha.
    subst analyses. apply list_elem_of_filter in Ha as [Hid _].
    apply list_elem_of_fmap in Hid as (v & Hv & Hin).
    destruct (filter (fun v0 => v_id v0 = a_video_id a) user_videos)
      as [| v0 rest] eqn:Hf.
    - exfalso.
      assert (v ∈ filter (fun v0 => v_id v0 = a_video_id a) user_videos)
        by (apply list_elem_of_filter; split; [symmetry; exact Hv | exact Hin]).
      rewrite Hf in H. inversion H.
    - cbn. eauto. }
  subst d. cbn. apply length_filter.
Qed.

Lemma dashboard_counts_witness :
  let db := mkDB [mkVideo 1 "t-1" "clip.mp4" "p" (Some 7%Z) "completed"]
                 [mkAnalysisResult 1 (VStr "error") (VFloat 0) (VFloat 0.5)
                                   (VDict ∅) (VList []) (VFloat 0)
                                   (VStr "1.0.0")] [] in
  let d := get_dashboard (mkUser 7 false) db in
  (deepfake_count d + real_count d + uncertain_count d < 1)%nat.
Proof.
  intros db d.
  destruct (dashboard_counts (mkUser 7 false) db) as (_ & _ & _ & H & _).
  apply H.
  exists (mkAnalysisResult 1 (VStr "error") (VFloat 0) (VFloat 0.5) (VDict ∅)
                           (VList []) (VFloat 0) (VStr "1.0.0")).
  split; [| reflexivity].
  apply list_elem_of_filter. split; [| left].
  apply list_elem_of_fmap. eexists. split; [| left]. reflexivity.
Defined.

(** ** The analyze route *)

Lemma build_analysis_result_ok (video : Video) (d : gmap string pyval) :
  has_fields [ "classification"; "confidence"; "deepfake_score";
               "manipulation_indicators"; "heatmap_frames";
               "processing_time"; "model_version" ] d ->
  exists a,
    build_analysis_result video d = inr a /\
    a_video_id a = v_id video /\
    d !! "classification" = Some (a_classification a) /\
    d !! "confidence" = Some (a_confidence a) /\
    d !! "deepfake_score" = Some (a_deepfake_score a).
Proof.
  unfold has_fields. rewrite !Forall_cons.
  intros ([c Hc] & [cf Hcf] & [ds Hds] & [mi Hmi] & [hf Hhf] & [pt Hpt]
          & [mv Hmv] & _).
  unfold build_analysis_result, getitem, mbind, res_bind.
  rewrite Hc, Hcf, Hds, Hmi, Hhf, Hpt, Hmv.
  eexists. split; [reflexivity |]. cbn. auto.
Qed.

Lemma analyze_video_returns_fields env video_path audio_path s :
  exists r s',
    analyze_video env video_path audio_path s = (Returns r, s') /\
    has_fields [ "classification"; "confidence"; "deepfake_score";
                 "manipulation_indicators"; "heatmap_frames";
                 "processing_time"; "model_version" ] r.
Proof.
  destruct (analyze_video_cases env video_path audio_path s)
    as [(r & s' & Hbody & Hr) | (e & s' & _ & Hr)];
    rewrite Hr; eexists _, _; (split; [reflexivity |]).
  - apply analyze_video_body_fields in Hbody as [Hf _].
    unfold has_fields, DeepfakeResult_fields in *.
    rewrite !Forall_cons in *. tauto.
  - repeat constructor; eexists; reflexivity.
Qed.

Lemma verification_status_of_values (c : Q) :
  verification_status_of c = "verified" \/
  verification_status_of c = "suspicious" \/
  verification_status_of c = "uncertain".
Proof.
  unfold verification_status_of.
  destruct (Qgt_bool c 0.7); [auto |]. destruct (Qlt_bool c 0.3); auto.
Qed.

Lemma build_geospatial_data_failed renv (video : Video) :
  build_geospatial_data renv video failed_record = inr None.
Proof. reflexivity. Qed.

Lemma build_geospatial_data_ok renv (video : Video) (r meta : gmap string pyval)
    status conf lat lon alt ts acc ot :
  r !! "verification_status" = Some status ->
  is_str status "failed" = false ->
  r !! "gps_metadata" = Some (VDict meta) ->
  meta !! "latitude" = Some lat ->
  meta !! "longitude" = Some lon ->
  meta !! "altitude" = Some alt ->
  meta !! "timestamp" = Some ts ->
  parse_timestamp renv ts = inr ot ->
  meta !! "accuracy" = Some acc ->
  r !! "verification_confidence" = Some conf ->
  build_geospatial_data renv video r
  = inr (Some (mkGeospatialData (v_id video) lat lon alt ot acc (VDict meta)
                                status conf)).
Proof.
  intros Hst Hnf Hmeta Hlat Hlon Halt Hts Hparse Hacc Hconf.
  unfold build_geospatial_data, getitem, subscript, mbind, res_bind, getitem.
  rewrite Hst, Hnf, Hmeta, Hconf. cbn [negb].
  rewrite Hlat, Hlon, Halt, Hts, Hparse, Hacc. reflexivity.
Qed.

Lemma stub_status_values (fr : list Frame) (b : bool) :
  let c := verification_confidence_of
             (_calculate_location_consistency (_analyze_location_indicators fr))
             (py_sum [0.1; if b then 0.8 else 0.1; 0.1; 0.1] / Q_of_nat 4) in
  verification_status_of c = "verified" \/
  verification_status_of c = "uncertain".
Proof. destruct fr, b; vm_compute; auto. Qed.

Lemma build_geospatial_data_opened env renv (video : Video) cap s :
  VideoCapture env (v_file_path video) = Returns cap ->
  (forall t, is_Some (fromisoformat renv (isoformat env t))) ->
  exists r s' g status,
    verify_geospatial_authenticity env (v_file_path video) s = (Returns r, s') /\
    r !! "verification_status" = Some (VStr status) /\
    (status = "verified" \/ status = "uncertain") /\
    build_geospatial_data renv video r = inr (Some g) /\
    g_video_id g = v_id video /\
    g_location_verification g = VStr status /\
    r !! "verification_confidence" = Some (g_verification_confidence g) /\
    g_latitude g = VFloat 37.7749 /\
    g_longitude g = VFloat (-122.4194).
Proof.
  intros Hcap Hiso.
  destruct (verify_geospatial_stub_values env (v_file_path video) cap s Hcap)
    as (r0 & s0' & lc0 & Hrun0 & _ & _ & Hst0 & _).
  cbv zeta in Hst0.
  destruct (verify_geospatial_opened env (v_file_path video) cap s Hcap)
    as (lc & gm & cs & mp & _ & _ & _ & _ & Hrun).
  rewrite Hrun in Hrun0. rewrite Hrun. clear Hrun.
  set (status := verification_status_of (verification_confidence_of cs mp)).
  set (ts := isoformat env (now env (S (clock_reads s)))).
  assert (Hval : status = "verified" \/ status = "uncertain").
  { injection Hrun0 as Hr _. rewrite <- Hr in Hst0.
    match type of Hst0 with
    | _ = Some (VStr ?st) =>
      assert (Heq : Some (VStr status) = Some (VStr st)) by exact Hst0
    end.
    injection Heq as Heq. rewrite Heq. apply stub_status_values. }
  clear Hrun0 Hst0.
  assert (Hnf : is_str (VStr status) "failed" = false).
  { cbn. apply String.eqb_neq. destruct Hval as [H | H]; rewrite H; discriminate. }
  destruct (Hiso (now env (S (clock_reads s)))) as [t Ht]. fold ts in Ht.
  assert (Hparse : exists ot, parse_timestamp renv (VStr ts) = inr ot).
  { unfold parse_timestamp. cbn [truthy].
    destruct (negb (String.eqb ts "")); [rewrite Ht |]; eauto. }
  destruct Hparse as (ot & Hparse).
  eexists _, _, _, status.
  split; [reflexivity |]. split; [reflexivity |]. split; [exact Hval |].
  split.
  { eapply build_geospatial_data_ok;
      [ reflexivity | exact Hnf | reflexivity | reflexivity | reflexivity
      | reflexivity | reflexivity | exact Hparse | reflexivity | reflexivity ]. }
  repeat split.
Qed.

Lemma first_video_spec (db : DB) (tracking_id : string) (video : Video) :
  first_video db tracking_id = Some video ->
  v_tracking_id video = tracking_id /\ video ∈ videos db.
Proof.
  unfold first_video. intros H. apply head_Some_elem_of in H.
  apply list_elem_of_filter in H. tauto.
Qed.

Lemma with_status_id (video : Video) (status : string) (v : Video) :
  let v' := if decide (v_id v = v_id video)
            then mkVideo (v_id v) (v_tracking_id v) (v_filename v)
                         (v_file_path v) (v_user_id v) status
            else v in
  v_id v' = v_id v /\ v_tracking_id v' = v_tracking_id v /\
  v_file_path v' = v_file_path v /\ v_user_id v' = v_user_id v.
Proof. cbv zeta. destruct (decide (v_id v = v_id video)); auto. Qed.

Lemma set_status_twice (db : DB) (video : Video) (a b : string) :
  set_status (set_status db video a) video b = set_status db video b.
Proof.
  unfold set_status. cbn [videos analysis_results geospatial_data]. f_equal.
  rewrite <- list_fmap_compose. apply list_fmap_ext. intros i v _. cbn.
  destruct (decide (v_id v = v_id video)) as [Heq | Hne]; cbn.
  - rewrite decide_True by exact Heq. reflexivity.
  - rewrite decide_False by exact Hne. reflexivity.
Qed.

Lemma first_video_set_status (db : DB) (video : Video) (status tracking_id : string) :
  first_video db tracking_id = Some video ->
  first_video (set_status db video status) tracking_id
  = Some (mkVideo (v_id video) (v_tracking_id video) (v_filename video)
                  (v_file_path video) (v_user_id video) status).
Proof.
  unfold first_video, set_status. cbn [videos].
  induction (videos db) as [| v l IH]; [discriminate |].
  rewrite fmap_cons, !filter_cons.
  destruct (with_status_id video status v) as (_ & Htr & _). cbv zeta in Htr.
  destruct (decide (v_tracking_id v = tracking_id)) as [Heq | Hne].
  - rewrite decide_True by (rewrite Htr; exact Heq).
    cbn [head]. intros [= ->]. rewrite decide_True by reflexivity. reflexivity.
  - rewrite decide_False by (rewrite Htr; exact Hne). exact IH.
Qed.

Lemma store_results_completed renv (db : DB) (video : Video)
    (d geo : gmap string pyval) a og :
  build_analysis_result video d = inr a ->
  build_geospatial_data renv video geo = inr og ->
  let db' := set_status
               (match og with
                | Some g => add_geospatial (add_analysis db a) g
                | None => add_analysis db a
                end) video "completed" in
  store_results renv db video d geo
  = (Respond (_create_analysis_response video a db'), db').
Proof.
  intros Ha Hg. unfold store_results. rewrite Ha, Hg. reflexivity.
Qed.

Lemma analyze_video_route_run env renv video_id current_user db video
    d geo s s1 s2 :
  first_video db video_id = Some video ->
  v_user_id video = Some (u_id current_user) \/ u_is_admin current_user = true ->
  first_analysis db (v_id video) = None ->
  analyze_video env (v_file_path video) None s = (Returns d, s1) ->
  verify_geospatial_authenticity env (v_file_path video) s1 = (Returns geo, s2) ->
  analyze_video_route env renv video_id current_user db s
  = (Returns (store_results renv (set_status db video "processing") video d geo),
     s2).
Proof.
  intros Hv Hauth Hna Hd Hgeo.
  unfold analyze_video_route. rewrite Hv.
  assert (Hguard : negb (bool_decide (v_user_id video = Some (u_id current_user)))
                   && negb (u_is_admin current_user) = false).
  { destruct Hauth as [H | H].
    - rewrite bool_decide_eq_true_2 by exact H. reflexivity.
    - rewrite H. apply andb_false_r. }
  rewrite Hguard, Hna.
  unfold try_except, mbind, M_bind, bind. rewrite Hd, Hgeo. reflexivity.
Qed.


Lemma analyze_video_empty_sample env video_path audio_path s :
  (extract_frames env video_path 100 s).1 = Returns [] ->
  analyze_video env video_path audio_path s
  = (Returns (analyze_video_error (ValueError
       "zero-size array to reduction operation maximum which has no identity")),
     mkSys (S (clock_reads s)) (calls s)).
Proof.
  intros Hnil.
  set (s1 := mkSys (S (clock_reads s)) (calls s)).
  assert (Hrun : extract_frames env video_path 100 s1 = (Returns [], s1)).
  { rewrite (extract_frames_state env video_path 100 s1 s), Hnil. reflexivity. }
  unfold analyze_video, analyze_video_body, try_except, mbind, M_bind, bind,
    datetime_now in *.
  fold s1. rewrite Hrun. reflexivity.
Qed.

Lemma first_analysis_added (db : DB) (a : AnalysisResult) (l : list AnalysisResult) :
  first_analysis db (a_video_id a) = None ->
  head (filter (fun x => a_video_id x = a_video_id a) (analysis_results db ++ a :: l))
  = Some a.
Proof.
  unfold first_analysis. intros Hnone.
  rewrite filter_app, head_app, Hnone, filter_cons, decide_True by reflexivity.
  reflexivity.
Qed.

Lemma first_geospatial_added (db : DB) (g : GeospatialData) :
  first_geospatial db (g_video_id g) = None ->
  head (filter (fun x => g_video_id x = g_video_id g) (geospatial_data db ++ [g]))
  = Some g.
Proof.
  unfold first_geospatial. intros Hnone.
  rewrite filter_app, head_app, Hnone, filter_cons, decide_True by reflexivity.
  reflexivity.
Qed.

Lemma analyze_video_route_first_run env renv video_id current_user db video s :
  first_video db video_id = Some video ->
  v_user_id video = Some (u_id current_user) \/ u_is_admin current_user = true ->
  first_analysis db (v_id video) = None ->
  (forall t, is_Some (fromisoformat renv (isoformat env t))) ->
  exists d s1 s2 a og,
    analyze_video env (v_file_path video) None s = (Returns d, s1) /\
    a_video_id a = v_id video /\
    d !! "classification" = Some (a_classification a) /\
    d !! "confidence" = Some (a_confidence a) /\
    d !! "deepfake_score" = Some (a_deepfake_score a) /\
    match VideoCapture env (v_file_path video) with
    | Raises _ => og = None
    | Returns _ =>
      exists g status,
        og = Some g /\ g_video_id g = v_id video /\
        g_location_verification g = VStr status /\
        (status = "verified" \/ status = "uncertain")
    end /\
    let db1 := add_analysis (set_status db video "processing") a in
    let db' := set_status (match og with
                           | Some g => add_geospatial db1 g
                           | None => db1
                           end) video "completed" in
    analyze_video_route env renv video_id current_user db s
    = (Returns (Respond (_create_analysis_response video a db'), db'), s2).
Proof.
  intros Hv Hauth Hna Hiso.
  destruct (analyze_video_returns_fields env (v_file_path video) None s)
    as (d & s1 & Hd & Hf).
  destruct (build_analysis_result_ok video d Hf) as (a & Ha & Hid & Hc & Hcf & Hds).
  destruct (VideoCapture env (v_file_path video)) as [cap | e] eqn:Hcap.
  - destruct (build_geospatial_data_opened env renv video cap s1 Hcap Hiso)
      as (geo & s2 & g & status & Hgeo & _ & Hval & Hg & Hgid & Hgv & _).
    exists d, s1, s2, a, (Some g).
    split; [exact Hd |]. split; [exact Hid |]. split; [exact Hc |].
    split; [exact Hcf |]. split; [exact Hds |].
    split; [exists g, status; auto |].
    intros db1 db'.
    rewrite (analyze_video_route_run env renv video_id current_user db video
               d geo s s1 s2 Hv Hauth Hna Hd Hgeo).
    rewrite (store_results_completed renv _ video d geo a (Some g) Ha Hg).
    reflexivity.
  - pose proof (verify_geospatial_unopenable env (v_file_path video) e s1 Hcap)
      as Hgeo.
    exists d, s1, (mkSys (S (clock_reads s1)) (calls s1 ++ ["extract_gps_metadata"])),
      a, None.
    split; [exact Hd |]. split; [exact Hid |]. split; [exact Hc |].
    split; [exact Hcf |]. split; [exact Hds |].
    split; [reflexivity |].
    intros db1 db'.
    rewrite (analyze_video_route_run env renv video_id current_user db video
               d failed_record s s1 _ Hv Hauth Hna Hd Hgeo).
    rewrite (store_results_completed renv _ video d failed_record a None Ha
               (build_geospatial_data_failed renv video)).
    reflexivity.
Qed.

(** X15.  [POST /video/analyze], first analysis of a video by its owner or
    an admin, when [datetime.fromisoformat] reads back what [isoformat]
    wrote: the route answers with a response (no HTTP error) carrying the
    requested tracking id and the classification, confidence and score of
    [analyze_video]; it stores exactly one [AnalysisResult] for the video,
    marks the video "completed", and stores one [GeospatialData] row, whose
    verdict is "verified" or "uncertain", exactly when OpenCV did not raise on
    opening (none otherwise).  A video from which no frame is sampled is
    stored and answered with classification "error", still as "completed". *)
Theorem analyze_route_completes env renv video_id current_user db video s :
  first_video db video_id = Some video ->
  v_user_id video = Some (u_id current_user) \/ u_is_admin current_user = true ->
  first_analysis db (v_id video) = None ->
  (forall t, is_Some (fromisoformat renv (isoformat env t))) ->
  exists resp db' s' d s1 a,
    analyze_video_route env renv video_id current_user db s
    = (Returns (Respond resp, db'), s') /\
    analyze_video env (v_file_path video) None s = (Returns d, s1) /\
    analysis_results db' = analysis_results db ++ [a] /\
    a_video_id a = v_id video /\
    d !! "classification" = Some (a_classification a) /\
    d !! "confidence" = Some (a_confidence a) /\
    d !! "deepfake_score" = Some (a_deepfake_score a) /\
    r_tracking_id resp = video_id /\
    r_classification resp = a_classification a /\
    r_confidence resp = a_confidence a /\
    r_deepfake_score resp = a_deepfake_score a /\
    videos db' = videos (set_status db video "completed") /\
    match VideoCapture env (v_file_path video) with
    | Raises _ =>
      geospatial_data db' = geospatial_data db /\
      (first_geospatial db (v_id video) = None ->
       r_geospatial_verification resp = VNone /\
       r_geospatial_confidence resp = VNone)
    | Returns _ =>
      exists g status,
        geospatial_data db' = geospatial_data db ++ [g] /\
        g_video_id g = v_id video /\
        g_location_verification g = VStr status /\
        (status = "verified" \/ status = "uncertain") /\
        (first_geospatial db (v_id video) = None ->
         r_geospatial_verification resp = VStr status)
    end /\
    ((extract_frames env (v_file_path video) 100 s).1 = Returns [] ->
     a_classification a = VStr "error").
Proof.
  intros Hv Hauth Hna Hiso.
  destruct (analyze_video_route_first_run env renv video_id current_user db
              video s Hv Hauth Hna Hiso)
    as (d & s1 & s2 & a & og & Hd & Hid & Hc & Hcf & Hds & Hog & Hrun).
  cbv zeta in Hrun.
  destruct (first_video_spec db video_id video Hv) as [Htr _].
  eexists _, _, s2, d, s1, a.
  split; [exact Hrun |]. split; [exact Hd |].
  split; [destruct og; reflexivity |].
  split; [exact Hid |]. split; [exact Hc |]. split; [exact Hcf |].
  split; [exact Hds |]. split; [exact Htr |].
  split; [reflexivity |]. split; [reflexivity |]. split; [reflexivity |].
  split.
  { rewrite <- (set_status_twice db video "processing" "completed").
    destruct og; reflexivity. }
  split.
  - destruct (VideoCapture env (v_file_path video)) as [cap | e].
    + destruct Hog as (g & status & -> & Hgid & Hgv & Hval).
      exists g, status. split; [reflexivity |]. split; [exact Hgid |].
      split; [exact Hgv |]. split; [exact Hval |].
      intros Hnone. rewrite <- Hgid in Hnone.
      pose proof (first_geospatial_added db g Hnone) as Hfirst.
      rewrite Hgid in Hfirst.
      unfold _create_analysis_response, first_geospatial.
      cbn [r_geospatial_verification set_status add_geospatial add_analysis
           geospatial_data].
      rewrite Hfirst. exact Hgv.
    + subst og. split; [reflexivity |].
      intros Hnone.
      unfold _create_analysis_response.
      cbn [r_geospatial_verification r_geospatial_confidence].
      change (first_geospatial (set_status _ video "completed") (v_id video))
        with (first_geospatial db (v_id video)).
      rewrite Hnone. split; reflexivity.
  - intros Hnil.
    rewrite (analyze_video_empty_sample env _ None s Hnil) in Hd.
    assert (Hdeq : analyze_video_error (ValueError
       "zero-size array to reduction operation maximum which has no identity")
       = d) by congruence.
    rewrite <- Hdeq in Hc.
    assert (Hc' : Some (VStr "error") = Some (a_classification a)) by exact Hc.
    congruence.
Qed.

Lemma analyze_route_completes_witness :
  exists resp db' s',
    analyze_video_route (demo_env (Returns (clip 3))) demo_renv "t-1"
      (mkUser 7 false) demo_db s0
    = (Returns (Respond resp, db'), s') /\
    r_tracking_id resp = "t-1" /\
    v_status <$> videos db' = ["completed"] /\
    length (analysis_results db') = 1%nat /\
    length (geospatial_data db') = 1%nat.
Proof.
  destruct (analyze_route_completes (demo_env (Returns (clip 3))) demo_renv
              "t-1" (mkUser 7 false) demo_db
              (mkVideo 1 "t-1" "clip.mp4" "./uploads/eu/t-1.mp4" (Some 7%Z)
                       "uploaded") s0)
    as (resp & db' & s' & d & s1 & a & Hrun & _ & Han & _ & _ & _ & _ & Htr
        & _ & _ & _ & Hvid & Hgeo & _).
  - reflexivity.
  - left. reflexivity.
  - reflexivity.
  - intros t. eexists. reflexivity.
  - exists resp, db', s'. split; [exact Hrun |]. split; [exact Htr |].
    split; [rewrite Hvid; reflexivity |].
    split; [rewrite Han; reflexivity |].
    cbn in Hgeo. destruct Hgeo as (g & status & -> & _). reflexivity.
Defined.

(** X16.  Once the first analysis has completed, asking again returns the
    same response from the stored rows: the engines are not entered, the
    clock is not read and the database is left as it is, whatever the state
    the second request starts from. *)
Theorem analyze_route_idempotent env renv video_id current_user db video s :
  first_video db video_id = Some video ->
  v_user_id video = Some (u_id current_user) \/ u_is_admin current_user = true ->
  first_analysis db (v_id video) = None ->
  (forall t, is_Some (fromisoformat renv (isoformat env t))) ->
  exists resp db' s',
    analyze_video_route env renv video_id current_user db s
    = (Returns (Respond resp, db'), s') /\
    forall s'',
      analyze_video_route env renv video_id current_user db' s''
      = (Returns (Respond resp, db'), s'').
Proof.
  intros Hv Hauth Hna Hiso.
  destruct (analyze_video_route_first_run env renv video_id current_user db
              video s Hv Hauth Hna Hiso)
    as (d & s1 & s2 & a & og & _ & Hid & _ & _ & _ & _ & Hrun).
  cbv zeta in Hrun.
  eexists _, _, s2. split; [exact Hrun |].
  intros s''.
  set (db' := set_status _ video "completed").
  set (video' := mkVideo (v_id video) (v_tracking_id video) (v_filename video)
                         (v_file_path video) (v_user_id video) "completed").
  assert (Hv' : first_video db' video_id = Some video').
  { assert (Hvid : videos db' = videos (set_status db video "completed")).
    { rewrite <- (set_status_twice db video "processing" "completed").
      subst db'. destruct og; reflexivity. }
    unfold first_video. rewrite Hvid.
    exact (first_video_set_status db video "completed" video_id Hv). }
  assert (Ha' : first_analysis db' (v_id video') = Some a).
  { unfold first_analysis.
    assert (Han : analysis_results db' = analysis_results db ++ [a])
      by (subst db'; destruct og; reflexivity).
    rewrite Han. cbn [v_id video']. rewrite <- Hid.
    apply first_analysis_added. rewrite Hid. exact Hna. }
  unfold analyze_video_route. rewrite Hv'.
  assert (Hguard : negb (bool_decide (v_user_id video' = Some (u_id current_user)))
                   && negb (u_is_admin current_user) = false).
  { destruct Hauth as [H | H].
    - rewrite bool_decide_eq_true_2 by exact H. reflexivity.
    - rewrite H. apply andb_false_r. }
  rewrite Hguard, Ha'. reflexivity.
Qed.

Lemma analyze_route_idempotent_witness :
  exists resp db' s',
    analyze_video_route (demo_env (Returns (clip 3))) demo_renv "t-1"
      (mkUser 7 false) demo_db s0
    = (Returns (Respond resp, db'), s') /\
    analyze_video_route (demo_env (Returns (clip 3))) demo_renv "t-1"
      (mkUser 7 false) db' s'
    = (Returns (Respond resp, db'), s').
Proof.
  destruct (analyze_route_idempotent (demo_env (Returns (clip 3))) demo_renv
              "t-1" (mkUser 7 false) demo_db
              (mkVideo 1 "t-1" "clip.mp4" "./uploads/eu/t-1.mp4" (Some 7%Z)
                       "uploaded") s0)
    as (resp & db' & s' & Hrun & Hagain).
  - reflexivity.
  - left. reflexivity.
  - reflexivity.
  - intros t. eexists. reflexivity.
  - exists resp, db', s'. split; [exact Hrun | apply Hagain].
Defined.

(** X17.  When the geospatial record handed to the route has a status other
    than "failed" and no [gps_metadata] key, as the record built by the
    [except] branch of [verify_geospatial_authenticity] (status "error"),
    the route raises HTTP 500 "Analysis failed: 'gps_metadata'" and marks the
    video "failed", but the [AnalysisResult] added before the failure is
    committed with it; no [GeospatialData] row is added.  A later request for
    the same video is then answered from that stored row, without entering
    the engines, and the video stays "failed". *)
Theorem store_results_without_gps_metadata renv (db : DB) (video : Video)
    (d geo : gmap string pyval) (status : pyval) :
  has_fields [ "classification"; "confidence"; "deepfake_score";
               "manipulation_indicators"; "heatmap_frames";
               "processing_time"; "model_version" ] d ->
  geo !! "verification_status" = Some status ->
  is_str status "failed" = false ->
  geo !! "gps_metadata" = None ->
  exists a db',
    store_results renv db video d geo
    = (HTTPException 500 "Analysis failed: 'gps_metadata'", db') /\
    a_video_id a = v_id video /\
    d !! "classification" = Some (a_classification a) /\
    videos db' = videos (set_status db video "failed") /\
    analysis_results db' = analysis_results db ++ [a] /\
    geospatial_data db' = geospatial_data db /\
    forall env video_id current_user s,
      first_video db video_id = Some video ->
      v_user_id video = Some (u_id current_user) \/
        u_is_admin current_user = true ->
      first_analysis db (v_id video) = None ->
      exists resp,
        analyze_video_route env renv video_id current_user db' s
        = (Returns (Respond resp, db'), s) /\
        r_classification resp = a_classification a.
Proof.
  intros Hf Hst Hnf Hmeta.
  destruct (build_analysis_result_ok video d Hf) as (a & Ha & Hid & Hc & _).
  exists a, (set_status (add_analysis db a) video "failed").
  split.
  { unfold store_results. rewrite Ha.
    unfold build_geospatial_data, getitem, mbind, res_bind.
    rewrite Hst, Hnf, Hmeta. reflexivity. }
  split; [exact Hid |]. split; [exact Hc |].
  split; [reflexivity |]. split; [reflexivity |]. split; [reflexivity |].
  intros env video_id current_user s Hv Hauth Hna.
  set (db' := set_status (add_analysis db a) video "failed").
  set (video' := mkVideo (v_id video) (v_tracking_id video) (v_filename video)
                         (v_file_path video) (v_user_id video) "failed").
  assert (Hv' : first_video db' video_id = Some video')
    by exact (first_video_set_status db video "failed" video_id Hv).
  assert (Ha' : first_analysis db' (v_id video') = Some a).
  { unfold first_analysis. cbn [v_id video']. rewrite <- Hid.
    apply (first_analysis_added db a []). rewrite Hid. exact Hna. }
  unfold analyze_video_route. rewrite Hv'.
  assert (Hguard : negb (bool_decide (v_user_id video' = Some (u_id current_user)))
                   && negb (u_is_admin current_user) = false).
  { destruct Hauth as [H | H].
    - rewrite bool_decide_eq_true_2 by exact H. reflexivity.
    - rewrite H. apply andb_false_r. }
  rewrite Hguard, Ha'. eexists. split; reflexivity.
Qed.

Lemma store_results_without_gps_metadata_witness :
  exists a db',
    store_results demo_renv demo_db
      (mkVideo 1 "t-1" "clip.mp4" "./uploads/eu/t-1.mp4" (Some 7%Z) "uploaded")
      (analyze_video_error (ValueError "no frames"))
      (verify_geospatial_error (Cv2Error "cv2.error"))
    = (HTTPException 500 "Analysis failed: 'gps_metadata'", db') /\
    analysis_results db' = [a] /\
    v_status <$> videos db' = ["failed"].
Proof.
  destruct (store_results_without_gps_metadata demo_renv demo_db
              (mkVideo 1 "t-1" "clip.mp4" "./uploads/eu/t-1.mp4" (Some 7%Z)
                       "uploaded")
              (analyze_video_error (ValueError "no frames"))
              (verify_geospatial_error (Cv2Error "cv2.error"))
              (VStr "error"))
    as (a & db' & Hrun & _ & _ & Hvid & Han & _).
  - repeat constructor; eexists; reflexivity.
  - reflexivity.
  - reflexivity.
  - reflexivity.
  - exists a, db'. split; [exact Hrun |]. split; [exact Han |].
    rewrite Hvid. reflexivity.
Defined.




(** ** The dashboard after an analysis *)

Lemma filter_fmap_preserve {A} (P : A -> Prop) `{!forall x, Decision (P x)}
    (f : A -> A) (l : list A) :
  (forall x, P (f x) <-> P x) ->
  filter P (f <$> l) = f <$> filter P l.
Proof.
  intros Hf. induction l as [| x l IH]; [reflexivity |].
  rewrite fmap_cons, !filter_cons.
  destruct (decide (P x)) as [Hx | Hx].
  - rewrite decide_True by (apply Hf; exact Hx). rewrite fmap_cons, IH.
    reflexivity.
  - rewrite decide_False by (rewrite Hf; exact Hx). exact IH.
Qed.

Lemma filter_length_snoc {A} (P : A -> Prop) `{!forall x, Decision (P x)}
    (l : list A) (a : A) :
  length (filter P (l ++ [a]))
  = (length (filter P l) + if decide (P a) then 1 else 0)%nat.
Proof.
  rewrite filter_app, length_app, filter_cons.
  destruct (decide (P a)); reflexivity.
Qed.

Lemma filter_length_fmap_mono {A} (P : A -> Prop) `{!forall x, Decision (P x)}
    (f : A -> A) (l : list A) :
  (forall x, P x -> P (f x)) ->
  (length (filter P l) <= length (filter P (f <$> l)))%nat /\
  ((exists x, x ∈ l /\ ~ P x /\ P (f x)) ->
   (length (filter P l) < length (filter P (f <$> l)))%nat).
Proof.
  intros Hf. induction l as [| x l [IHle IHlt]].
  - split; [reflexivity |]. intros (x & Hx & _). inversion Hx.
  - rewrite fmap_cons, !filter_cons.
    destruct (decide (P x)) as [Hx | Hx].
    + rewrite decide_True by (apply Hf; exact Hx). cbn [length].
      split; [lia |].
      intros (y & Hy & Hny & Hfy).
      apply elem_of_cons in Hy as [-> | Hy]; [contradiction |].
      assert ((length (filter P l) < length (filter P (f <$> l)))%nat)
        by (apply IHlt; eauto).
      lia.
    + destruct (decide (P (f x))) as [Hfx | Hfx]; cbn [length].
      * split; [lia |]. intros _. lia.
      * split; [exact IHle |].
        intros (y & Hy & Hny & Hfy).
        apply elem_of_cons in Hy as [-> | Hy]; [contradiction |].
        apply IHlt; eauto.
Qed.

(** X19.  The owner's dashboard after the first analysis of one of their
    videos: the video total is unchanged; the processed count does not
    decrease, and grows when the video was not already "completed"; each of
    the deepfake, real and uncertain tallies grows by one exactly when the
    response carries that classification, so an "error" analysis is counted
    in none of them; the suspicious-location count is unchanged. *)
Theorem dashboard_after_analysis env renv video_id current_user db video s :
  first_video db video_id = Some video ->
  v_user_id video = Some (u_id current_user) ->
  first_analysis db (v_id video) = None ->
  (forall t, is_Some (fromisoformat renv (isoformat env t))) ->
  exists resp db' s',
    analyze_video_route env renv video_id current_user db s
    = (Returns (Respond resp, db'), s') /\
    let before := get_dashboard current_user db in
    let after := get_dashboard current_user db' in
    let tally := fun text : string =>
                   if is_str (r_classification resp) text then 1%nat else 0%nat in
    total_videos after = total_videos before /\
    (processed_videos before <= processed_videos after)%nat /\
    (v_status video <> "completed" ->
     (processed_videos before < processed_videos after)%nat) /\
    deepfake_count after = (deepfake_count before + tally "deepfake")%nat /\
    real_count after = (real_count before + tally "real")%nat /\
    uncertain_count after = (uncertain_count before + tally "uncertain")%nat /\
    geospatial_suspicious after = geospatial_suspicious before.
Proof.
  intros Hv Hown Hna Hiso.
  destruct (analyze_video_route_first_run env renv video_id current_user db
              video s Hv (or_introl Hown) Hna Hiso)
    as (d & s1 & s2 & a & og & _ & Hid & _ & _ & _ & Hog & Hrun).
  cbv zeta in Hrun.
  eexists _, _, s2. split; [exact Hrun |].
  set (db' := set_status _ video "completed").
  set (f := fun v => if decide (v_id v = v_id video)
                     then mkVideo (v_id v) (v_tracking_id v) (v_filename v)
                                  (v_file_path v) (v_user_id v) "completed"
                     else v).
  assert (Hvid : videos db' = f <$> videos db).
  { transitivity (videos (set_status db video "completed")); [| reflexivity].
    rewrite <- (set_status_twice db video "processing" "completed").
    subst db'. destruct og; reflexivity. }
  assert (Han : analysis_results db' = analysis_results db ++ [a])
    by (subst db'; destruct og; reflexivity).
  assert (Hgd : geospatial_data db' = geospatial_data db \/
                exists g, geospatial_data db' = geospatial_data db ++ [g] /\
                          is_str (g_location_verification g) "suspicious" = false).
  { destruct (VideoCapture env (v_file_path video)).
    - destruct Hog as (g & status & -> & _ & Hgv & Hval).
      right. exists g. split; [reflexivity |]. rewrite Hgv.
      destruct Hval as [-> | ->]; reflexivity.
    - subst og. left. reflexivity. }
  destruct (first_video_spec db video_id video Hv) as [_ Hin].
  set (owned := fun v => v_user_id v = Some (u_id current_user)).
  assert (Huv : filter owned (videos db') = f <$> filter owned (videos db)).
  { rewrite Hvid. apply filter_fmap_preserve. intros v. unfold owned, f.
    destruct (decide (v_id v = v_id video)); reflexivity. }
  assert (Hids : v_id <$> filter owned (videos db')
                 = v_id <$> filter owned (videos db)).
  { rewrite Huv, <- list_fmap_compose. apply list_fmap_ext. intros i v _.
    unfold f. cbn. destruct (decide (v_id v = v_id video)); reflexivity. }
  assert (Hmine : a_video_id a ∈ v_id <$> filter owned (videos db)).
  { rewrite Hid. apply list_elem_of_fmap. exists video. split; [reflexivity |].
    apply list_elem_of_filter. split; [exact Hown | exact Hin]. }
  intros before after tally. subst before after.
  unfold get_dashboard.
  cbn [total_videos processed_videos deepfake_count real_count uncertain_count
       geospatial_suspicious].
  fold owned. rewrite Hids, Huv, Han.
  rewrite (filter_app _ (analysis_results db) [a]).
  rewrite (filter_cons _ a []), decide_True by exact Hmine.
  rewrite filter_nil, !filter_length_snoc.
  destruct (filter_length_fmap_mono (fun v => v_status v = "completed") f
              (filter owned (videos db))) as [Hle Hlt].
  { intros v Hc. unfold f. destruct (decide (v_id v = v_id video));
      [reflexivity | exact Hc]. }
  split; [apply length_fmap |]. split; [exact Hle |].
  split.
  { intros Hnc. apply Hlt. exists video.
    split; [apply list_elem_of_filter; split; [exact Hown | exact Hin] |].
    split; [exact Hnc |]. unfold f. rewrite decide_True by reflexivity.
    reflexivity. }
  assert (Htally : forall text,
            (if decide (is_str (a_classification a) text = true)
             then 1 else 0)%nat = tally text).
  { intros text. subst tally. cbn [r_classification _create_analysis_response].
    destruct (is_str (a_classification a) text);
      [rewrite decide_True by reflexivity | rewrite decide_False by discriminate];
      reflexivity. }
  rewrite !Htally.
  split; [reflexivity |]. split; [reflexivity |]. split; [reflexivity |].
  destruct Hgd as [-> | (g & -> & Hns)]; [reflexivity |].
  rewrite filter_app, filter_app, length_app.
  assert (Hz : length (filter (fun g0 => is_str (g_location_verification g0)
                                           "suspicious" = true)
                         (filter (fun g0 => g_video_id g0
                                            ∈ v_id <$> filter owned (videos db))
                                 [g])) = 0%nat).
  { rewrite filter_cons. destruct (decide _); [| reflexivity].
    rewrite filter_cons, decide_False by (rewrite Hns; discriminate).
    reflexivity. }
  rewrite Hz. lia.
Qed.

Lemma dashboard_after_analysis_witness :
  exists resp db' s',
    analyze_video_route (demo_env (Returns (clip 3))) demo_renv "t-1"
      (mkUser 7 false) demo_db s0
    = (Returns (Respond resp, db'), s') /\
    processed_videos (get_dashboard (mkUser 7 false) demo_db) = 0%nat /\
    processed_videos (get_dashboard (mkUser 7 false) db') = 1%nat.
Proof.
  destruct (dashboard_after_analysis (demo_env (Returns (clip 3))) demo_renv
              "t-1" (mkUser 7 false) demo_db
              (mkVideo 1 "t-1" "clip.mp4" "./uploads/eu/t-1.mp4" (Some 7%Z)
                       "uploaded") s0)
    as (resp & db' & s' & Hrun & Htot & Hle & Hlt & _).
  - reflexivity.
  - reflexivity.
  - reflexivity.
  - intros t. eexists. reflexivity.
  - exists resp, db', s'. split; [exact Hrun |]. split; [reflexivity |].
    assert (H0 : processed_videos (get_dashboard (mkUser 7 false) demo_db) = 0%nat)
      by reflexivity.
    assert (H1 : total_videos (get_dashboard (mkUser 7 false) demo_db) = 1%nat)
      by reflexivity.
    assert (Hub : (processed_videos (get_dashboard (mkUser 7 false) db')
                   <= total_videos (get_dashboard (mkUser 7 false) db'))%nat).
    { unfold get_dashboard. cbn [processed_videos total_videos].
      apply length_filter. }
    specialize (Hlt ltac:(discriminate)).
    rewrite H0 in Hlt. rewrite Htot, H1 in Hub. lia.
Defined.

(** * How the fused score responds to its signals *)

(** X20.  [calculate_deepfake_score] is monotone in its five readings: when
    the face, lighting and temporal consistency readings do not decrease and
    the artifact and audio-manipulation readings do not increase (a missing
    reading counting as 0.5), the score does not increase; so a "real" video
    stays "real" and a video that is "deepfake" afterwards was "deepfake"
    before. *)
Theorem calculate_deepfake_score_monotone (ar ar' : gmap string (gmap string Q)) :
  get_metric ar "face_consistency" "consistency_score"
    <= get_metric ar' "face_consistency" "consistency_score" ->
  get_metric ar "lighting_consistency" "shadow_consistency"
    <= get_metric ar' "lighting_consistency" "shadow_consistency" ->
  get_metric ar' "compression_artifacts" "mean_artifact_score"
    <= get_metric ar "compression_artifacts" "mean_artifact_score" ->
  get_metric ar "temporal_consistency" "motion_consistency"
    <= get_metric ar' "temporal_consistency" "motion_consistency" ->
  get_metric ar' "audio_manipulation" "audio_manipulation_score"
    <= get_metric ar "audio_manipulation" "audio_manipulation_score" ->
  calculate_deepfake_score ar' <= calculate_deepfake_score ar /\
  (classification_of (calculate_deepfake_score ar) = "real" ->
   classification_of (calculate_deepfake_score ar') = "real") /\
  (classification_of (calculate_deepfake_score ar') = "deepfake" ->
   classification_of (calculate_deepfake_score ar) = "deepfake").
Proof.
  intros Hf Hl Hc Ht Ha.
  assert (Hle : calculate_deepfake_score ar' <= calculate_deepfake_score ar)
    by (rewrite !calculate_deepfake_score_unfold; lra).
  split; [exact Hle |].
  destruct (classification_of_spec (calculate_deepfake_score ar))
    as (Hd & Hr & _).
  destruct (classification_of_spec (calculate_deepfake_score ar'))
    as (Hd' & Hr' & _).
  split.
  - intros H. apply Hr'. apply Hr in H. lra.
  - intros H. apply Hd. apply Hd' in H. lra.
Qed.

Lemma calculate_deepfake_score_monotone_witness :
  calculate_deepfake_score
    {[ "face_consistency" := {[ "consistency_score" := 0.9 ]} ]}
  <= calculate_deepfake_score
       {[ "face_consistency" := {[ "consistency_score" := 0.2 ]} ]}.
Proof.
  apply (calculate_deepfake_score_monotone
           {[ "face_consistency" := {[ "consistency_score" := 0.2 ]} ]}
           {[ "face_consistency" := {[ "consistency_score" := 0.9 ]} ]});
    vm_compute; discriminate.
Defined.


